(** * The Authzed facade of [extended_example]: a shallow embedding

    The Python sources [models.py], [authzed_base.py] and [authzed_grpc.py]
    are embedded as Rocq functions.  Remote procedure calls go through an
    abstract client; every coroutine becomes a function that threads a
    [World] (the remote service, the trace of calls sent to it, the logger
    output) and returns either a value or the exception it raised. *)

From stdpp Require Import base option list strings pretty gmap.

Open Scope string_scope.
Open Scope list_scope.

(** ** Python values *)

(** [Union[str, int]], the type of the caller-supplied identifiers. *)
Inductive PyId :=
  | IdStr (s : string)
  | IdInt (n : Z).

#[global] Instance PyId_eq_dec : EqDecision PyId.
Proof. solve_decision. Defined.

(** The builtin [str] on [Union[str, int]]: a string is returned as it is,
    an integer is printed in decimal with a leading minus sign if negative. *)
Definition str (x : PyId) : string :=
  match x with
  | IdStr s => s
  | IdInt n => pretty n
  end.

(** ** Exceptions and results *)

Inductive Exn :=
  | ValueError (msg : string)
  | NotImplementedError (msg : string)
  | RuntimeError (msg : string)
  | AttributeError
  | CancelledError
  | AioRpcError (code : nat) (details : string).

#[global] Instance Exn_eq_dec : EqDecision Exn.
Proof. solve_decision. Defined.

(** The exceptions raised by the transport: the gRPC call errors. *)
Definition is_transport_error (e : Exn) : bool :=
  match e with
  | AioRpcError _ _ => true
  | _ => false
  end.

Inductive Result (A : Type) :=
  | Ok (a : A)
  | Raise (e : Exn).
Arguments Ok {A} a.
Arguments Raise {A} e.

Definition result_bind {A B} (r : Result A) (k : A → Result B) : Result B :=
  match r with
  | Ok a => k a
  | Raise e => Raise e
  end.

(** ** Python dictionaries

    A [dict] keeps its keys in insertion order; assigning to a key that is
    already present replaces the value in place and keeps the first key
    object.  Keys are compared with the dataclass equality, which is the
    structural equality of the fields. *)
Module PyDict.
Section dict.
Context {K V : Type} `{EqDecision K}.

Definition t : Type := list (K * V).

Definition empty : t := [].

Fixpoint set (d : t) (k : K) (v : V) : t :=
  match d with
  | [] => [(k, v)]
  | (k', v') :: d' =>
      if decide (k' = k) then (k', v) :: d' else (k', v') :: set d' k v
  end.

Fixpoint get (d : t) (k : K) : option V :=
  match d with
  | [] => None
  | (k', v') :: d' => if decide (k' = k) then Some v' else get d' k
  end.

Definition keys (d : t) : list K := d.*1.
Definition values (d : t) : list V := d.*2.
Definition items (d : t) : list (K * V) := d.

(** The comprehension [{k: f(k) for k in l}]. *)
Definition comprehension (f : K → V) (l : list K) : t :=
  foldl (λ d k, set d k (f k)) empty l.

(** The comprehension [{k: f(k, v) for k, v in its}]. *)
Definition comprehension_items {W} (f : K → W → V) (its : list (K * W))
    : t :=
  foldl (λ d kv, set d kv.1 (f kv.1 kv.2)) empty its.

(** How often a key occurs among the keys of a dictionary. *)
Definition occurrences (d : t) (k : K) : nat :=
  length (filter (λ k', k' = k) (keys d)).
End dict.
Arguments t : clear implicits.
End PyDict.

(** ** models.py *)

Module RelationUpdateType.
Inductive t :=
  | create
  | grant
  | revoke.

#[global] Instance eq_dec : EqDecision t.
Proof. solve_decision. Defined.
End RelationUpdateType.

Module Access.
Inductive t :=
  | allow
  | forbid
  | undefined.

#[global] Instance eq_dec : EqDecision t.
Proof. solve_decision. Defined.

(** [is_allowed]: [self == self.allow]. *)
Definition is_allowed (self : t) : bool := bool_decide (self = allow).
End Access.

(** [CheckRequest].  Both identifier fields pass through a [mode="before"]
    validator that returns [str(raw)], so a constructed value only ever
    holds strings; [init] is the constructor, the record is what it builds.
    The dataclass is frozen with generated [__eq__] and [__hash__], both
    over the tuple of fields. *)
Module CheckRequest.
Record t := make {
  subject_type : string;
  subject_id : string;
  resource_type : string;
  resource_id : string;
  permission : string;
}.

Definition subject_id_validator (raw_subject_id : PyId) : string :=
  str raw_subject_id.

Definition object_id_validator (raw_resource_id : PyId) : string :=
  str raw_resource_id.

Definition init (subject_type : string) (subject_id : PyId)
    (resource_type : string) (resource_id : PyId) (permission : string) : t :=
  {| subject_type := subject_type;
     subject_id := subject_id_validator subject_id;
     resource_type := resource_type;
     resource_id := object_id_validator resource_id;
     permission := permission |}.

(** The tuple of fields that [__eq__] compares and [__hash__] hashes. *)
Definition astuple (r : t) : list string :=
  [subject_type r; subject_id r; resource_type r; resource_id r; permission r].

#[global] Instance eq_dec : EqDecision t.
Proof. solve_decision. Defined.
End CheckRequest.

(** [ResourcesRequest] has no validator: an identifier stays as supplied. *)
Module ResourcesRequest.
Record t := make {
  subject_type : string;
  subject_id : PyId;
  resource_type : string;
  permission : string;
}.

#[global] Instance eq_dec : EqDecision t.
Proof. solve_decision. Defined.
End ResourcesRequest.

(** [RelationUpdateRequest]: [subject_relation] defaults to the empty
    string and [update_type] to [None].  A keyword argument that may be
    left out is an [option] argument of [init], [None] standing for
    "not given". *)
Module RelationUpdateRequest.
Record t := make {
  subject_type : string;
  subject_id : PyId;
  resource_type : string;
  resource_id : PyId;
  relation : string;
  subject_relation : string;
  update_type : option RelationUpdateType.t;
}.

Definition init (subject_type : string) (subject_id : PyId)
    (resource_type : string) (resource_id : PyId) (relation : string)
    (subject_relation : option string)
    (update_type : option RelationUpdateType.t) : t :=
  {| subject_type := subject_type;
     subject_id := subject_id;
     resource_type := resource_type;
     resource_id := resource_id;
     relation := relation;
     subject_relation := default "" subject_relation;
     update_type := update_type |}.
End RelationUpdateRequest.

(** The two subclasses redeclare [update_type] with the type
    [RelationUpdateType] (no [Optional]) and a default; pydantic rejects
    an explicit [None] for them, so the field carries an enumeration value.
    [upcast] views a subclass value as a [RelationUpdateRequest], which is
    how [update] reads it. *)
Module RelationUpdateGrantRequest.
Record t := make {
  subject_type : string;
  subject_id : PyId;
  resource_type : string;
  resource_id : PyId;
  relation : string;
  subject_relation : string;
  update_type : RelationUpdateType.t;
}.

Definition init (subject_type : string) (subject_id : PyId)
    (resource_type : string) (resource_id : PyId) (relation : string)
    (subject_relation : option string)
    (update_type : option RelationUpdateType.t) : t :=
  {| subject_type := subject_type;
     subject_id := subject_id;
     resource_type := resource_type;
     resource_id := resource_id;
     relation := relation;
     subject_relation := default "" subject_relation;
     update_type := default RelationUpdateType.grant update_type |}.

Definition upcast (r : t) : RelationUpdateRequest.t :=
  {| RelationUpdateRequest.subject_type := subject_type r;
     RelationUpdateRequest.subject_id := subject_id r;
     RelationUpdateRequest.resource_type := resource_type r;
     RelationUpdateRequest.resource_id := resource_id r;
     RelationUpdateRequest.relation := relation r;
     RelationUpdateRequest.subject_relation := subject_relation r;
     RelationUpdateRequest.update_type := Some (update_type r) |}.
End RelationUpdateGrantRequest.

Module RelationUpdateRevokeRequest.
Record t := make {
  subject_type : string;
  subject_id : PyId;
  resource_type : string;
  resource_id : PyId;
  relation : string;
  subject_relation : string;
  update_type : RelationUpdateType.t;
}.

Definition init (subject_type : string) (subject_id : PyId)
    (resource_type : string) (resource_id : PyId) (relation : string)
    (subject_relation : option string)
    (update_type : option RelationUpdateType.t) : t :=
  {| subject_type := subject_type;
     subject_id := subject_id;
     resource_type := resource_type;
     resource_id := resource_id;
     relation := relation;
     subject_relation := default "" subject_relation;
     update_type := default RelationUpdateType.revoke update_type |}.

Definition upcast (r : t) : RelationUpdateRequest.t :=
  {| RelationUpdateRequest.subject_type := subject_type r;
     RelationUpdateRequest.subject_id := subject_id r;
     RelationUpdateRequest.resource_type := resource_type r;
     RelationUpdateRequest.resource_id := resource_id r;
     RelationUpdateRequest.relation := relation r;
     RelationUpdateRequest.subject_relation := subject_relation r;
     RelationUpdateRequest.update_type := Some (update_type r) |}.
End RelationUpdateRevokeRequest.

(** ** The messages of [authzed.api.v1] that the facade builds and reads

    A field of a response that holds a message is an [option]: [None]
    is a field that was not set.  The attribute is there all the same
    and reads as the default message, so reading it inside [try ...
    except AttributeError] never enters the [except] clause.  In the
    expansion tree, whose nodes [_parse_subjects] tests with [hasattr],
    [None] is an absent attribute. *)

Record ObjectReference := {
  object_type : string;
  object_id : string;
}.

Record SubjectReference := {
  object : ObjectReference;
  optional_relation : string;
}.

(** The two alternatives of the [Consistency] requirement the facade sets. *)
Module Consistency.
Inductive t :=
  | minimize_latency (b : bool)
  | fully_consistent (b : bool).

#[global] Instance eq_dec : EqDecision t.
Proof. solve_decision. Defined.
End Consistency.

Inductive Permissionship :=
  | PERMISSIONSHIP_UNSPECIFIED
  | PERMISSIONSHIP_NO_PERMISSION
  | PERMISSIONSHIP_HAS_PERMISSION
  | PERMISSIONSHIP_CONDITIONAL_PERMISSION.

#[global] Instance ObjectReference_eq_dec : EqDecision ObjectReference.
Proof. solve_decision. Defined.
#[global] Instance SubjectReference_eq_dec : EqDecision SubjectReference.
Proof. solve_decision. Defined.
#[global] Instance Permissionship_eq_dec : EqDecision Permissionship.
Proof. solve_decision. Defined.

Module CheckPermissionRequest.
Record t := make {
  consistency : option Consistency.t;
  resource : ObjectReference;
  permission : string;
  subject : SubjectReference;
}.
End CheckPermissionRequest.

Module CheckPermissionResponse.
Record t := make { permissionship : Permissionship }.
End CheckPermissionResponse.

Module BulkCheckPermissionRequestItem.
Record t := make {
  resource : ObjectReference;
  permission : string;
  subject : SubjectReference;
}.
#[global] Instance eq_dec : EqDecision t.
Proof. solve_decision. Defined.
End BulkCheckPermissionRequestItem.

Module BulkCheckPermissionRequest.
Record t := make {
  consistency : option Consistency.t;
  items : list BulkCheckPermissionRequestItem.t;
}.
End BulkCheckPermissionRequest.

(** A pair of the bulk response echoes the request item and carries either
    a response item or an error status; reading [item] of a pair that
    carries an error gives the default item, whose permissionship is
    unspecified. *)
Module BulkCheckPermissionPair.
Inductive response :=
  | response_item (permissionship : Permissionship)
  | response_error (code : nat) (message : string).

Record t := make {
  request : BulkCheckPermissionRequestItem.t;
  response_oneof : response;
}.

Definition item_permissionship (p : t) : Permissionship :=
  match response_oneof p with
  | response_item ps => ps
  | response_error _ _ => PERMISSIONSHIP_UNSPECIFIED
  end.
End BulkCheckPermissionPair.

Module BulkCheckPermissionResponse.
Record t := make { pairs : list BulkCheckPermissionPair.t }.
End BulkCheckPermissionResponse.

Inductive Operation :=
  | OPERATION_UNSPECIFIED
  | OPERATION_CREATE
  | OPERATION_TOUCH
  | OPERATION_DELETE.

Record Relationship := {
  rel_resource : ObjectReference;
  rel_relation : string;
  rel_subject : SubjectReference;
}.

Record RelationshipUpdate := {
  operation : Operation;
  relationship : Relationship;
}.

Module WriteRelationshipsRequest.
Record t := make { updates : list RelationshipUpdate }.
End WriteRelationshipsRequest.

(** The responses are protobuf messages.  A string field always has a
    value, the empty string when it was not set.  A field that holds a
    message may be set or not ([None] below); reading it never raises:
    a field that was not set reads as the default message, all of whose
    fields are unset. *)
Record ZedToken := { token : string }.

Module WriteRelationshipsResponse.
Record t := make { written_at : option ZedToken }.
End WriteRelationshipsResponse.

Module ExpandPermissionTreeRequest.
Record t := make {
  consistency : option Consistency.t;
  resource : ObjectReference;
  permission : string;
}.
End ExpandPermissionTreeRequest.

(** The expansion tree as [_parse_subjects] looks at it: a node may have a
    [leaf] attribute, whose [subjects] it lists, and may have an
    [intermediate] attribute with [children]. [tree_children] is [None]
    when [intermediate] or [intermediate.children] is absent.  A node
    read from a protobuf message has both attributes: the one that was
    not set lists nothing. *)
#[warnings="-register-all"]
Inductive PermissionRelationshipTree :=
  | TreeNode (tree_leaf : option (list SubjectReference))
             (tree_children : option (list PermissionRelationshipTree)).

Module ExpandPermissionTreeResponse.
Record t := make { tree_root : option PermissionRelationshipTree }.
End ExpandPermissionTreeResponse.

(** The default [PermissionRelationshipTree]: its leaf lists no subject
    and its intermediate node has no children. *)
Definition empty_tree : PermissionRelationshipTree :=
  TreeNode (Some []) (Some []).

(** Reading a field that holds a message: the message when the field is
    set, the default message [unset] otherwise.  The read is a [Result]
    because the code reads inside [try ... except AttributeError]; it is
    never [Raise]. *)
Definition message_field {A} (unset : A) (field : option A) : Result A :=
  Ok (default unset field).

(** ** The remote client and the world the coroutines run in *)

(** [AsyncClient]: each procedure takes the request and the state of the
    remote service and gives the response, or the exception the call
    raised, and the next state of the service. *)
Record AsyncClient (Service : Type) := {
  CheckPermission :
    CheckPermissionRequest.t → Service →
    Result CheckPermissionResponse.t * Service;
  BulkCheckPermission :
    BulkCheckPermissionRequest.t → Service →
    Result BulkCheckPermissionResponse.t * Service;
  WriteRelationships :
    WriteRelationshipsRequest.t → Service →
    Result WriteRelationshipsResponse.t * Service;
  ExpandPermissionTree :
    ExpandPermissionTreeRequest.t → Service →
    Result ExpandPermissionTreeResponse.t * Service;
}.
Arguments CheckPermission {Service}.
Arguments BulkCheckPermission {Service}.
Arguments WriteRelationships {Service}.
Arguments ExpandPermissionTree {Service}.

(** A request that was handed to the client. *)
Inductive RemoteCall :=
  | CallCheckPermission (r : CheckPermissionRequest.t)
  | CallBulkCheckPermission (r : BulkCheckPermissionRequest.t)
  | CallWriteRelationships (r : WriteRelationshipsRequest.t)
  | CallExpandPermissionTree (r : ExpandPermissionTreeRequest.t).

(** What [self.logger.error] was called with. *)
Inductive LogRecord :=
  | LogErrorMessage (msg : string)
  | LogErrorException (e : Exn).

Record World (Service : Type) := {
  service : Service;
  calls : list RemoteCall;
  log : list LogRecord;
}.
Arguments service {Service}.
Arguments calls {Service}.
Arguments log {Service}.

(** A coroutine: from a world to its outcome and the world it leaves. *)
Definition Coro (Service A : Type) : Type :=
  World Service → Result A * World Service.

Definition ret {S A} (a : A) : Coro S A := λ w, (Ok a, w).

Definition raise {S A} (e : Exn) : Coro S A := λ w, (Raise e, w).

Definition bind {S A B} (c : Coro S A) (k : A → Coro S B) : Coro S B :=
  λ w, match c w with
       | (Ok a, w') => k a w'
       | (Raise e, w') => (Raise e, w')
       end.

Definition lift_result {S A} (r : Result A) : Coro S A := λ w, (r, w).

(** [await self.client.X(request)]: the call is recorded, the service
    moves on, and the response or the exception comes back. *)
Definition after_call {S} (w : World S) (call : RemoteCall) (s' : S)
    : World S :=
  {| service := s'; calls := calls w ++ [call]; log := log w |}.

Definition await_call {S A} (call : RemoteCall) (rpc : S → Result A * S)
    : Coro S A :=
  λ w, let '(r, s') := rpc (service w) in (r, after_call w call s').

(** [self.logger.error(...)]. *)
Definition logger_error {S} (rec : LogRecord) : Coro S unit :=
  λ w, (Ok tt,
        {| service := service w; calls := calls w; log := log w ++ [rec] |}).

#[global] Instance Coro_ret {S} : MRet (Coro S) := λ A, @ret S A.
#[global] Instance Coro_bind {S} : MBind (Coro S) := λ A B k c, bind c k.

(** ** authzed_base.py: the methods [BaseAuthzed] implements

    The abstract methods are the variables of the section; a keyword
    argument left out of a call takes its default ([False] for both
    consistency flags). *)
Module BaseAuthzed.
Section methods.
Context {Service : Type}.
Variable check : CheckRequest.t → bool → bool → Coro Service Access.t.
Variable check_many :
  list CheckRequest.t → bool → bool →
  Coro Service (PyDict.t CheckRequest.t Access.t).
Variable update : list RelationUpdateRequest.t → Coro Service unit.
Variable subjects_generator :
  string → PyId → string → string → bool → Coro Service (list string).

Definition is_allowed (request : CheckRequest.t)
    (full_consistent minimize_latency : bool) : Coro Service bool :=
  access ← (if minimize_latency
            then check request false minimize_latency
            else check request full_consistent false);
  mret (Access.is_allowed access).

Definition is_allowed_many (requests : list CheckRequest.t)
    (full_consistent minimize_latency : bool)
    : Coro Service (PyDict.t CheckRequest.t bool) :=
  results_list ← (if minimize_latency
                  then check_many requests false minimize_latency
                  else check_many requests full_consistent false);
  mret (PyDict.comprehension_items
          (λ request response, Access.is_allowed response)
          (PyDict.items results_list)).

Definition grant (resource_type : string) (resource_id : PyId)
    (relation : string) (subject_type : string) (subject_id : PyId)
    (subject_relation : string) : Coro Service unit :=
  update [RelationUpdateRequest.init subject_type subject_id resource_type
            resource_id relation (Some subject_relation)
            (Some RelationUpdateType.grant)].

Definition grant_many (updates : list RelationUpdateGrantRequest.t)
    : Coro Service unit :=
  update (RelationUpdateGrantRequest.upcast <$> updates).

Definition revoke (resource_type : string) (resource_id : PyId)
    (relation : string) (subject_type : string) (subject_id : PyId)
    (subject_relation : string) : Coro Service unit :=
  update [RelationUpdateRequest.init subject_type subject_id resource_type
            resource_id relation (Some subject_relation)
            (Some RelationUpdateType.revoke)].

Definition revoke_many (updates : list RelationUpdateRevokeRequest.t)
    : Coro Service unit :=
  update (RelationUpdateRevokeRequest.upcast <$> updates).

(** [subjects] collects what the generator yields. *)
Definition subjects (resource_type : string) (resource_id : PyId)
    (permission subject_type : string) (full_consistent : bool)
    : Coro Service (list string) :=
  subjects_generator resource_type resource_id permission subject_type
    full_consistent.
End methods.
End BaseAuthzed.

(** ** asyncio tasks

    [resources_many] starts one task per request and reads each task only
    after [asyncio.wait] has returned.  What it can then observe of a task
    is one of four states: still pending ([done()] is false); done and
    cancelled, which is how a task ends whose coroutine raised
    [CancelledError] ([exception()] then raises [CancelledError]); done
    by raising another exception ([exception()] returns it); done with a
    result. *)
Inductive TaskState :=
  | task_pending
  | task_cancelled
  | task_exception (e : Exn)
  | task_result (r : list string).

(** The arguments of the coroutine [self.resources(...)] a task runs. *)
Record ResourcesCall := {
  call_resource_type : string;
  call_permission : string;
  call_subject_type : string;
  call_subject_id : PyId;
  call_limit : option Z;
  call_cursor : option string;
}.

(** A task handle: tasks are numbered in the order [create_task] made
    them. *)
Record Task := {
  task_id : nat;
  task_coro : ResourcesCall;
}.

(** ** authzed_grpc.py: [AuthzedGrpc] *)
Module AuthzedGrpc.
Section methods.
Context {Service : Type}.
Variable client : AsyncClient Service.

(** The consistency requirement chosen in [check] and [check_many]. *)
Definition select_consistency (full_consistent minimize_latency : bool)
    : option Consistency.t :=
  if full_consistent then Some (Consistency.fully_consistent true)
  else if minimize_latency then Some (Consistency.minimize_latency true)
  else None.

Definition check_permission_request (request : CheckRequest.t)
    (full_consistent minimize_latency : bool)
    : CheckPermissionRequest.t :=
  let subject_reference :=
    {| object :=
         {| object_type := CheckRequest.subject_type request;
            object_id := str (IdStr (CheckRequest.subject_id request)) |};
       optional_relation := "" |} in
  let consistency := select_consistency full_consistent minimize_latency in
  {| CheckPermissionRequest.resource :=
       {| object_type := CheckRequest.resource_type request;
          object_id := str (IdStr (CheckRequest.resource_id request)) |};
     CheckPermissionRequest.permission := CheckRequest.permission request;
     CheckPermissionRequest.subject := subject_reference;
     CheckPermissionRequest.consistency := consistency |}.

Definition check (request : CheckRequest.t)
    (full_consistent minimize_latency : bool) : Coro Service Access.t :=
  let req := check_permission_request request full_consistent
               minimize_latency in
  response ← await_call (CallCheckPermission req) (CheckPermission client req);
  if decide (CheckPermissionResponse.permissionship response
             = PERMISSIONSHIP_HAS_PERMISSION)
  then mret Access.allow
  else mret Access.forbid.

(** The override of [is_allowed]: the keyword arguments go to [check]
    as they came. *)
Definition is_allowed (request : CheckRequest.t)
    (full_consistent minimize_latency : bool) : Coro Service bool :=
  check_result ← check request full_consistent minimize_latency;
  mret (Access.is_allowed check_result).

(** The item [check_many] appends for one request. *)
Definition bulk_check_permission_request_item (request : CheckRequest.t)
    : BulkCheckPermissionRequestItem.t :=
  let object_reference :=
    {| object_type := CheckRequest.resource_type request;
       object_id := str (IdStr (CheckRequest.resource_id request)) |} in
  let subject_reference :=
    {| object :=
         {| object_type := CheckRequest.subject_type request;
            object_id := str (IdStr (CheckRequest.subject_id request)) |};
       optional_relation := "" |} in
  {| BulkCheckPermissionRequestItem.resource := object_reference;
     BulkCheckPermissionRequestItem.permission :=
       CheckRequest.permission request;
     BulkCheckPermissionRequestItem.subject := subject_reference |}.

Definition bulk_check_permission_request (requests : list CheckRequest.t)
    (full_consistent minimize_latency : bool)
    : BulkCheckPermissionRequest.t :=
  {| BulkCheckPermissionRequest.consistency :=
       select_consistency full_consistent minimize_latency;
     BulkCheckPermissionRequest.items :=
       bulk_check_permission_request_item <$> requests |}.

(** The [CheckRequest] rebuilt from the request a pair echoes. *)
Definition pair_check_request (check_result : BulkCheckPermissionPair.t)
    : CheckRequest.t :=
  let req := BulkCheckPermissionPair.request check_result in
  let object_id_ :=
    object_id (BulkCheckPermissionRequestItem.resource req) in
  let subject_id :=
    object_id (object (BulkCheckPermissionRequestItem.subject req)) in
  CheckRequest.init
    (object_type (object (BulkCheckPermissionRequestItem.subject req)))
    (IdStr subject_id)
    (object_type (BulkCheckPermissionRequestItem.resource req))
    (IdStr object_id_)
    (BulkCheckPermissionRequestItem.permission req).

(** The loop over [response.pairs]. *)
Definition apply_pairs (pairs : list BulkCheckPermissionPair.t)
    (result_response : PyDict.t CheckRequest.t Access.t)
    : PyDict.t CheckRequest.t Access.t :=
  foldl (λ d check_result,
           if decide (BulkCheckPermissionPair.item_permissionship check_result
                      = PERMISSIONSHIP_HAS_PERMISSION)
           then PyDict.set d (pair_check_request check_result) Access.allow
           else d)
        result_response pairs.

Definition check_many (requests : list CheckRequest.t)
    (full_consistent minimize_latency : bool)
    : Coro Service (PyDict.t CheckRequest.t Access.t) :=
  match requests with
  | [] => mret PyDict.empty
  | _ =>
      let req := bulk_check_permission_request requests full_consistent
                   minimize_latency in
      response ← await_call (CallBulkCheckPermission req)
                   (BulkCheckPermission client req);
      let result_response :=
        PyDict.comprehension (λ _, Access.forbid) requests in
      mret (apply_pairs (BulkCheckPermissionResponse.pairs response)
              result_response)
  end.

Definition is_allowed_many (requests : list CheckRequest.t)
    (full_consistent minimize_latency : bool)
    : Coro Service (PyDict.t CheckRequest.t bool) :=
  results_list ← check_many requests full_consistent minimize_latency;
  mret (PyDict.comprehension_items
          (λ request response, Access.is_allowed response)
          (PyDict.items results_list)).

Definition _relation_update_type (update_type : RelationUpdateType.t)
    : Result Operation :=
  match update_type with
  | RelationUpdateType.grant => Ok OPERATION_TOUCH
  | RelationUpdateType.revoke => Ok OPERATION_DELETE
  | _ => Raise (NotImplementedError "Relation update type not defined.")
  end.

(** One turn of the loop of [update]: the check of [update_type], then
    the [RelationshipUpdate] built for the element. *)
Definition relationship_update (update : RelationUpdateRequest.t)
    : Result RelationshipUpdate :=
  match RelationUpdateRequest.update_type update with
  | None => Raise (ValueError "update_type cannot be None")
  | Some update_type =>
      result_bind (_relation_update_type update_type) (λ op,
        Ok {| operation := op;
              relationship :=
                {| rel_resource :=
                     {| object_type :=
                          RelationUpdateRequest.resource_type update;
                        object_id :=
                          str (RelationUpdateRequest.resource_id update) |};
                   rel_relation := RelationUpdateRequest.relation update;
                   rel_subject :=
                     {| object :=
                          {| object_type :=
                               RelationUpdateRequest.subject_type update;
                             object_id :=
                               str (RelationUpdateRequest.subject_id update) |};
                        optional_relation :=
                          RelationUpdateRequest.subject_relation update |} |} |})
  end.

(** The loop of [update], with the list it appends to. *)
Fixpoint update_loop (updates : list RelationUpdateRequest.t)
    (relationship_updates : list RelationshipUpdate)
    : Result (list RelationshipUpdate) :=
  match updates with
  | [] => Ok relationship_updates
  | update :: rest =>
      match relationship_update update with
      | Raise e => Raise e
      | Ok ru => update_loop rest (relationship_updates ++ [ru])
      end
  end.

(** [response.written_at.token]. *)
Definition written_at_token (response : WriteRelationshipsResponse.t)
    : Result string :=
  result_bind
    (message_field {| token := "" |}
       (WriteRelationshipsResponse.written_at response))
    (λ written_at, Ok (token written_at)).

Definition update (updates : list RelationUpdateRequest.t)
    : Coro Service unit :=
  relationship_updates ← lift_result (update_loop updates []);
  let request :=
    {| WriteRelationshipsRequest.updates := relationship_updates |} in
  response ← await_call (CallWriteRelationships request)
               (WriteRelationships client request);
  match written_at_token response with
  | Ok _ => mret tt
  | Raise AttributeError => raise (RuntimeError "Invalid authzed response.")
  | Raise e => raise e
  end.

(** [_parse_subjects]: the ids yielded, in the order they are yielded. *)
Fixpoint _parse_subjects (root : PermissionRelationshipTree)
    (subject_type : string) : list string :=
  match root with
  | TreeNode tree_leaf tree_children =>
      match tree_leaf with
      | Some subjects =>
          (λ subject, object_id (object subject)) <$>
            filter (λ subject, object_type (object subject) = subject_type)
              subjects
      | None => []
      end
      ++
      match tree_children with
      | Some children =>
          flat_map (λ child, _parse_subjects child subject_type) children
      | None => []
      end
  end.

Definition expand_permission_tree_request (resource_type : string)
    (resource_id : PyId) (permission : string) (full_consistent : bool)
    : ExpandPermissionTreeRequest.t :=
  {| ExpandPermissionTreeRequest.resource :=
       {| object_type := resource_type; object_id := str resource_id |};
     ExpandPermissionTreeRequest.permission := permission;
     ExpandPermissionTreeRequest.consistency :=
       if full_consistent then Some (Consistency.fully_consistent true)
       else None |}.

(** [subjects_generator]: the list of what it yields, or the exception
    that ends it. *)
Definition subjects_generator (resource_type : string) (resource_id : PyId)
    (permission subject_type : string) (full_consistent : bool)
    : Coro Service (list string) :=
  let req := expand_permission_tree_request resource_type resource_id
               permission full_consistent in
  permission_tree_response ←
    await_call (CallExpandPermissionTree req) (ExpandPermissionTree client req);
  match message_field empty_tree
          (ExpandPermissionTreeResponse.tree_root permission_tree_response)
  with
  | Ok tree_root => mret (_parse_subjects tree_root subject_type)
  | Raise AttributeError =>
      raise (RuntimeError "Invalid permissions expand response.")
  | Raise e => raise e
  end.

(** *** [resources_many]

    [asyncio_wait] is the event loop during [await asyncio.wait(...,
    timeout=10)]: from the coroutines that were spawned, in the order
    of their creation, and the state of the service, it gives the state
    each task is in when the wait returns, and the state of the
    service then.  [asyncio.wait] returns at the timeout without
    raising, so the [except asyncio.TimeoutError] branch is never
    entered.  The wait is taken to return: a cancellation of the caller
    of [resources_many] while it waits is outside the model. *)
Variable asyncio_wait :
  list ResourcesCall → Service → (nat → TaskState) * Service.

Definition resources_call (request : ResourcesRequest.t)
    (limit : option Z) (cursor : option string) : ResourcesCall :=
  {| call_resource_type := ResourcesRequest.resource_type request;
     call_permission := ResourcesRequest.permission request;
     call_subject_type := ResourcesRequest.subject_type request;
     call_subject_id := ResourcesRequest.subject_id request;
     call_limit := limit;
     call_cursor := cursor |}.

(** The comprehension that builds [tasks]. *)
Definition create_tasks (requests : list ResourcesRequest.t)
    (limit : option Z) (cursor : option string)
    : PyDict.t ResourcesRequest.t Task :=
  PyDict.comprehension_items (λ _ task, task)
    (imap (λ i request,
             (request,
              {| task_id := i;
                 task_coro := resources_call request limit cursor |}))
          requests).

Definition await_wait (spawned : list ResourcesCall)
    : Coro Service (nat → TaskState) :=
  λ w, let '(states, s') := asyncio_wait spawned (service w) in
       (Ok states, {| service := s'; calls := calls w; log := log w |}).

(** The loop over [tasks.items()], with the dictionary it fills. *)
Fixpoint collect_results (states : nat → TaskState)
    (items : list (ResourcesRequest.t * Task))
    (result : PyDict.t ResourcesRequest.t (list string))
    : Coro Service (PyDict.t ResourcesRequest.t (list string)) :=
  match items with
  | [] => mret result
  | (request, task) :: rest =>
      match states (task_id task) with
      | task_pending =>
          logger_error
            (LogErrorMessage "Authzed resources request task not finished.");;
          collect_results states rest (PyDict.set result request [])
      | task_cancelled => raise CancelledError
      | task_exception e =>
          logger_error (LogErrorException e);;
          collect_results states rest (PyDict.set result request [])
      | task_result r =>
          collect_results states rest (PyDict.set result request r)
      end
  end.

Definition resources_many (requests : list ResourcesRequest.t)
    (limit : option Z) (cursor : option string)
    : Coro Service (PyDict.t ResourcesRequest.t (list string)) :=
  let tasks := create_tasks requests limit cursor in
  states ← match tasks with
           | [] => mret (λ _, task_pending)
           | _ =>
               await_wait
                 ((λ request, resources_call request limit cursor)
                    <$> requests)
           end;
  collect_results states (PyDict.items tasks) PyDict.empty.

(** The inherited methods, over the methods above. *)
Definition grant := BaseAuthzed.grant update.
Definition grant_many := BaseAuthzed.grant_many update.
Definition revoke := BaseAuthzed.revoke update.
Definition revoke_many := BaseAuthzed.revoke_many update.
Definition subjects := BaseAuthzed.subjects subjects_generator.
End methods.
End AuthzedGrpc.

(** ** What the properties below are stated with *)

(** A pair of the bulk response is for the tuple of a request when it
    echoes the five strings the request was sent with. *)
Definition echoes (pair : BulkCheckPermissionPair.t) (request : CheckRequest.t)
    : Prop :=
  let req := BulkCheckPermissionPair.request pair in
  object_type (BulkCheckPermissionRequestItem.resource req)
    = CheckRequest.resource_type request
  ∧ object_id (BulkCheckPermissionRequestItem.resource req)
    = CheckRequest.resource_id request
  ∧ BulkCheckPermissionRequestItem.permission req
    = CheckRequest.permission request
  ∧ object_type (object (BulkCheckPermissionRequestItem.subject req))
    = CheckRequest.subject_type request
  ∧ object_id (object (BulkCheckPermissionRequestItem.subject req))
    = CheckRequest.subject_id request.

(** The bulk response reports permission for the tuple of a request. *)
Definition reports_allow (response : BulkCheckPermissionResponse.t)
    (request : CheckRequest.t) : Prop :=
  ∃ pair, pair ∈ BulkCheckPermissionResponse.pairs response
          ∧ BulkCheckPermissionPair.item_permissionship pair
            = PERMISSIONSHIP_HAS_PERMISSION
          ∧ echoes pair request.

(** The consistency requirement a recorded call carries. *)
Definition call_consistency (call : RemoteCall) : option Consistency.t :=
  match call with
  | CallCheckPermission r => CheckPermissionRequest.consistency r
  | CallBulkCheckPermission r => BulkCheckPermissionRequest.consistency r
  | CallWriteRelationships _ => None
  | CallExpandPermissionTree r => ExpandPermissionTreeRequest.consistency r
  end.

(** Running a coroutine from [w] sends exactly one request to the remote
    service, and that request carries the consistency requirement [c]
    ([None]: no requirement is attached). *)
Definition sends {S A} (run : Coro S A) (w : World S)
    (c : option Consistency.t) : Prop :=
  ∃ call, calls (run w).2 = calls w ++ [call] ∧ call_consistency call = c.

(** The write acknowledgement token of a response, if it carries one:
    [written_at] is set and its token is not empty. *)
Definition write_token (response : WriteRelationshipsResponse.t)
    : option string :=
  written_at ← WriteRelationshipsResponse.written_at response;
  if decide (token written_at = "") then None else Some (token written_at).

(** The relationship a grant or a revoke is about, as it goes on the wire. *)
Definition relationship_tuple (resource_type : string) (resource_id : PyId)
    (relation : string) (subject_type : string) (subject_id : PyId)
    (subject_relation : string) : Relationship :=
  {| rel_resource :=
       {| object_type := resource_type; object_id := str resource_id |};
     rel_relation := relation;
     rel_subject :=
       {| object :=
            {| object_type := subject_type; object_id := str subject_id |};
          optional_relation := subject_relation |} |}.

(** The contract on the acknowledgement of a write, as the description
    of [update] has it: if the remote service answers the write [request]
    with a response, then [run] ends in the runtime error when the
    response carries no token and returns [None] when it carries one;
    either way the one write call was made. *)
Definition token_contract {S} (client : AsyncClient S) (run : Coro S unit)
    (request : WriteRelationshipsRequest.t) (w : World S) : Prop :=
  ∀ response s',
    WriteRelationships client request (service w) = (Ok response, s') →
    let w' := after_call w (CallWriteRelationships request) s' in
    (write_token response = None →
     run w = (Raise (RuntimeError "Invalid authzed response."), w'))
    ∧ (is_Some (write_token response) → run w = (Ok tt, w')).

(** The answer to a write does not matter to [run]: whatever response
    the remote service gives to the write [request], [run] returns
    [None] after the one write call. *)
Definition returns_none_on_answer {S} (client : AsyncClient S)
    (run : Coro S unit) (request : WriteRelationshipsRequest.t) (w : World S)
    : Prop :=
  ∀ response s',
    WriteRelationships client request (service w) = (Ok response, s') →
    run w = (Ok tt, after_call w (CallWriteRelationships request) s').

(** The subjects listed at the leaves of an expansion tree, depth first
    and left to right: the subjects of a node's own leaf, then those of
    its children, first child first. *)
Fixpoint leaf_subjects (root : PermissionRelationshipTree)
    : list SubjectReference :=
  match root with
  | TreeNode tree_leaf tree_children =>
      default [] tree_leaf
      ++ match tree_children with
         | Some children => flat_map leaf_subjects children
         | None => []
         end
  end.

(** What [resources_many] puts in its result for a task in a given state,
    and what it logs. *)
Definition task_outcome (st : TaskState) : list string :=
  match st with
  | task_result r => r
  | _ => []
  end.

Definition task_error_record (st : TaskState) : option LogRecord :=
  match st with
  | task_pending =>
      Some (LogErrorMessage "Authzed resources request task not finished.")
  | task_exception e => Some (LogErrorException e)
  | task_cancelled | task_result _ => None
  end.

(** The position of the last occurrence of a request in a list. *)
Definition last_occurrence {A} (l : list A) (i : nat) (x : A) : Prop :=
  l !! i = Some x ∧ ∀ j, i < j → l !! j ≠ Some x.

(** The sub-lookup [resources_many] starts for a request: the arguments
    [self.resources] is called with. *)
Definition sub_lookup (request : ResourcesRequest.t) (limit : option Z)
    (cursor : option string) : ResourcesCall :=
  {| call_resource_type := ResourcesRequest.resource_type request;
     call_permission := ResourcesRequest.permission request;
     call_subject_type := ResourcesRequest.subject_type request;
     call_subject_id := ResourcesRequest.subject_id request;
     call_limit := limit;
     call_cursor := cursor |}.

(** No sub-lookup that is consulted, the one started for the last
    occurrence of its request, has ended cancelled. *)
Definition none_cancelled (states : nat → TaskState)
    (requests : list ResourcesRequest.t) : Prop :=
  ∀ i request, last_occurrence requests i request → states i ≠ task_cancelled.

(** ** A small remote service to run the facade on

    The service state is the list of relationship tuples written so far;
    a permission is held when a tuple with that name was written.  The
    bulk check answers only for the tuples that hold and leaves the
    others out.  [ack] is the acknowledgement the service sends back for
    a write. *)
Module Toy.
Definition store : Type := list (ObjectReference * string * ObjectReference).

Definition holds (s : store) (resource : ObjectReference)
    (permission : string) (subject : SubjectReference) : bool :=
  bool_decide ((resource, permission, object subject) ∈ s).

Definition apply_update (s : store) (u : RelationshipUpdate) : store :=
  let r := relationship u in
  let tuple := (rel_resource r, rel_relation r, object (rel_subject r)) in
  match operation u with
  | OPERATION_DELETE => filter (λ x, x ≠ tuple) s
  | _ => tuple :: s
  end.

Definition client (ack : WriteRelationshipsResponse.t) : AsyncClient store :=
  {| CheckPermission req s :=
       (Ok {| CheckPermissionResponse.permissionship :=
                if holds s (CheckPermissionRequest.resource req)
                     (CheckPermissionRequest.permission req)
                     (CheckPermissionRequest.subject req)
                then PERMISSIONSHIP_HAS_PERMISSION
                else PERMISSIONSHIP_NO_PERMISSION |}, s);
     BulkCheckPermission req s :=
       (Ok {| BulkCheckPermissionResponse.pairs :=
                (λ item,
                   {| BulkCheckPermissionPair.request := item;
                      BulkCheckPermissionPair.response_oneof :=
                        BulkCheckPermissionPair.response_item
                          PERMISSIONSHIP_HAS_PERMISSION |})
                <$> filter
                      (λ item,
                         holds s (BulkCheckPermissionRequestItem.resource item)
                           (BulkCheckPermissionRequestItem.permission item)
                           (BulkCheckPermissionRequestItem.subject item) = true)
                      (BulkCheckPermissionRequest.items req) |}, s);
     WriteRelationships req s :=
       (Ok ack, foldl apply_update s (WriteRelationshipsRequest.updates req));
     ExpandPermissionTree req s :=
       (Ok {| ExpandPermissionTreeResponse.tree_root :=
                Some (TreeNode None
                  (Some [TreeNode
                           (Some [ {| object := {| object_type := "user";
                                                   object_id := "1" |};
                                      optional_relation := "" |};
                                   {| object := {| object_type := "team";
                                                   object_id := "7" |};
                                      optional_relation := "member" |} ])
                           None;
                         TreeNode
                           (Some [ {| object := {| object_type := "user";
                                                   object_id := "2" |};
                                      optional_relation := "" |} ])
                           None])) |}, s) |}.

Definition acked : WriteRelationshipsResponse.t :=
  {| WriteRelationshipsResponse.written_at :=
       Some {| token := "GhUKEzE3MDAwMDAwMDA=" |} |}.

Definition unacked : WriteRelationshipsResponse.t :=
  {| WriteRelationshipsResponse.written_at := None |}.

Definition doc1 : ObjectReference :=
  {| object_type := "doc"; object_id := "1" |}.
Definition user1 : ObjectReference :=
  {| object_type := "user"; object_id := "1" |}.

Definition world0 : World store :=
  {| service := [(doc1, "view", user1)]; calls := []; log := [] |}.

Definition view_doc1_user1 : CheckRequest.t :=
  CheckRequest.init "user" (IdInt 1) "doc" (IdInt 1) "view".
Definition view_doc1_user2 : CheckRequest.t :=
  CheckRequest.init "user" (IdStr "2") "doc" (IdStr "1") "view".

Definition null_update : RelationUpdateRequest.t :=
  RelationUpdateRequest.init "user" (IdInt 1) "doc" (IdInt 1) "owner"
    None None.
Definition create_update : RelationUpdateRequest.t :=
  RelationUpdateRequest.init "user" (IdInt 1) "doc" (IdInt 1) "owner"
    None (Some RelationUpdateType.create).
Definition grant_update : RelationUpdateRequest.t :=
  RelationUpdateRequest.init "user" (IdInt 2) "doc" (IdInt 1) "owner"
    None (Some RelationUpdateType.grant).

(** An event loop under which the first task stalls, the second fails
    and every other one finishes with two resources. *)
Definition wait (spawned : list ResourcesCall) (s : store)
    : (nat → TaskState) * store :=
  (λ i, match i with
        | 0 => task_pending
        | 1 => task_exception (AioRpcError 14 "unavailable")
        | _ => task_result ["1"; "3"]
        end, s).

(** An event loop under which the first task fails, the second ends
    cancelled and every other one finishes with a resource. *)
Definition wait_cancelled (spawned : list ResourcesCall) (s : store)
    : (nat → TaskState) * store :=
  (λ i, match i with
        | 0 => task_exception (AioRpcError 14 "unavailable")
        | 1 => task_cancelled
        | _ => task_result ["1"]
        end, s).

Definition lookup (permission : string) : ResourcesRequest.t :=
  {| ResourcesRequest.subject_type := "user";
     ResourcesRequest.subject_id := IdInt 1;
     ResourcesRequest.resource_type := "doc";
     ResourcesRequest.permission := permission |}.
End Toy.

(** ** The reading methods of [AuthzedGrpc]

    [relations], [check_relation], [resources] and the two grouped
    listings read a server-streaming procedure with [async for]. *)

(** What a server-streaming call delivers: the items received, in order,
    and then either the end of the stream or the exception that breaks it
    off. *)
Record Stream (A : Type) := {
  stream_items : list A;
  stream_error : option Exn;
}.
Arguments stream_items {A}.
Arguments stream_error {A}.

(** [async for] run to the end of the stream: every item, or the
    exception that broke the stream off. *)
Definition stream_all {A} (s : Stream A) : Result (list A) :=
  match stream_error s with
  | None => Ok (stream_items s)
  | Some e => Raise e
  end.

(** The truth value Python gives to an optional string, an optional
    integer and an optional identifier in [if x:]. *)
Definition truthy_str (x : option string) : bool :=
  match x with
  | Some s => bool_decide (s ≠ "")
  | None => false
  end.

Definition truthy_int (x : option Z) : bool :=
  match x with
  | Some n => bool_decide (n ≠ 0%Z)
  | None => false
  end.

Definition truthy_id (x : option PyId) : bool :=
  match x with
  | Some (IdStr s) => bool_decide (s ≠ "")
  | Some (IdInt n) => bool_decide (n ≠ 0%Z)
  | None => false
  end.

(** The messages of the streaming procedures.  A string field that is
    not set reads as the empty string and an integer field as zero.
    [optional_limit] is a [uint32] field: the builders below set it
    through [uint32], so it only ever holds an integer of that range. *)
Record Cursor := { cursor_token : string }.

(** Setting a [uint32] field, in the constructor of the message or by
    assignment: protobuf refuses an integer outside the range of the
    field with a [ValueError]. *)
Definition uint32 (n : Z) : Result Z :=
  if decide (0 ≤ n ≤ 4294967295)%Z then Ok n
  else Raise (ValueError ("Value out of range: " ++ pretty n)).

Module SubjectFilter.
Record t := make {
  subject_type : string;
  optional_subject_id : string;
}.
End SubjectFilter.

Module RelationshipFilter.
Record t := make {
  resource_type : string;
  optional_resource_id : string;
  optional_relation : string;
  optional_subject_filter : option SubjectFilter.t;
}.
End RelationshipFilter.

Module ReadRelationshipsRequest.
Record t := make {
  relationship_filter : RelationshipFilter.t;
  optional_limit : Z;
  optional_cursor : option Cursor;
}.
End ReadRelationshipsRequest.

Module ReadRelationshipsResponse.
Record t := make { relationship : Relationship }.
End ReadRelationshipsResponse.

Module LookupResourcesRequest.
Record t := make {
  resource_object_type : string;
  permission : string;
  subject : SubjectReference;
  optional_limit : Z;
  optional_cursor : option Cursor;
}.
End LookupResourcesRequest.

Module LookupResourcesResponse.
Record t := make { resource_object_id : string }.
End LookupResourcesResponse.

(** The value types the grouped listings yield. *)
Module ResourcesWithRelations.
Record t := make {
  resource_id : string;
  relations : list string;
}.
End ResourcesWithRelations.

Module SubjectsWithRelations.
Record t := make {
  subject_type : option string;
  subject_id : string;
  relations : list string;
}.
End SubjectsWithRelations.

(** The server-streaming procedures of the client. *)
Record AsyncClientStreams (Service : Type) := {
  ReadRelationships :
    ReadRelationshipsRequest.t → Service →
    Stream ReadRelationshipsResponse.t * Service;
  LookupResources :
    LookupResourcesRequest.t → Service →
    Stream LookupResourcesResponse.t * Service;
}.
Arguments ReadRelationships {Service}.
Arguments LookupResources {Service}.

(** Opening a stream moves the service on.  The trace [calls] lists the
    unary calls only; what a streaming method asks of the service is the
    request it applies the procedure to. *)
Definition open_stream {S A} (rpc : S → Stream A * S) : Coro S (Stream A) :=
  λ w, let '(st, s') := rpc (service w) in
       (Ok st, {| service := s'; calls := calls w; log := log w |}).

(** [d[k].add(x)] on a [defaultdict(set)]: a key that is missing is
    entered with the empty set first. *)
Definition defaultdict_add {K} `{EqDecision K}
    (d : PyDict.t K (gset string)) (k : K) (x : string)
    : PyDict.t K (gset string) :=
  PyDict.set d k (default ∅ (PyDict.get d k) ∪ {[x]}).

(** The methods of [BaseAuthzed] that collect a generator in a list.  A
    generator is the list of what it yields, or the exception that ends
    it, so each of them hands on what its generator gives. *)
Module BaseAuthzedReads.
Section methods.
Context {Service : Type}.
Variable relations_generator :
  string → PyId → string → PyId → option Z → option string →
  Coro Service (list string).
Variable resources_generator :
  string → string → string → PyId → option Z → option string →
  Coro Service (list string).
Variable resources_with_relations_generator :
  string → string → PyId → option string → option Z → option string →
  Coro Service (list ResourcesWithRelations.t).
Variable subjects_with_relations_generator :
  string → option PyId → option string → option Z → option string →
  Coro Service (list SubjectsWithRelations.t).

Definition relations (resource_type : string) (resource_id : PyId)
    (subject_type : string) (subject_id : PyId) (limit : option Z)
    (cursor : option string) : Coro Service (list string) :=
  relations_generator resource_type resource_id subject_type subject_id
    limit cursor.

Definition resources (resource_type permission subject_type : string)
    (subject_id : PyId) (limit : option Z) (cursor : option string)
    : Coro Service (list string) :=
  resources_generator resource_type permission subject_type subject_id
    limit cursor.

Definition resources_with_relations (resource_type subject_type : string)
    (subject_id : PyId) (relation : option string) (limit : option Z)
    (cursor : option string) : Coro Service (list ResourcesWithRelations.t) :=
  resources_with_relations_generator resource_type subject_type subject_id
    relation limit cursor.

Definition subjects_with_relations (resource_type : string)
    (resource_id : option PyId) (subject_type : option string)
    (limit : option Z) (cursor : option string)
    : Coro Service (list SubjectsWithRelations.t) :=
  subjects_with_relations_generator resource_type resource_id subject_type
    limit cursor.
End methods.
End BaseAuthzedReads.

Module AuthzedGrpcReads.
Section methods.
Context {Service : Type}.
Variable client : AsyncClientStreams Service.

(** [Cursor(token=cursor) if cursor else None]. *)
Definition cursor_of (cursor : option string) : option Cursor :=
  if truthy_str cursor then Some {| cursor_token := default "" cursor |}
  else None.

(** [if limit: request.optional_limit = limit]: the field, or the
    [ValueError] of the assignment. *)
Definition limit_of (limit : option Z) : Result Z :=
  if truthy_int limit then uint32 (default 0%Z limit) else Ok 0%Z.

(** The request [relations_generator] builds, or the exception that the
    building raises. *)
Definition relations_request (resource_type : string) (resource_id : PyId)
    (subject_type : string) (subject_id : PyId) (limit : option Z)
    (cursor : option string) : Result ReadRelationshipsRequest.t :=
  let subject_filter :=
    {| SubjectFilter.subject_type := subject_type;
       SubjectFilter.optional_subject_id := str subject_id |} in
  let relationship_filter :=
    {| RelationshipFilter.resource_type := resource_type;
       RelationshipFilter.optional_subject_filter := Some subject_filter;
       RelationshipFilter.optional_resource_id := str resource_id;
       RelationshipFilter.optional_relation := "" |} in
  result_bind (limit_of limit) (λ optional_limit,
    Ok {| ReadRelationshipsRequest.relationship_filter := relationship_filter;
          ReadRelationshipsRequest.optional_cursor := cursor_of cursor;
          ReadRelationshipsRequest.optional_limit := optional_limit |}).

Definition relations_generator (resource_type : string) (resource_id : PyId)
    (subject_type : string) (subject_id : PyId) (limit : option Z)
    (cursor : option string) : Coro Service (list string) :=
  relationship_request ←
    lift_result
      (relations_request resource_type resource_id subject_type subject_id
         limit cursor);
  stream ← open_stream (ReadRelationships client relationship_request);
  items ← lift_result (stream_all stream);
  mret ((λ item, rel_relation (ReadRelationshipsResponse.relationship item))
          <$> items).

Definition check_relation_request (resource_type : string)
    (resource_id : PyId) (relation : string) (subject_type : string)
    (subject_id : PyId) : ReadRelationshipsRequest.t :=
  let subject_filter :=
    {| SubjectFilter.subject_type := subject_type;
       SubjectFilter.optional_subject_id := str subject_id |} in
  let relationship_filter :=
    {| RelationshipFilter.resource_type := resource_type;
       RelationshipFilter.optional_resource_id := str resource_id;
       RelationshipFilter.optional_relation := relation;
       RelationshipFilter.optional_subject_filter := Some subject_filter |} in
  {| ReadRelationshipsRequest.relationship_filter := relationship_filter;
     ReadRelationshipsRequest.optional_cursor := None;
     ReadRelationshipsRequest.optional_limit := 0 |}.

(** The loop of [check_relation]: it returns at the first item with the
    relation and reads no further; the end of the stream gives [False],
    a stream that breaks off raises. *)
Fixpoint check_relation_loop (relation : string)
    (items : list ReadRelationshipsResponse.t) (error : option Exn)
    : Result bool :=
  match items with
  | [] =>
      match error with
      | None => Ok false
      | Some e => Raise e
      end
  | relationship :: rest =>
      if decide (rel_relation (ReadRelationshipsResponse.relationship
                                 relationship) = relation)
      then Ok true
      else check_relation_loop relation rest error
  end.

Definition check_relation (resource_type : string) (resource_id : PyId)
    (relation : string) (subject_type : string) (subject_id : PyId)
    : Coro Service bool :=
  let relationship_request :=
    check_relation_request resource_type resource_id relation subject_type
      subject_id in
  stream ← open_stream (ReadRelationships client relationship_request);
  lift_result
    (check_relation_loop relation (stream_items stream) (stream_error stream)).

(** The request [resources_generator] builds.  [optional_limit=limit]
    in the constructor leaves the field unset for [None] and sets it
    otherwise. *)
Definition resources_request (resource_type permission subject_type : string)
    (subject_id : PyId) (limit : option Z) (cursor : option string)
    : Result LookupResourcesRequest.t :=
  let subject_reference :=
    {| object :=
         {| object_type := subject_type; object_id := str subject_id |};
       optional_relation := "" |} in
  result_bind
    (match limit with
     | None => Ok 0%Z
     | Some n => uint32 n
     end)
    (λ optional_limit,
       Ok {| LookupResourcesRequest.resource_object_type := resource_type;
             LookupResourcesRequest.permission := permission;
             LookupResourcesRequest.subject := subject_reference;
             LookupResourcesRequest.optional_limit := optional_limit;
             LookupResourcesRequest.optional_cursor := cursor_of cursor |}).

Definition resources_generator (resource_type permission subject_type : string)
    (subject_id : PyId) (limit : option Z) (cursor : option string)
    : Coro Service (list string) :=
  requests ←
    lift_result
      (resources_request resource_type permission subject_type subject_id
         limit cursor);
  stream_call ← open_stream (LookupResources client requests);
  items ← lift_result (stream_all stream_call);
  mret (LookupResourcesResponse.resource_object_id <$> items).

Definition resources_with_relations_request (resource_type subject_type : string)
    (subject_id : PyId) (relation : option string) (limit : option Z)
    (cursor : option string) : Result ReadRelationshipsRequest.t :=
  let subject_filter :=
    {| SubjectFilter.subject_type := subject_type;
       SubjectFilter.optional_subject_id := str subject_id |} in
  let relationship_filter :=
    {| RelationshipFilter.resource_type := resource_type;
       RelationshipFilter.optional_subject_filter := Some subject_filter;
       RelationshipFilter.optional_resource_id := "";
       RelationshipFilter.optional_relation :=
         if truthy_str relation then default "" relation else "" |} in
  result_bind (limit_of limit) (λ optional_limit,
    Ok {| ReadRelationshipsRequest.relationship_filter := relationship_filter;
          ReadRelationshipsRequest.optional_cursor := cursor_of cursor;
          ReadRelationshipsRequest.optional_limit := optional_limit |}).

(** The loop that fills [resources_with_relations]. *)
Definition group_by_resource (items : list ReadRelationshipsResponse.t)
    : PyDict.t string (gset string) :=
  foldl (λ resources_with_relations item,
           let object_id_ :=
             object_id
               (rel_resource (ReadRelationshipsResponse.relationship item)) in
           defaultdict_add resources_with_relations object_id_
             (rel_relation (ReadRelationshipsResponse.relationship item)))
        PyDict.empty items.

(** [list(relations)] lists a set in an order Python does not fix;
    [elements] stands for it, and only what holds in any order is
    proved of it. *)
Definition resources_with_relations_generator
    (resource_type subject_type : string) (subject_id : PyId)
    (relation : option string) (limit : option Z) (cursor : option string)
    : Coro Service (list ResourcesWithRelations.t) :=
  relationship_request ←
    lift_result
      (resources_with_relations_request resource_type subject_type subject_id
         relation limit cursor);
  stream ← open_stream (ReadRelationships client relationship_request);
  items ← lift_result (stream_all stream);
  let resources_with_relations := group_by_resource items in
  mret ((λ kv, {| ResourcesWithRelations.resource_id := kv.1;
                  ResourcesWithRelations.relations := elements kv.2 |})
          <$> PyDict.items resources_with_relations).

Definition subjects_with_relations_request (resource_type : string)
    (resource_id : option PyId) (subject_type : option string)
    (limit : option Z) (cursor : option string)
    : Result ReadRelationshipsRequest.t :=
  let relationship_filter :=
    {| RelationshipFilter.resource_type := resource_type;
       RelationshipFilter.optional_subject_filter :=
         if truthy_str subject_type
         then Some {| SubjectFilter.subject_type := default "" subject_type;
                      SubjectFilter.optional_subject_id := "" |}
         else None;
       RelationshipFilter.optional_resource_id :=
         if truthy_id resource_id then from_option str "" resource_id else "";
       RelationshipFilter.optional_relation := "" |} in
  result_bind (limit_of limit) (λ optional_limit,
    Ok {| ReadRelationshipsRequest.relationship_filter := relationship_filter;
          ReadRelationshipsRequest.optional_cursor := cursor_of cursor;
          ReadRelationshipsRequest.optional_limit := optional_limit |}).

(** The loop that fills [subject_with_relations]. *)
Definition group_by_subject (items : list ReadRelationshipsResponse.t)
    : PyDict.t (string * string) (gset string) :=
  foldl (λ subject_with_relations item,
           let subject :=
             (object_type
                (object (rel_subject
                           (ReadRelationshipsResponse.relationship item))),
              object_id
                (object (rel_subject
                           (ReadRelationshipsResponse.relationship item)))) in
           defaultdict_add subject_with_relations subject
             (rel_relation (ReadRelationshipsResponse.relationship item)))
        PyDict.empty items.

Definition subjects_with_relations_generator (resource_type : string)
    (resource_id : option PyId) (subject_type : option string)
    (limit : option Z) (cursor : option string)
    : Coro Service (list SubjectsWithRelations.t) :=
  relationship_request ←
    lift_result
      (subjects_with_relations_request resource_type resource_id subject_type
         limit cursor);
  stream ← open_stream (ReadRelationships client relationship_request);
  items ← lift_result (stream_all stream);
  let subject_with_relations := group_by_subject items in
  mret ((λ kv, {| SubjectsWithRelations.subject_type := Some kv.1.1;
                  SubjectsWithRelations.subject_id := kv.1.2;
                  SubjectsWithRelations.relations := elements kv.2 |})
          <$> PyDict.items subject_with_relations).

(** The inherited methods, over the generators above. *)
Definition relations := BaseAuthzedReads.relations relations_generator.
Definition resources := BaseAuthzedReads.resources resources_generator.
Definition resources_with_relations :=
  BaseAuthzedReads.resources_with_relations
    resources_with_relations_generator.
Definition subjects_with_relations :=
  BaseAuthzedReads.subjects_with_relations subjects_with_relations_generator.
End methods.
End AuthzedGrpcReads.

(** ** What the further properties are stated with *)

(** The operation a relation update stands for, if it has one. *)
Definition update_operation (u : RelationUpdateRequest.t) : option Operation :=
  match RelationUpdateRequest.update_type u with
  | Some RelationUpdateType.grant => Some OPERATION_TOUCH
  | Some RelationUpdateType.revoke => Some OPERATION_DELETE
  | _ => None
  end.

(** A relation update on the wire, under a given operation. *)
Definition wire_update (op : Operation) (u : RelationUpdateRequest.t)
    : RelationshipUpdate :=
  {| operation := op;
     relationship :=
       relationship_tuple
         (RelationUpdateRequest.resource_type u)
         (RelationUpdateRequest.resource_id u)
         (RelationUpdateRequest.relation u)
         (RelationUpdateRequest.subject_type u)
         (RelationUpdateRequest.subject_id u)
         (RelationUpdateRequest.subject_relation u) |}.

(** A limit the [uint32] field takes: none, or an integer from 0 to
    2^32 - 1. *)
Definition fits_uint32 (limit : option Z) : Prop :=
  ∀ n, limit = Some n → (0 ≤ n ≤ 4294967295)%Z.

(** The elements of a list in the order in which each is first seen. *)
Fixpoint first_seen {A} `{EqDecision A} (l : list A) : list A :=
  match l with
  | [] => []
  | x :: l => x :: filter (λ y, y ≠ x) (first_seen l)
  end.

(** What a streamed relationship is about. *)
Definition item_resource_id (item : ReadRelationshipsResponse.t) : string :=
  object_id (rel_resource (ReadRelationshipsResponse.relationship item)).

Definition item_relation (item : ReadRelationshipsResponse.t) : string :=
  rel_relation (ReadRelationshipsResponse.relationship item).

Definition item_subject (item : ReadRelationshipsResponse.t)
    : string * string :=
  let o := object (rel_subject (ReadRelationshipsResponse.relationship item)) in
  (object_type o, object_id o).

(** A client whose streaming procedures deliver given streams, and some
    relationships to stream. *)
Module ToyStreams.
Definition client (reads : Stream ReadRelationshipsResponse.t)
    (lookups : Stream LookupResourcesResponse.t)
    : AsyncClientStreams Toy.store :=
  {| ReadRelationships _ s := (reads, s);
     LookupResources _ s := (lookups, s) |}.

Definition tuple (resource_id relation subject_id : string)
    : ReadRelationshipsResponse.t :=
  {| ReadRelationshipsResponse.relationship :=
       relationship_tuple "doc" (IdStr resource_id) relation "user"
         (IdStr subject_id) "" |}.

Definition reads : Stream ReadRelationshipsResponse.t :=
  {| stream_items :=
       [tuple "2" "viewer" "1"; tuple "1" "owner" "1"; tuple "2" "editor" "1";
        tuple "2" "viewer" "1"];
     stream_error := None |}.

Definition broken_reads : Stream ReadRelationshipsResponse.t :=
  {| stream_items := [tuple "2" "viewer" "1"; tuple "1" "owner" "1"];
     stream_error := Some (AioRpcError 14 "unavailable") |}.

Definition lookups : Stream LookupResourcesResponse.t :=
  {| stream_items :=
       [ {| LookupResourcesResponse.resource_object_id := "2" |};
         {| LookupResourcesResponse.resource_object_id := "1" |} ];
     stream_error := None |}.
End ToyStreams.

(** Two faulty services: one that is down, every call raising the
    transport's error, and one that answers every call with a response
    that carries nothing. *)
Module ToyFaulty.
Definition unavailable : Exn := AioRpcError 14 "unavailable".

Definition down : AsyncClient unit :=
  {| CheckPermission _ s := (Raise unavailable, s);
     BulkCheckPermission _ s := (Raise unavailable, s);
     WriteRelationships _ s := (Raise unavailable, s);
     ExpandPermissionTree _ s := (Raise unavailable, s) |}.

Definition hollow : AsyncClient unit :=
  {| CheckPermission _ s :=
       (Ok {| CheckPermissionResponse.permissionship :=
                PERMISSIONSHIP_UNSPECIFIED |}, s);
     BulkCheckPermission _ s :=
       (Ok {| BulkCheckPermissionResponse.pairs := [] |}, s);
     WriteRelationships _ s :=
       (Ok {| WriteRelationshipsResponse.written_at := None |}, s);
     ExpandPermissionTree _ s :=
       (Ok {| ExpandPermissionTreeResponse.tree_root := None |}, s) |}.

Definition world0 : World unit := {| service := tt; calls := []; log := [] |}.
End ToyFaulty.

(** Grouping streamed items: the relations of the items that share a
    key, the keys being kept in the order of the dictionary. *)
Definition group_relations {K A} `{EqDecision K} (key : A → K)
    (rel : A → string) (d : PyDict.t K (gset string)) (items : list A)
    : PyDict.t K (gset string) :=
  foldl (λ d item, defaultdict_add d (key item) (rel item)) d items.

(** The relations a stream lists for a key. *)
Definition relations_of {K A} `{EqDecision K} (key : A → K)
    (rel : A → string) (items : list A) (k : K) : gset string :=
  list_to_set (rel <$> filter (λ item, key item = k) items).

(** * Properties *)

(** ** Dictionaries *)
Section dict_lemmas.
Context {K V : Type} `{EqDecision K}.
Implicit Types (d : PyDict.t K V) (k : K) (v : V).

Lemma get_set_eq d k v : PyDict.get (PyDict.set d k v) k = Some v.
Proof.
  induction d as [|[k' v'] d IH]; simpl.
  - by rewrite decide_True.
  - destruct (decide (k' = k)) as [->|Hne]; simpl.
    + by rewrite decide_True.
    + by rewrite decide_False.
Qed.

Lemma get_set_ne d k k' v :
  k ≠ k' → PyDict.get (PyDict.set d k v) k' = PyDict.get d k'.
Proof.
  intros Hne. induction d as [|[k0 v0] d IH]; simpl.
  - by rewrite decide_False.
  - destruct (decide (k0 = k)) as [->|Hne0]; simpl.
    + by rewrite !decide_False.
    + by rewrite IH.
Qed.

Lemma get_set d k k' v :
  PyDict.get (PyDict.set d k v) k'
  = if decide (k = k') then Some v else PyDict.get d k'.
Proof.
  destruct (decide (k = k')) as [->|Hne];
    [apply get_set_eq | by apply get_set_ne].
Qed.

Lemma keys_set d k v :
  PyDict.keys (PyDict.set d k v)
  = if decide (k ∈ PyDict.keys d) then PyDict.keys d
    else PyDict.keys d ++ [k].
Proof.
  unfold PyDict.keys. induction d as [|[k' v'] d IH].
  - cbn [PyDict.set fmap list_fmap fst]. case_decide as Hin; [|done].
    by apply not_elem_of_nil in Hin.
  - cbn [PyDict.set]. destruct (decide (k' = k)) as [->|Hne].
    + cbn [fmap list_fmap fst]. rewrite decide_True; [done |].
      apply elem_of_cons; by left.
    + cbn [fmap list_fmap fst] in *. rewrite IH.
      destruct (decide (k ∈ d.*1)) as [Hin|Hnin].
      * rewrite decide_True; [done | apply elem_of_cons; by right].
      * rewrite decide_False; [done |].
        intros [->|?]%elem_of_cons; done.
Qed.

Lemma elem_of_keys_set d k k' v :
  k' ∈ PyDict.keys (PyDict.set d k v) ↔ k' = k ∨ k' ∈ PyDict.keys d.
Proof.
  rewrite keys_set. destruct (decide (k ∈ PyDict.keys d)) as [Hin|Hnin].
  - split; [by right | by intros [->|?]].
  - rewrite elem_of_app, list_elem_of_singleton. tauto.
Qed.

Lemma NoDup_keys_set d k v :
  NoDup (PyDict.keys d) → NoDup (PyDict.keys (PyDict.set d k v)).
Proof.
  intros Hnd. rewrite keys_set.
  destruct (decide (k ∈ PyDict.keys d)) as [Hin|Hnin]; [done |].
  apply NoDup_app. split_and!; [done | | apply NoDup_singleton].
  intros x Hx ->%list_elem_of_singleton. done.
Qed.

Lemma length_keys_set_fresh d k v :
  k ∉ PyDict.keys d →
  length (PyDict.keys (PyDict.set d k v)) = S (length (PyDict.keys d)).
Proof.
  intros Hnin. rewrite keys_set, decide_False by done.
  rewrite length_app. simpl. lia.
Qed.

Lemma get_is_Some d k : is_Some (PyDict.get d k) ↔ k ∈ PyDict.keys d.
Proof.
  unfold PyDict.keys. induction d as [|[k' v'] d IH]; simpl.
  - split; [by intros [? ?] | by intros ?%not_elem_of_nil].
  - destruct (decide (k' = k)) as [->|Hne].
    + split; [intros _; apply elem_of_cons; by left | by eauto].
    + rewrite IH, elem_of_cons. split; [by right | by intros [->|?]].
Qed.

Lemma get_Some_elem_of_values d k v :
  PyDict.get d k = Some v → v ∈ PyDict.values d.
Proof.
  unfold PyDict.values. induction d as [|[k' v'] d IH]; simpl; [done |].
  destruct (decide (k' = k)) as [->|Hne].
  - intros [= ->]. apply elem_of_cons; by left.
  - intros ?. apply elem_of_cons; right; auto.
Qed.

Lemma elem_of_values_get d v :
  v ∈ PyDict.values d → ∃ k, k ∈ PyDict.keys d ∧
    (NoDup (PyDict.keys d) → PyDict.get d k = Some v).
Proof.
  unfold PyDict.values, PyDict.keys.
  induction d as [|[k' v'] d IH]; simpl.
  - by intros ?%not_elem_of_nil.
  - intros [->|Hin]%elem_of_cons.
    + exists k'. split; [apply elem_of_cons; by left |].
      intros _. by rewrite decide_True.
    + destruct (IH Hin) as (k & Hk & Hget). exists k.
      split; [apply elem_of_cons; by right |].
      intros [Hnin Hnd]%NoDup_cons.
      rewrite decide_False; [by apply Hget |].
      intros ->. done.
Qed.

Lemma filter_eq_absent (l : list K) k :
  k ∉ l → filter (λ k', k' = k) l = [].
Proof.
  induction l as [|x l IH]; [done |].
  intros [Hne Hnin]%not_elem_of_cons.
  rewrite filter_cons_False by (intros ->; done). by apply IH.
Qed.

Lemma occurrences_NoDup d k :
  NoDup (PyDict.keys d) → k ∈ PyDict.keys d → PyDict.occurrences d k = 1.
Proof.
  unfold PyDict.occurrences. generalize (PyDict.keys d) as l.
  induction l as [|x l IH]; [by intros _ ?%not_elem_of_nil |].
  intros [Hnin Hnd]%NoDup_cons Hin.
  destruct (decide (x = k)) as [->|Hne].
  - rewrite filter_cons_True by done. by rewrite filter_eq_absent.
  - rewrite filter_cons_False by done. apply IH; [done |].
    apply elem_of_cons in Hin as [->|?]; done.
Qed.

(** The comprehension [{k: f(k) for k in l}], from any dictionary on. *)
Lemma foldl_set_keys (f : K → V) (l : list K) d k :
  k ∈ PyDict.keys (foldl (λ d k, PyDict.set d k (f k)) d l)
  ↔ k ∈ PyDict.keys d ∨ k ∈ l.
Proof.
  revert d. induction l as [|x l IH]; intros d; simpl.
  - rewrite elem_of_nil. tauto.
  - rewrite IH, elem_of_keys_set, elem_of_cons. tauto.
Qed.

Lemma foldl_set_NoDup (f : K → V) (l : list K) d :
  NoDup (PyDict.keys d) →
  NoDup (PyDict.keys (foldl (λ d k, PyDict.set d k (f k)) d l)).
Proof.
  revert d. induction l as [|x l IH]; intros d Hnd; simpl; [done |].
  by apply IH, NoDup_keys_set.
Qed.

Lemma foldl_set_get (f : K → V) (l : list K) d k :
  PyDict.get (foldl (λ d k, PyDict.set d k (f k)) d l) k
  = if decide (k ∈ l) then Some (f k) else PyDict.get d k.
Proof.
  revert d. induction l as [|x l IH]; intros d; cbn [foldl].
  - case_decide as Hin; [by apply not_elem_of_nil in Hin | done].
  - rewrite IH. destruct (decide (k ∈ l)) as [Hin|Hnin].
    + rewrite decide_True; [done | apply elem_of_cons; by right].
    + rewrite get_set. destruct (decide (x = k)) as [->|Hne].
      * rewrite decide_True; [done | apply elem_of_cons; by left].
      * rewrite decide_False; [done |].
        intros [->|?]%elem_of_cons; done.
Qed.

Lemma comprehension_keys (f : K → V) (l : list K) k :
  k ∈ PyDict.keys (PyDict.comprehension f l) ↔ k ∈ l.
Proof.
  unfold PyDict.comprehension. rewrite foldl_set_keys.
  unfold PyDict.empty, PyDict.keys. simpl. rewrite elem_of_nil. tauto.
Qed.

Lemma comprehension_NoDup (f : K → V) (l : list K) :
  NoDup (PyDict.keys (PyDict.comprehension f l)).
Proof. apply foldl_set_NoDup, NoDup_nil_2. Qed.

Lemma comprehension_get (f : K → V) (l : list K) k :
  k ∈ l → PyDict.get (PyDict.comprehension f l) k = Some (f k).
Proof.
  intros Hin. unfold PyDict.comprehension.
  by rewrite foldl_set_get, decide_True.
Qed.
End dict_lemmas.

(** ** Coroutines *)
Section coro_lemmas.
Context {S : Type}.

Lemma bind_await_call {A B} call (rpc : S → Result A * S)
    (k : A → Coro S B) (w : World S) :
  (await_call call rpc ≫= k) w
  = match rpc (service w) with
    | (Ok a, s') => k a (after_call w call s')
    | (Raise e, s') => (Raise e, after_call w call s')
    end.
Proof.
  unfold mbind, Coro_bind, bind, await_call.
  by destruct (rpc (service w)) as [[a|e] s'].
Qed.

Lemma bind_lift_result {A B} (r : Result A) (k : A → Coro S B) (w : World S) :
  (lift_result r ≫= k) w
  = match r with
    | Ok a => k a w
    | Raise e => (Raise e, w)
    end.
Proof. unfold mbind, Coro_bind, bind, lift_result. by destruct r. Qed.

Lemma bind_logger_error {B} rec (k : unit → Coro S B) (w : World S) :
  (logger_error rec ≫= k) w
  = k tt {| service := service w; calls := calls w; log := log w ++ [rec] |}.
Proof. done. Qed.
End coro_lemmas.

(** ** [check] and [check_many] *)
Section check_lemmas.
Context {Service : Type}.
Variable client : AsyncClient Service.
Implicit Types (request : CheckRequest.t) (w : World Service).
Implicit Types (d : PyDict.t CheckRequest.t Access.t).

Lemma pair_check_request_echoes pair request :
  AuthzedGrpc.pair_check_request pair = request ↔ echoes pair request.
Proof.
  unfold AuthzedGrpc.pair_check_request, echoes, CheckRequest.init.
  destruct request as [st sid rt rid p]; simpl. split.
  - intros [= <- <- <- <- <-]. done.
  - intros (<- & <- & <- & <- & <-). done.
Qed.

Lemma echoes_request_item pair request :
  BulkCheckPermissionPair.request pair
  = AuthzedGrpc.bulk_check_permission_request_item request →
  echoes pair request.
Proof. unfold echoes. intros ->. done. Qed.

Lemma apply_pairs_cons pair pairs d :
  AuthzedGrpc.apply_pairs (pair :: pairs) d
  = AuthzedGrpc.apply_pairs pairs
      (if decide (BulkCheckPermissionPair.item_permissionship pair
                  = PERMISSIONSHIP_HAS_PERMISSION)
       then PyDict.set d (AuthzedGrpc.pair_check_request pair) Access.allow
       else d).
Proof. done. Qed.

Lemma apply_pairs_keys_mono pairs d request :
  request ∈ PyDict.keys d →
  request ∈ PyDict.keys (AuthzedGrpc.apply_pairs pairs d).
Proof.
  revert d. induction pairs as [|pair pairs IH]; intros d Hin; [done |].
  rewrite apply_pairs_cons. apply IH. case_decide; [|done].
  apply elem_of_keys_set. by right.
Qed.

Lemma apply_pairs_NoDup pairs d :
  NoDup (PyDict.keys d) →
  NoDup (PyDict.keys (AuthzedGrpc.apply_pairs pairs d)).
Proof.
  revert d. induction pairs as [|pair pairs IH]; intros d Hnd; [done |].
  rewrite apply_pairs_cons. apply IH. case_decide; [|done].
  by apply NoDup_keys_set.
Qed.

Lemma apply_pairs_get_allow pairs d request :
  (∃ pair, pair ∈ pairs
           ∧ BulkCheckPermissionPair.item_permissionship pair
             = PERMISSIONSHIP_HAS_PERMISSION
           ∧ AuthzedGrpc.pair_check_request pair = request) →
  PyDict.get (AuthzedGrpc.apply_pairs pairs d) request = Some Access.allow.
Proof.
  assert (Hkeep : ∀ pairs d,
    PyDict.get d request = Some Access.allow →
    PyDict.get (AuthzedGrpc.apply_pairs pairs d) request = Some Access.allow).
  { clear. intros pairs. induction pairs as [|pair pairs IH]; intros d Hd;
      [done |].
    rewrite apply_pairs_cons. apply IH. case_decide; [|done].
    rewrite get_set. by case_decide. }
  revert d. induction pairs as [|pair pairs IH]; intros d (p & Hin & Hp & Heq).
  - by apply not_elem_of_nil in Hin.
  - rewrite apply_pairs_cons. apply elem_of_cons in Hin as [->|Hin].
    + apply Hkeep. rewrite decide_True by done. rewrite Heq.
      apply get_set_eq.
    + apply IH. eauto.
Qed.

Lemma apply_pairs_get_other pairs d request :
  ¬ (∃ pair, pair ∈ pairs
             ∧ BulkCheckPermissionPair.item_permissionship pair
               = PERMISSIONSHIP_HAS_PERMISSION
             ∧ AuthzedGrpc.pair_check_request pair = request) →
  PyDict.get (AuthzedGrpc.apply_pairs pairs d) request
  = PyDict.get d request.
Proof.
  revert d. induction pairs as [|pair pairs IH]; intros d Hno; [done |].
  rewrite apply_pairs_cons, IH.
  - case_decide as Hp; [|done]. apply get_set_ne. intros Heq.
    apply Hno. exists pair. split_and!; [apply elem_of_cons; by left | done..].
  - intros (p & Hin & Hp & Heq). apply Hno. exists p.
    split_and!; [apply elem_of_cons; by right | done..].
Qed.

Lemma apply_pairs_values pairs d (P : Access.t → Prop) :
  P Access.allow →
  (∀ request a, PyDict.get d request = Some a → P a) →
  ∀ request a,
    PyDict.get (AuthzedGrpc.apply_pairs pairs d) request = Some a → P a.
Proof.
  intros Hallow. revert d.
  induction pairs as [|pair pairs IH]; intros d Hd; [done |].
  rewrite apply_pairs_cons. apply IH. case_decide; [|done].
  intros request a. rewrite get_set. case_decide; [|by apply Hd].
  by intros [= <-].
Qed.

Lemma check_unfold request fc ml w :
  AuthzedGrpc.check client request fc ml w
  = let req := AuthzedGrpc.check_permission_request request fc ml in
    match CheckPermission client req (service w) with
    | (Ok response, s') =>
        (Ok (if decide (CheckPermissionResponse.permissionship response
                        = PERMISSIONSHIP_HAS_PERMISSION)
             then Access.allow else Access.forbid),
         after_call w (CallCheckPermission req) s')
    | (Raise e, s') => (Raise e, after_call w (CallCheckPermission req) s')
    end.
Proof.
  unfold AuthzedGrpc.check. cbv zeta. rewrite bind_await_call.
  destruct (CheckPermission client _ (service w)) as [[response|e] s'];
    [|done].
  by case_decide.
Qed.

Lemma check_many_unfold request rest fc ml w :
  AuthzedGrpc.check_many client (request :: rest) fc ml w
  = let requests := request :: rest in
    let req := AuthzedGrpc.bulk_check_permission_request requests fc ml in
    match BulkCheckPermission client req (service w) with
    | (Ok response, s') =>
        (Ok (AuthzedGrpc.apply_pairs
               (BulkCheckPermissionResponse.pairs response)
               (PyDict.comprehension (λ _, Access.forbid) requests)),
         after_call w (CallBulkCheckPermission req) s')
    | (Raise e, s') =>
        (Raise e, after_call w (CallBulkCheckPermission req) s')
    end.
Proof.
  unfold AuthzedGrpc.check_many. cbv zeta. rewrite bind_await_call.
  by destruct (BulkCheckPermission client _ (service w)) as [[response|e] s'].
Qed.
End check_lemmas.

(** C1: for a non-empty list of requests whose bulk call is answered,
    [check_many] returns a mapping in which every input request is a key
    exactly once.  A key of the mapping is mapped to [allow] exactly when
    the response has a pair for that very tuple reporting permission; an
    input request is mapped to [forbid] exactly when the response has no
    such pair (so also when the tuple is left out altogether). *)
Theorem check_many_total_coverage {Service} (client : AsyncClient Service)
    (requests : list CheckRequest.t) (fc ml : bool) (w : World Service)
    (response : BulkCheckPermissionResponse.t) (s' : Service) :
  requests ≠ [] →
  BulkCheckPermission client
    (AuthzedGrpc.bulk_check_permission_request requests fc ml) (service w)
  = (Ok response, s') →
  ∃ result w',
    AuthzedGrpc.check_many client requests fc ml w = (Ok result, w')
    ∧ (∀ request, request ∈ requests →
         PyDict.occurrences result request = 1
         ∧ (PyDict.get result request = Some Access.forbid
            ↔ ¬ reports_allow response request))
    ∧ (∀ key, PyDict.get result key = Some Access.allow
              ↔ reports_allow response key).
Proof.
  intros Hne Hrpc. destruct requests as [|r rest]; [done |].
  rewrite check_many_unfold. cbv zeta. rewrite Hrpc.
  eexists _, _. split; [reflexivity |].
  set (d0 := PyDict.comprehension (λ _, Access.forbid) (r :: rest)).
  set (pairs := BulkCheckPermissionResponse.pairs response).
  assert (Hrep : ∀ key, reports_allow response key ↔
    ∃ pair, pair ∈ pairs
            ∧ BulkCheckPermissionPair.item_permissionship pair
              = PERMISSIONSHIP_HAS_PERMISSION
            ∧ AuthzedGrpc.pair_check_request pair = key).
  { intros key. unfold reports_allow.
    by setoid_rewrite pair_check_request_echoes. }
  assert (Hcases : ∀ key,
    (reports_allow response key
     ∧ PyDict.get (AuthzedGrpc.apply_pairs pairs d0) key = Some Access.allow)
    ∨ (¬ reports_allow response key
       ∧ PyDict.get (AuthzedGrpc.apply_pairs pairs d0) key
         = PyDict.get d0 key)).
  { intros key.
    destruct (decide (Exists (λ pair,
        BulkCheckPermissionPair.item_permissionship pair
        = PERMISSIONSHIP_HAS_PERMISSION
        ∧ AuthzedGrpc.pair_check_request pair = key) pairs)) as [Hex|Hnex].
    - left. assert (Hyes : reports_allow response key).
      { apply Hrep. apply Exists_exists in Hex as (pair & ? & ? & ?). eauto. }
      split; [done |]. by apply apply_pairs_get_allow, Hrep.
    - right. assert (Hno : ¬ reports_allow response key).
      { intros (pair & ? & ? & ?)%Hrep. apply Hnex, Exists_exists. eauto. }
      split; [done |]. apply apply_pairs_get_other.
      intros H. by apply Hno, Hrep. }
  split.
  - intros request Hin.
    assert (Hd0 : PyDict.get d0 request = Some Access.forbid)
      by by apply (comprehension_get (λ _, Access.forbid)).
    split.
    { apply occurrences_NoDup.
      - apply apply_pairs_NoDup, comprehension_NoDup.
      - by apply apply_pairs_keys_mono, comprehension_keys. }
    destruct (Hcases request) as [[Hyes ->]|[Hno ->]].
    + split; [done | by intros Hno].
    + by rewrite Hd0.
  - intros key. destruct (Hcases key) as [[Hyes ->]|[Hno ->]]; [done |].
    split; [|done]. intros Hget. exfalso.
    assert (Hin : key ∈ r :: rest).
    { apply (comprehension_keys (λ _, Access.forbid)), get_is_Some.
      fold d0. by rewrite Hget. }
    unfold d0 in Hget.
    by rewrite (comprehension_get (λ _, Access.forbid)) in Hget.
Qed.

Lemma check_many_total_coverage_witness :
  ∃ response result w',
    AuthzedGrpc.check_many (Toy.client Toy.acked)
      [Toy.view_doc1_user1; Toy.view_doc1_user2] false false Toy.world0
    = (Ok result, w')
    ∧ (∀ request, request ∈ [Toy.view_doc1_user1; Toy.view_doc1_user2] →
         PyDict.occurrences result request = 1
         ∧ (PyDict.get result request = Some Access.forbid
            ↔ ¬ reports_allow response request))
    ∧ (∀ key, PyDict.get result key = Some Access.allow
              ↔ reports_allow response key).
Proof.
  eexists.
  eapply (check_many_total_coverage (Toy.client Toy.acked)
            [Toy.view_doc1_user1; Toy.view_doc1_user2] false false Toy.world0).
  - done.
  - reflexivity.
Defined.

Example check_many_toy :
  (AuthzedGrpc.check_many (Toy.client Toy.acked)
     [Toy.view_doc1_user1; Toy.view_doc1_user2; Toy.view_doc1_user1]
     false false Toy.world0).1
  = Ok [(Toy.view_doc1_user1, Access.allow);
        (Toy.view_doc1_user2, Access.forbid)].
Proof. reflexivity. Qed.

(** C9: on the empty list [check_many] returns the empty mapping and
    leaves the world as it found it: the service state, the trace of
    calls sent to it and the log are unchanged. *)
Theorem check_many_empty {Service} (client : AsyncClient Service)
    (fc ml : bool) (w : World Service) :
  AuthzedGrpc.check_many client [] fc ml w = (Ok PyDict.empty, w)
  ∧ calls (AuthzedGrpc.check_many client [] fc ml w).2 = calls w
  ∧ service (AuthzedGrpc.check_many client [] fc ml w).2 = service w.
Proof. done. Qed.

Lemma is_allowed_unfold {Service} (client : AsyncClient Service)
    (request : CheckRequest.t) (fc ml : bool) (w : World Service) :
  AuthzedGrpc.is_allowed client request fc ml w
  = match AuthzedGrpc.check client request fc ml w with
    | (Ok a, w') => (Ok (Access.is_allowed a), w')
    | (Raise e, w') => (Raise e, w')
    end.
Proof. done. Qed.

Lemma base_is_allowed_unfold {Service}
    (check : CheckRequest.t → bool → bool → Coro Service Access.t)
    (request : CheckRequest.t) (fc ml : bool) (w : World Service) :
  BaseAuthzed.is_allowed check request fc ml w
  = match (if ml then check request false ml else check request fc false) w with
    | (Ok a, w') => (Ok (Access.is_allowed a), w')
    | (Raise e, w') => (Raise e, w')
    end.
Proof. done. Qed.

Lemma is_allowed_true_iff (a : Access.t) :
  Access.is_allowed a = true ↔ a = Access.allow.
Proof. unfold Access.is_allowed. apply bool_decide_eq_true. Qed.

(** C10: whenever the remote check is answered, [check] returns [allow] or
    [forbid], never [undefined]; every value of a mapping [check_many]
    returns is [allow] or [forbid]; and [is_allowed] returns true exactly
    when [check], called the same way, returns [allow].  The last part
    holds for the override in [AuthzedGrpc] with any flags, and for the
    method of [BaseAuthzed] as long as the two flags are not both set. *)
Theorem check_never_undefined {Service} (client : AsyncClient Service)
    (request : CheckRequest.t) (requests : list CheckRequest.t)
    (fc ml : bool) (w : World Service) :
  (∀ response s',
     CheckPermission client
       (AuthzedGrpc.check_permission_request request fc ml) (service w)
     = (Ok response, s') →
     ∃ a w', AuthzedGrpc.check client request fc ml w = (Ok a, w')
             ∧ (a = Access.allow ∨ a = Access.forbid)
             ∧ a ≠ Access.undefined)
  ∧ (∀ a w', AuthzedGrpc.check client request fc ml w = (Ok a, w') →
             a = Access.allow ∨ a = Access.forbid)
  ∧ (∀ result w',
       AuthzedGrpc.check_many client requests fc ml w = (Ok result, w') →
       ∀ a, a ∈ PyDict.values result → a = Access.allow ∨ a = Access.forbid)
  ∧ (∀ w', AuthzedGrpc.is_allowed client request fc ml w = (Ok true, w')
           ↔ AuthzedGrpc.check client request fc ml w = (Ok Access.allow, w'))
  ∧ (fc && ml = false →
     ∀ w', BaseAuthzed.is_allowed (AuthzedGrpc.check client) request fc ml w
           = (Ok true, w')
           ↔ AuthzedGrpc.check client request fc ml w = (Ok Access.allow, w')).
Proof.
  assert (Hcheck : ∀ a w',
    AuthzedGrpc.check client request fc ml w = (Ok a, w') →
    a = Access.allow ∨ a = Access.forbid).
  { intros a w'. rewrite check_unfold. cbv zeta.
    destruct (CheckPermission client _ (service w)) as [[response|e] s'];
      [|done].
    intros [= <- _]. case_decide; auto. }
  assert (Hiff : ∀ w',
    AuthzedGrpc.is_allowed client request fc ml w = (Ok true, w')
    ↔ AuthzedGrpc.check client request fc ml w = (Ok Access.allow, w')).
  { intros w'. rewrite is_allowed_unfold.
    destruct (AuthzedGrpc.check client request fc ml w) as [[a|e] w1].
    - split.
      + intros [= Ha ->]. by apply is_allowed_true_iff in Ha as ->.
      + by intros [= -> ->].
    - split; intros; done. }
  split_and!.
  - intros response s' Hrpc. rewrite check_unfold. cbv zeta. rewrite Hrpc.
    eexists _, _. split; [reflexivity |]. case_decide; split; auto; done.
  - exact Hcheck.
  - intros result w'. destruct requests as [|r rest].
    + intros [= <- _] a Ha. by apply not_elem_of_nil in Ha.
    + rewrite check_many_unfold. cbv zeta.
      destruct (BulkCheckPermission client _ (service w))
        as [[response|e] s']; [|done].
      intros [= <- _] a Ha.
      apply elem_of_values_get in Ha as (k & _ & Hget).
      specialize (Hget (apply_pairs_NoDup _ _
                          (comprehension_NoDup (λ _, Access.forbid) (r :: rest)))).
      revert Hget.
      apply (apply_pairs_values _ _
               (λ a, a = Access.allow ∨ a = Access.forbid)); [by left |].
      intros k' a' Hk'. right.
      assert (Hin : k' ∈ r :: rest).
      { apply (comprehension_keys (λ _, Access.forbid)), get_is_Some. eauto. }
      rewrite (comprehension_get (λ _, Access.forbid)) in Hk' by done.
      by injection Hk'.
  - exact Hiff.
  - intros Hflags w'. rewrite <- Hiff.
    rewrite base_is_allowed_unfold, is_allowed_unfold.
    by destruct fc, ml.
Qed.

Lemma check_never_undefined_witness :
  (∃ a w', AuthzedGrpc.check (Toy.client Toy.acked) Toy.view_doc1_user2
             false false Toy.world0 = (Ok a, w')
           ∧ (a = Access.allow ∨ a = Access.forbid)
           ∧ a ≠ Access.undefined)
  ∧ (∃ result w',
       AuthzedGrpc.check_many (Toy.client Toy.acked)
         [Toy.view_doc1_user1; Toy.view_doc1_user2] false false Toy.world0
       = (Ok result, w')
       ∧ ∀ a, a ∈ PyDict.values result →
              a = Access.allow ∨ a = Access.forbid)
  ∧ AuthzedGrpc.check (Toy.client Toy.acked) Toy.view_doc1_user1
      false false Toy.world0
    = (Ok Access.allow,
       (AuthzedGrpc.is_allowed (Toy.client Toy.acked) Toy.view_doc1_user1
          false false Toy.world0).2)
  ∧ AuthzedGrpc.check (Toy.client Toy.acked) Toy.view_doc1_user1
      true false Toy.world0
    = (Ok Access.allow,
       (BaseAuthzed.is_allowed (AuthzedGrpc.check (Toy.client Toy.acked))
          Toy.view_doc1_user1 true false Toy.world0).2).
Proof.
  split_and!.
  - destruct (check_never_undefined (Toy.client Toy.acked)
                Toy.view_doc1_user2 [] false false Toy.world0)
      as (Htotal & _).
    eapply Htotal. reflexivity.
  - destruct (check_never_undefined (Toy.client Toy.acked)
                Toy.view_doc1_user1
                [Toy.view_doc1_user1; Toy.view_doc1_user2]
                false false Toy.world0)
      as (_ & _ & Hmany & _).
    eexists _, _. split; [reflexivity |]. eapply Hmany. reflexivity.
  - destruct (check_never_undefined (Toy.client Toy.acked)
                Toy.view_doc1_user1 [] false false Toy.world0)
      as (_ & _ & _ & Hiff & _).
    apply Hiff. reflexivity.
  - destruct (check_never_undefined (Toy.client Toy.acked)
                Toy.view_doc1_user1 [] true false Toy.world0)
      as (_ & _ & _ & _ & Hbase).
    apply Hbase; reflexivity.
Defined.

(** What [check] and [check_many] send: one request, which carries the
    consistency requirement the chain of tests on the flags selects. *)
Lemma check_sends_selected {Service} (client : AsyncClient Service)
    (request : CheckRequest.t) (fc ml : bool) (w : World Service) :
  sends (AuthzedGrpc.check client request fc ml) w
    (AuthzedGrpc.select_consistency fc ml).
Proof.
  unfold sends. rewrite check_unfold. cbv zeta.
  exists (CallCheckPermission
            (AuthzedGrpc.check_permission_request request fc ml)).
  split; [|reflexivity].
  by destruct (CheckPermission client _ (service w)) as [[response|e] s'].
Qed.

Lemma check_many_sends_selected {Service} (client : AsyncClient Service)
    (request : CheckRequest.t) (rest : list CheckRequest.t) (fc ml : bool)
    (w : World Service) :
  sends (AuthzedGrpc.check_many client (request :: rest) fc ml) w
    (AuthzedGrpc.select_consistency fc ml).
Proof.
  unfold sends. rewrite check_many_unfold. cbv zeta.
  exists (CallBulkCheckPermission
            (AuthzedGrpc.bulk_check_permission_request (request :: rest)
               fc ml)).
  split; [|reflexivity].
  by destruct (BulkCheckPermission client _ (service w))
    as [[response|e] s'].
Qed.

(** A coroutine sends one request only, so the requirement it carries is
    determined. *)
Lemma sends_unique {S A} (run : Coro S A) (w : World S)
    (c c' : option Consistency.t) :
  sends run w c → sends run w c' → c = c'.
Proof.
  intros (call & Hcalls & <-) (call' & Hcalls' & <-).
  rewrite Hcalls in Hcalls'. by apply app_inj_tail in Hcalls' as [_ ->].
Qed.

(** What is sent is not changed by what is done with the answer. *)
Lemma sends_then_ret {S A B} (run : Coro S A) (f : A → B) (w : World S)
    (c : option Consistency.t) :
  sends run w c → sends (a ← run; mret (f a)) w c.
Proof.
  unfold sends, mbind, Coro_bind, bind, mret, Coro_ret, ret.
  by destruct (run w) as [[a|e] w'].
Qed.

(** C2: the code departs from the claim.  Called with both flags set,
    [check] and [check_many] (on a non-empty list) send a request that
    carries the fully-consistent requirement and not the minimize-latency
    one, because they test [full_consistent] first.  The methods
    [is_allowed] and [is_allowed_many] of [BaseAuthzed], called with both
    flags set over the same [check] and [check_many], send the
    minimize-latency requirement, which is the order the claim states.
    With neither flag set no requirement is attached, as the claim
    says. *)
Theorem both_flags_send_full_consistency {Service}
    (client : AsyncClient Service) (request : CheckRequest.t)
    (rest : list CheckRequest.t) (w : World Service) :
  let check := AuthzedGrpc.check client request in
  let check_many := AuthzedGrpc.check_many client (request :: rest) in
  let full := Some (Consistency.fully_consistent true) in
  let latency := Some (Consistency.minimize_latency true) in
  (sends (check true true) w full ∧ ¬ sends (check true true) w latency)
  ∧ (sends (check_many true true) w full
     ∧ ¬ sends (check_many true true) w latency)
  ∧ sends (BaseAuthzed.is_allowed (AuthzedGrpc.check client) request
             true true) w latency
  ∧ sends (BaseAuthzed.is_allowed_many (AuthzedGrpc.check_many client)
             (request :: rest) true true) w latency
  ∧ sends (check false false) w None
  ∧ sends (check_many false false) w None.
Proof.
  cbv zeta. split_and!.
  - apply (check_sends_selected client request true true).
  - intros Hlatency.
    by pose proof (sends_unique _ _ _ _
                     (check_sends_selected client request true true w)
                     Hlatency).
  - apply (check_many_sends_selected client request rest true true).
  - intros Hlatency.
    by pose proof (sends_unique _ _ _ _
                     (check_many_sends_selected client request rest true true
                        w) Hlatency).
  - apply sends_then_ret, (check_sends_selected client request false true).
  - apply sends_then_ret,
      (check_many_sends_selected client request rest false true).
  - apply (check_sends_selected client request false false).
  - apply (check_many_sends_selected client request rest false false).
Qed.

(** The same on a concrete call: the request [check] sends for
    [full_consistent=True, minimize_latency=True] is fully consistent,
    the one [BaseAuthzed.is_allowed] sends is minimize-latency. *)
Example both_flags_on_a_request :
  calls (AuthzedGrpc.check (Toy.client Toy.acked) Toy.view_doc1_user1
           true true Toy.world0).2
  = [CallCheckPermission
       (AuthzedGrpc.check_permission_request Toy.view_doc1_user1 true false)]
  ∧ calls (BaseAuthzed.is_allowed (AuthzedGrpc.check (Toy.client Toy.acked))
             Toy.view_doc1_user1 true true Toy.world0).2
    = [CallCheckPermission
         (AuthzedGrpc.check_permission_request Toy.view_doc1_user1 false
            true)].
Proof. split; reflexivity. Qed.

(** ** [update] and the methods over it *)
Section update_lemmas.
Context {Service : Type}.
Variable client : AsyncClient Service.
Implicit Types (u : RelationUpdateRequest.t) (w : World Service).

Lemma update_unfold updates w :
  AuthzedGrpc.update client updates w
  = match AuthzedGrpc.update_loop updates [] with
    | Raise e => (Raise e, w)
    | Ok rus =>
        let request := {| WriteRelationshipsRequest.updates := rus |} in
        let call := CallWriteRelationships request in
        match WriteRelationships client request (service w) with
        | (Ok response, s') => (Ok tt, after_call w call s')
        | (Raise e, s') => (Raise e, after_call w call s')
        end
    end.
Proof.
  unfold AuthzedGrpc.update. rewrite bind_lift_result.
  destruct (AuthzedGrpc.update_loop updates []) as [rus|e]; [|done].
  cbv zeta. rewrite bind_await_call.
  by destruct (WriteRelationships client _ (service w))
    as [[response|e] s'].
Qed.

Lemma update_loop_first_null pre u post acc :
  RelationUpdateRequest.update_type u = None →
  (∀ x, x ∈ pre → RelationUpdateRequest.update_type x ≠ None) →
  AuthzedGrpc.update_loop (pre ++ u :: post) acc
  = Raise (if decide (Some RelationUpdateType.create
                      ∈ RelationUpdateRequest.update_type <$> pre)
           then NotImplementedError "Relation update type not defined."
           else ValueError "update_type cannot be None").
Proof.
  intros Hu. revert acc. induction pre as [|x pre IH]; intros acc Hpre.
  - cbn [app AuthzedGrpc.update_loop fmap list_fmap].
    unfold AuthzedGrpc.relationship_update. rewrite Hu.
    case_decide as Hin; [by apply not_elem_of_nil in Hin | done].
  - cbn [app AuthzedGrpc.update_loop fmap list_fmap].
    unfold AuthzedGrpc.relationship_update.
    destruct (RelationUpdateRequest.update_type x) as [[| |]|] eqn:Hx.
    + cbn. rewrite decide_True; [done | apply elem_of_cons; by left].
    + cbn [AuthzedGrpc._relation_update_type result_bind].
      rewrite IH by (intros y Hy; apply Hpre, elem_of_cons; by right).
      f_equal. apply decide_ext. rewrite elem_of_cons.
      split; [by right | by intros [?|?]].
    + cbn [AuthzedGrpc._relation_update_type result_bind].
      rewrite IH by (intros y Hy; apply Hpre, elem_of_cons; by right).
      f_equal. apply decide_ext. rewrite elem_of_cons.
      split; [by right | by intros [?|?]].
    + exfalso. apply (Hpre x); [apply elem_of_cons; by left | done].
Qed.

Lemma first_null_decomposition (updates : list RelationUpdateRequest.t) :
  (∃ u, u ∈ updates ∧ RelationUpdateRequest.update_type u = None) →
  ∃ pre u post,
    updates = pre ++ u :: post
    ∧ RelationUpdateRequest.update_type u = None
    ∧ ∀ x, x ∈ pre → RelationUpdateRequest.update_type x ≠ None.
Proof.
  induction updates as [|x updates IH]; intros (u & Hin & Hu).
  - by apply not_elem_of_nil in Hin.
  - destruct (RelationUpdateRequest.update_type x) as [t|] eqn:Hx.
    + apply elem_of_cons in Hin as [->|Hin]; [congruence |].
      destruct IH as (pre & u' & post & -> & Hu' & Hpre); [by eauto |].
      exists (x :: pre), u', post. split_and!; [done.. |].
      intros y [->|Hy]%elem_of_cons; [congruence | by apply Hpre].
    + exists [], x, updates. split_and!; [done.. |].
      by intros y ?%not_elem_of_nil.
Qed.
End update_lemmas.

(** C4, as the code has it: a list of updates that contains an element
    whose [update_type] is null makes [update] raise before anything is
    sent, the world being left as it was.  The exception is the
    [ValueError], unless an element with [update_type] create stands
    before the first null one: then it is the [NotImplementedError] that
    element raises. *)
Theorem update_rejects_null_update_type {Service}
    (client : AsyncClient Service) (updates : list RelationUpdateRequest.t)
    (w : World Service) :
  (∃ u, u ∈ updates ∧ RelationUpdateRequest.update_type u = None) →
  ∃ pre u post,
    updates = pre ++ u :: post
    ∧ RelationUpdateRequest.update_type u = None
    ∧ (∀ x, x ∈ pre → RelationUpdateRequest.update_type x ≠ None)
    ∧ AuthzedGrpc.update client updates w
      = (Raise (if decide (Some RelationUpdateType.create
                           ∈ RelationUpdateRequest.update_type <$> pre)
                then NotImplementedError "Relation update type not defined."
                else ValueError "update_type cannot be None"), w).
Proof.
  intros (pre & u & post & -> & Hu & Hpre)%first_null_decomposition.
  exists pre, u, post. split_and!; [done.. |].
  rewrite update_unfold. by rewrite update_loop_first_null.
Qed.

Lemma update_rejects_null_update_type_witness :
  ∃ pre u post,
    [Toy.grant_update; Toy.null_update; Toy.grant_update] = pre ++ u :: post
    ∧ RelationUpdateRequest.update_type u = None
    ∧ (∀ x, x ∈ pre → RelationUpdateRequest.update_type x ≠ None)
    ∧ AuthzedGrpc.update (Toy.client Toy.acked)
        [Toy.grant_update; Toy.null_update; Toy.grant_update] Toy.world0
      = (Raise (if decide (Some RelationUpdateType.create
                           ∈ RelationUpdateRequest.update_type <$> pre)
                then NotImplementedError "Relation update type not defined."
                else ValueError "update_type cannot be None"), Toy.world0).
Proof.
  apply (update_rejects_null_update_type (Toy.client Toy.acked)
           [Toy.grant_update; Toy.null_update; Toy.grant_update] Toy.world0).
  exists Toy.null_update. split; [|reflexivity].
  apply elem_of_cons; right. apply elem_of_cons; by left.
Defined.

(** C4 as stated fails: with a create-typed element before the null-typed
    one, [update] does not raise a [ValueError]. *)
Lemma update_null_after_create_is_not_value_error :
  (∃ u, u ∈ [Toy.create_update; Toy.null_update]
        ∧ RelationUpdateRequest.update_type u = None)
  ∧ AuthzedGrpc.update (Toy.client Toy.acked)
      [Toy.create_update; Toy.null_update] Toy.world0
    = (Raise (NotImplementedError "Relation update type not defined."),
       Toy.world0)
  ∧ ¬ ∃ msg w',
        AuthzedGrpc.update (Toy.client Toy.acked)
          [Toy.create_update; Toy.null_update] Toy.world0
        = (Raise (ValueError msg), w').
Proof.
  split_and!.
  - exists Toy.null_update. split; [|reflexivity].
    apply elem_of_cons; right. apply elem_of_cons; by left.
  - reflexivity.
  - intros (msg & w' & Hrun). vm_compute in Hrun. discriminate Hrun.
Qed.

Lemma update_returns_none_on_answer {Service} (client : AsyncClient Service)
    (updates : list RelationUpdateRequest.t) (rus : list RelationshipUpdate)
    (w : World Service) :
  AuthzedGrpc.update_loop updates [] = Ok rus →
  returns_none_on_answer client (AuthzedGrpc.update client updates)
    {| WriteRelationshipsRequest.updates := rus |} w.
Proof.
  intros Hloop response s' Hrpc.
  rewrite update_unfold, Hloop. cbv zeta. by rewrite Hrpc.
Qed.

(** C5: the code departs from the claim.  Once the updates have passed
    the loop of [update] and the remote write has been answered,
    [update] returns [None] for every response, also for one that
    carries no write token: the [except AttributeError] clause that
    should raise "Invalid authzed response." is never entered.  The same
    holds for [grant], [revoke], [grant_many] and [revoke_many], which go
    through [update].  So the contract of the claim on the token fails
    wherever the service answers a write without a token. *)
Theorem update_returns_none_without_write_token {Service}
    (client : AsyncClient Service) (w : World Service) :
  (∀ updates rus,
     AuthzedGrpc.update_loop updates [] = Ok rus →
     returns_none_on_answer client (AuthzedGrpc.update client updates)
       {| WriteRelationshipsRequest.updates := rus |} w)
  ∧ (∀ rt rid rel st sid srel,
       returns_none_on_answer client
         (AuthzedGrpc.grant client rt rid rel st sid srel)
         {| WriteRelationshipsRequest.updates :=
              [{| operation := OPERATION_TOUCH;
                  relationship := relationship_tuple rt rid rel st sid srel |}] |}
         w)
  ∧ (∀ rt rid rel st sid srel,
       returns_none_on_answer client
         (AuthzedGrpc.revoke client rt rid rel st sid srel)
         {| WriteRelationshipsRequest.updates :=
              [{| operation := OPERATION_DELETE;
                  relationship := relationship_tuple rt rid rel st sid srel |}] |}
         w)
  ∧ (∀ updates rus,
       AuthzedGrpc.update_loop (RelationUpdateGrantRequest.upcast <$> updates) []
       = Ok rus →
       returns_none_on_answer client (AuthzedGrpc.grant_many client updates)
         {| WriteRelationshipsRequest.updates := rus |} w)
  ∧ (∀ updates rus,
       AuthzedGrpc.update_loop (RelationUpdateRevokeRequest.upcast <$> updates) []
       = Ok rus →
       returns_none_on_answer client (AuthzedGrpc.revoke_many client updates)
         {| WriteRelationshipsRequest.updates := rus |} w)
  ∧ (∀ run request response s',
       WriteRelationships client request (service w) = (Ok response, s') →
       write_token response = None →
       returns_none_on_answer client run request w →
       ¬ token_contract client run request w).
Proof.
  split_and!.
  - intros updates rus. apply update_returns_none_on_answer.
  - intros rt rid rel st sid srel. by apply update_returns_none_on_answer.
  - intros rt rid rel st sid srel. by apply update_returns_none_on_answer.
  - intros updates rus. apply update_returns_none_on_answer.
  - intros updates rus. apply update_returns_none_on_answer.
  - intros run request response s' Hrpc Htoken Hnone Hcontract.
    destruct (Hcontract response s' Hrpc) as [Hraise _].
    specialize (Hraise Htoken). rewrite (Hnone response s' Hrpc) in Hraise.
    discriminate Hraise.
Qed.

Lemma update_returns_none_without_write_token_witness :
  write_token Toy.unacked = None
  ∧ (∃ w', AuthzedGrpc.update (Toy.client Toy.unacked) [Toy.grant_update]
             Toy.world0
           = (Ok tt, w'))
  ∧ (∃ w', AuthzedGrpc.revoke_many (Toy.client Toy.unacked)
             [RelationUpdateRevokeRequest.init "user" (IdInt 2) "doc" (IdInt 1)
                "owner" None None] Toy.world0
           = (Ok tt, w'))
  ∧ ¬ token_contract (Toy.client Toy.unacked)
        (AuthzedGrpc.grant (Toy.client Toy.unacked)
           "doc" (IdInt 1) "owner" "user" (IdInt 2) "")
        {| WriteRelationshipsRequest.updates :=
             [{| operation := OPERATION_TOUCH;
                 relationship :=
                   relationship_tuple "doc" (IdInt 1) "owner" "user"
                     (IdInt 2) "" |}] |}
        Toy.world0.
Proof.
  destruct (update_returns_none_without_write_token (Toy.client Toy.unacked)
              Toy.world0)
    as (Hupdate & Hgrant & _ & _ & Hmany & Hcontract).
  split_and!.
  - reflexivity.
  - eexists. eapply Hupdate; reflexivity.
  - eexists. eapply Hmany; reflexivity.
  - eapply Hcontract; [reflexivity | reflexivity |]. apply Hgrant.
Defined.

(** ** [subjects] *)

(** Induction on expansion trees, with the hypothesis for every child. *)
Lemma tree_induction (P : PermissionRelationshipTree → Prop) :
  (∀ tree_leaf tree_children,
     (∀ children, tree_children = Some children → Forall P children) →
     P (TreeNode tree_leaf tree_children)) →
  ∀ root, P root.
Proof.
  intros Hnode. fix IH 1. intros [tree_leaf [children|]].
  - assert (Hall : Forall P children).
    { induction children as [|child children IHchildren]; constructor.
      - apply IH.
      - apply IHchildren. }
    apply Hnode. intros ? [= <-]. exact Hall.
  - apply Hnode. intros ? [=].
Qed.

Lemma _parse_subjects_leaf_subjects (root : PermissionRelationshipTree)
    (subject_type : string) :
  AuthzedGrpc._parse_subjects root subject_type
  = (λ subject, object_id (object subject)) <$>
      filter (λ subject, object_type (object subject) = subject_type)
        (leaf_subjects root).
Proof.
  induction root as [tree_leaf tree_children IH] using tree_induction.
  cbn [AuthzedGrpc._parse_subjects leaf_subjects].
  rewrite filter_app, fmap_app. f_equal.
  - by destruct tree_leaf.
  - destruct tree_children as [children|]; [|done].
    specialize (IH children eq_refl).
    induction IH as [|child children Hchild _ IHchildren]; [done |].
    cbn [flat_map]. by rewrite filter_app, fmap_app, Hchild, IHchildren.
Qed.

Lemma subjects_unfold {Service} (client : AsyncClient Service)
    (resource_type : string) (resource_id : PyId)
    (permission subject_type : string) (fc : bool) (w : World Service) :
  AuthzedGrpc.subjects client resource_type resource_id permission
    subject_type fc w
  = let req := AuthzedGrpc.expand_permission_tree_request resource_type
                 resource_id permission fc in
    let call := CallExpandPermissionTree req in
    match ExpandPermissionTree client req (service w) with
    | (Ok response, s') =>
        (Ok (AuthzedGrpc._parse_subjects
               (default empty_tree
                  (ExpandPermissionTreeResponse.tree_root response))
               subject_type),
         after_call w call s')
    | (Raise e, s') => (Raise e, after_call w call s')
    end.
Proof.
  unfold AuthzedGrpc.subjects, BaseAuthzed.subjects,
    AuthzedGrpc.subjects_generator.
  cbv zeta. rewrite bind_await_call.
  by destruct (ExpandPermissionTree client _ (service w))
    as [[response|e] s'].
Qed.

(** C6: when the remote expansion answers with a tree, [subjects] returns
    the object ids of the subjects listed at the leaves of the tree whose
    object type is [subject_type], in the depth-first, left-to-right order
    of the leaves; an id is returned exactly when some leaf lists a
    subject of that type with that id. *)
Theorem subjects_filters_leaves_depth_first {Service}
    (client : AsyncClient Service) (resource_type : string)
    (resource_id : PyId) (permission subject_type : string) (fc : bool)
    (w : World Service) (response : ExpandPermissionTreeResponse.t)
    (s' : Service) (root : PermissionRelationshipTree) :
  ExpandPermissionTree client
    (AuthzedGrpc.expand_permission_tree_request resource_type resource_id
       permission fc) (service w)
  = (Ok response, s') →
  ExpandPermissionTreeResponse.tree_root response = Some root →
  ∃ ids w',
    AuthzedGrpc.subjects client resource_type resource_id permission
      subject_type fc w = (Ok ids, w')
    ∧ ids = (λ subject, object_id (object subject)) <$>
              filter (λ subject, object_type (object subject) = subject_type)
                (leaf_subjects root)
    ∧ ∀ id, id ∈ ids ↔
        ∃ subject, subject ∈ leaf_subjects root
                   ∧ object_type (object subject) = subject_type
                   ∧ object_id (object subject) = id.
Proof.
  intros Hrpc Hroot. rewrite subjects_unfold. cbv zeta.
  rewrite Hrpc, Hroot. eexists _, _. split; [reflexivity |].
  split; [apply _parse_subjects_leaf_subjects |].
  intros id. rewrite _parse_subjects_leaf_subjects, list_elem_of_fmap.
  setoid_rewrite list_elem_of_filter. split.
  - intros (subject & -> & Htype & Hin). by exists subject.
  - intros (subject & Hin & Htype & <-). by exists subject.
Qed.

Lemma subjects_filters_leaves_depth_first_witness :
  ∃ root ids w',
    AuthzedGrpc.subjects (Toy.client Toy.acked) "doc" (IdInt 1) "view" "user"
      false Toy.world0 = (Ok ids, w')
    ∧ ids = (λ subject, object_id (object subject)) <$>
              filter (λ subject, object_type (object subject) = "user")
                (leaf_subjects root)
    ∧ ∀ id, id ∈ ids ↔
        ∃ subject, subject ∈ leaf_subjects root
                   ∧ object_type (object subject) = "user"
                   ∧ object_id (object subject) = id.
Proof.
  eexists.
  eapply (subjects_filters_leaves_depth_first (Toy.client Toy.acked)
            "doc" (IdInt 1) "view" "user" false Toy.world0);
    reflexivity.
Defined.

Example subjects_toy :
  (AuthzedGrpc.subjects (Toy.client Toy.acked) "doc" (IdInt 1) "view" "user"
     false Toy.world0).1 = Ok ["1"; "2"].
Proof. reflexivity. Qed.

(** ** The value types *)

(** C7: both identifiers of a [CheckRequest] are coerced to their string
    representation at construction: an integer is held as its decimal
    string and a string as it is, in [subject_id] and in [resource_id],
    and these strings are the ids that go on the wire.  So a request
    built with integer identifiers equals the one built with their
    decimal strings: the two have the same tuple of fields, hence
    whatever hash is taken of it, and go on the wire as the same check
    request and the same bulk item; so for 42 and "42".  An integer and a
    string identifier give equal requests only when the string is the
    decimal form of the integer. *)
Theorem check_request_identifier_normalization
    (subject_type resource_type permission : string) (n m : Z)
    (hash : list string → Z) :
  let a := CheckRequest.init subject_type (IdInt n) resource_type (IdInt m)
             permission in
  let b := CheckRequest.init subject_type (IdStr (pretty n)) resource_type
             (IdStr (pretty m)) permission in
  (CheckRequest.subject_id a = pretty n
   ∧ CheckRequest.resource_id a = pretty m
   ∧ ∀ s t, CheckRequest.subject_id
              (CheckRequest.init subject_type (IdStr s) resource_type
                 (IdStr t) permission) = s
            ∧ CheckRequest.resource_id
                (CheckRequest.init subject_type (IdStr s) resource_type
                   (IdStr t) permission) = t)
  ∧ (CheckRequest.subject_id
       (CheckRequest.init subject_type (IdInt 42) resource_type (IdInt (-7))
          permission) = "42"
     ∧ CheckRequest.resource_id
         (CheckRequest.init subject_type (IdInt 42) resource_type
            (IdInt (-7)) permission) = "-7")
  ∧ (∀ fc ml,
       let sent := AuthzedGrpc.check_permission_request a fc ml in
       let item := AuthzedGrpc.bulk_check_permission_request_item a in
       object_id (object (CheckPermissionRequest.subject sent)) = pretty n
       ∧ object_id (CheckPermissionRequest.resource sent) = pretty m
       ∧ object_id (object (BulkCheckPermissionRequestItem.subject item))
         = pretty n
       ∧ object_id (BulkCheckPermissionRequestItem.resource item) = pretty m)
  ∧ a = b
  ∧ hash (CheckRequest.astuple a) = hash (CheckRequest.astuple b)
  ∧ AuthzedGrpc.bulk_check_permission_request_item a
    = AuthzedGrpc.bulk_check_permission_request_item b
  ∧ (∀ fc ml, AuthzedGrpc.check_permission_request a fc ml
              = AuthzedGrpc.check_permission_request b fc ml)
  ∧ CheckRequest.init subject_type (IdInt 42) resource_type (IdInt 42)
      permission
    = CheckRequest.init subject_type (IdStr "42") resource_type (IdStr "42")
        permission
  ∧ (∀ s, CheckRequest.init subject_type (IdInt n) resource_type (IdInt m)
            permission
          = CheckRequest.init subject_type (IdInt n) resource_type (IdStr s)
              permission
          ↔ s = pretty m).
Proof.
  cbv zeta. split_and!; try reflexivity; try done.
  intros s. unfold CheckRequest.init, CheckRequest.object_id_validator.
  cbn [str]. split; [by intros [= ->] | by intros ->].
Qed.

(** C8, as the code has it: every value of the grant and of the revoke
    variant has a non-null [update_type] when [update] reads it.  A value
    built without naming [update_type] has the one of its class, grant
    for the grant variant and revoke for the revoke variant; a value
    built with [update_type] named has the enumeration value named. *)
Theorem convenience_constructors_update_type :
  (∀ g : RelationUpdateGrantRequest.t,
     RelationUpdateRequest.update_type (RelationUpdateGrantRequest.upcast g)
     ≠ None)
  ∧ (∀ r : RelationUpdateRevokeRequest.t,
       RelationUpdateRequest.update_type (RelationUpdateRevokeRequest.upcast r)
       ≠ None)
  ∧ (∀ st sid rt rid rel srel,
       RelationUpdateRequest.update_type
         (RelationUpdateGrantRequest.upcast
            (RelationUpdateGrantRequest.init st sid rt rid rel srel None))
       = Some RelationUpdateType.grant
       ∧ RelationUpdateRequest.update_type
           (RelationUpdateRevokeRequest.upcast
              (RelationUpdateRevokeRequest.init st sid rt rid rel srel None))
         = Some RelationUpdateType.revoke)
  ∧ (∀ st sid rt rid rel srel t,
       RelationUpdateRequest.update_type
         (RelationUpdateGrantRequest.upcast
            (RelationUpdateGrantRequest.init st sid rt rid rel srel (Some t)))
       = Some t
       ∧ RelationUpdateRequest.update_type
           (RelationUpdateRevokeRequest.upcast
              (RelationUpdateRevokeRequest.init st sid rt rid rel srel
                 (Some t)))
         = Some t).
Proof. split_and!; done. Qed.

(** C8 as stated fails: a value of the grant variant built with
    [update_type] named revoke does not have the grant value. *)
Lemma grant_variant_update_type_is_a_default :
  let g := RelationUpdateGrantRequest.init "user" (IdInt 1) "doc" (IdInt 1)
             "owner" None (Some RelationUpdateType.revoke) in
  RelationUpdateRequest.update_type (RelationUpdateGrantRequest.upcast g)
  = Some RelationUpdateType.revoke
  ∧ RelationUpdateGrantRequest.update_type g ≠ RelationUpdateType.grant.
Proof. split; [reflexivity | discriminate]. Qed.

(** ** [resources_many] *)
Section last_occurrence_lemmas.
Context {A : Type}.
Implicit Types (l : list A) (x y : A).

Lemma last_occurrence_snoc_eq l x i :
  last_occurrence (l ++ [x]) i x → i = length l.
Proof.
  intros [Hi Hlast].
  apply lookup_snoc_Some in Hi as [[Hlt _]|[-> _]]; [|done].
  exfalso. apply (Hlast (length l) Hlt). by apply list_lookup_middle.
Qed.

Lemma last_occurrence_snoc_ne l x y i :
  x ≠ y → last_occurrence (l ++ [x]) i y → last_occurrence l i y.
Proof.
  intros Hne [Hi Hlast].
  apply lookup_snoc_Some in Hi as [[Hlt Hi]|[_ ?]]; [|done].
  split; [done |]. intros j Hj Hl. apply (Hlast j Hj).
  apply lookup_snoc_Some. left. split; [|done].
  apply lookup_lt_is_Some. eauto.
Qed.

Lemma last_occurrence_exists `{EqDecision A} l x :
  x ∈ l → ∃ i, last_occurrence l i x.
Proof.
  induction l as [|y l IH] using rev_ind; [by intros ?%not_elem_of_nil |].
  intros Hin. destruct (decide (y = x)) as [->|Hne].
  - exists (length l). split; [by apply list_lookup_middle |].
    intros j Hj Hl. apply lookup_snoc_Some in Hl as [[? _]|[-> _]]; lia.
  - apply elem_of_app in Hin as [Hin|Hin%list_elem_of_singleton];
      [|congruence].
    destruct (IH Hin) as [i [Hi Hlast]]. exists i. split.
    + apply lookup_snoc_Some. left. split; [|done].
      apply lookup_lt_is_Some. eauto.
    + intros j Hj Hl.
      apply lookup_snoc_Some in Hl as [[_ Hl]|[_ ?]]; [|done].
      by apply (Hlast j).
Qed.

Lemma last_occurrence_NoDup l i x :
  NoDup l → l !! i = Some x → last_occurrence l i x.
Proof.
  intros Hnd Hi. split; [done |]. intros j Hj Hl.
  assert (i = j) by by eapply NoDup_lookup. lia.
Qed.
End last_occurrence_lemmas.

Section resources_many_lemmas.
Context {Service : Type}.
Implicit Types (requests : list ResourcesRequest.t).
Implicit Types (request : ResourcesRequest.t) (w : World Service).

Lemma create_tasks_snoc requests request limit cursor :
  AuthzedGrpc.create_tasks (requests ++ [request]) limit cursor
  = PyDict.set (AuthzedGrpc.create_tasks requests limit cursor) request
      {| task_id := length requests;
         task_coro := AuthzedGrpc.resources_call request limit cursor |}.
Proof.
  unfold AuthzedGrpc.create_tasks, PyDict.comprehension_items.
  rewrite imap_app, foldl_app. cbn [imap foldl fst snd].
  by rewrite Nat.add_0_r.
Qed.

Lemma create_tasks_keys requests limit cursor request :
  request ∈ PyDict.keys (AuthzedGrpc.create_tasks requests limit cursor)
  ↔ request ∈ requests.
Proof.
  induction requests as [|r requests IH] using rev_ind.
  - unfold AuthzedGrpc.create_tasks, PyDict.comprehension_items,
      PyDict.keys. cbn. by rewrite !elem_of_nil.
  - rewrite create_tasks_snoc, elem_of_keys_set, IH, elem_of_app,
      list_elem_of_singleton. tauto.
Qed.

Lemma create_tasks_NoDup requests limit cursor :
  NoDup (PyDict.keys (AuthzedGrpc.create_tasks requests limit cursor)).
Proof.
  induction requests as [|r requests IH] using rev_ind.
  - apply NoDup_nil_2.
  - rewrite create_tasks_snoc. by apply NoDup_keys_set.
Qed.

Lemma create_tasks_length requests limit cursor :
  NoDup requests →
  length (PyDict.keys (AuthzedGrpc.create_tasks requests limit cursor))
  = length requests.
Proof.
  induction requests as [|r requests IH] using rev_ind; [done |].
  intros (Hnd & Hfresh & _)%NoDup_app.
  rewrite create_tasks_snoc, length_keys_set_fresh, IH, length_app by
    (try done; rewrite create_tasks_keys; intros Hin;
     apply (Hfresh r Hin), list_elem_of_singleton; done).
  simpl. lia.
Qed.

Lemma create_tasks_get requests limit cursor i request :
  last_occurrence requests i request →
  PyDict.get (AuthzedGrpc.create_tasks requests limit cursor) request
  = Some {| task_id := i;
            task_coro := AuthzedGrpc.resources_call request limit cursor |}.
Proof.
  revert i. induction requests as [|r requests IH] using rev_ind;
    intros i Hlast.
  - by destruct Hlast as [? _].
  - rewrite create_tasks_snoc. destruct (decide (r = request)) as [->|Hne].
    + apply last_occurrence_snoc_eq in Hlast as ->. apply get_set_eq.
    + rewrite get_set_ne by done.
      by apply IH, (last_occurrence_snoc_ne _ r).
Qed.
End resources_many_lemmas.

Section dict_items_lemmas.
Context {K V W : Type} `{EqDecision K}.

Lemma set_fresh (d : PyDict.t K V) k v :
  k ∉ PyDict.keys d → PyDict.set d k v = d ++ [(k, v)].
Proof.
  unfold PyDict.keys. induction d as [|[k' v'] d IH]; [done |].
  cbn [fmap list_fmap fst]. intros [Hne Hnin]%not_elem_of_cons.
  cbn [PyDict.set]. rewrite decide_False by done. by rewrite IH.
Qed.

Lemma foldl_set_items_fresh (g : W → V) (its : list (K * W))
    (d : PyDict.t K V) :
  NoDup its.*1 →
  (∀ k, k ∈ its.*1 → k ∉ PyDict.keys d) →
  foldl (λ d kv, PyDict.set d kv.1 (g kv.2)) d its
  = d ++ ((λ kv, (kv.1, g kv.2)) <$> its).
Proof.
  revert d. induction its as [|[k x] its IH]; intros d Hnd Hfresh.
  - by rewrite app_nil_r.
  - cbn [fmap list_fmap fst snd foldl] in *.
    apply NoDup_cons in Hnd as [Hk Hnd].
    rewrite set_fresh by (apply Hfresh, elem_of_cons; by left).
    rewrite IH; [by rewrite <- app_assoc | done |].
    intros k' Hk'. unfold PyDict.keys. rewrite fmap_app.
    cbn [fmap list_fmap fst]. rewrite elem_of_app, list_elem_of_singleton.
    intros [Hin| ->]; [|done].
    by apply (Hfresh k'); [apply elem_of_cons; right |].
Qed.

Lemma keys_fmap_values (g : W → V) (d : PyDict.t K W) :
  PyDict.keys ((λ kv, (kv.1, g kv.2)) <$> d) = PyDict.keys d.
Proof.
  unfold PyDict.keys. rewrite <- list_fmap_compose. by apply list_fmap_ext.
Qed.

Lemma get_fmap_values (g : W → V) (d : PyDict.t K W) k :
  PyDict.get ((λ kv, (kv.1, g kv.2)) <$> d) k = g <$> PyDict.get d k.
Proof.
  induction d as [|[k' x] d IH]; [done |].
  cbn [fmap list_fmap fst snd PyDict.get]. by case_decide.
Qed.

Lemma get_Some_elem_of (d : PyDict.t K W) k x :
  PyDict.get d k = Some x → (k, x) ∈ d.
Proof.
  induction d as [|[k' x'] d IH]; [done |]. cbn [PyDict.get].
  case_decide as Hk.
  - intros [= ->]. subst. apply elem_of_cons; by left.
  - intros ?. apply elem_of_cons; right; auto.
Qed.

Lemma elem_of_get (d : PyDict.t K W) k x :
  NoDup (PyDict.keys d) → (k, x) ∈ d → PyDict.get d k = Some x.
Proof.
  unfold PyDict.keys. induction d as [|[k' x'] d IH];
    [by intros _ ?%not_elem_of_nil |].
  cbn [fmap list_fmap fst PyDict.get].
  intros [Hnin Hnd]%NoDup_cons [[= -> ->]|Hin]%elem_of_cons.
  - by rewrite decide_True.
  - rewrite decide_False; [by apply IH |].
    intros ->. apply Hnin. apply list_elem_of_fmap. by exists (k, x).
Qed.
End dict_items_lemmas.

Section collect_lemmas.
Context {Service : Type}.
Implicit Types (w : World Service) (states : nat → TaskState).

(** The tasks that are consulted: for each request, the one started for
    its last occurrence. *)
Lemma create_tasks_elem_of requests limit cursor request task :
  (request, task) ∈ AuthzedGrpc.create_tasks requests limit cursor
  ↔ ∃ i, last_occurrence requests i request
         ∧ task = {| task_id := i;
                     task_coro :=
                       AuthzedGrpc.resources_call request limit cursor |}.
Proof.
  split.
  - intros Hin.
    assert (Hreq : request ∈ requests).
    { apply (create_tasks_keys requests limit cursor).
      apply list_elem_of_fmap. by exists (request, task). }
    apply last_occurrence_exists in Hreq as [i Hlast].
    exists i. split; [done |].
    pose proof (create_tasks_get requests limit cursor i request Hlast)
      as Hget.
    apply (elem_of_get _ _ _ (create_tasks_NoDup requests limit cursor)) in Hin.
    rewrite Hget in Hin. by injection Hin as <-.
  - intros (i & Hlast & ->).
    by apply get_Some_elem_of, create_tasks_get.
Qed.

Lemma collect_results_run states items result w :
  (∀ kv, kv ∈ items → states (task_id kv.2) ≠ task_cancelled) →
  AuthzedGrpc.collect_results states items result w
  = (Ok (foldl (λ d kv,
                  PyDict.set d kv.1 (task_outcome (states (task_id kv.2))))
           result items),
     {| service := service w;
        calls := calls w;
        log := log w
               ++ omap (λ kv, task_error_record (states (task_id kv.2)))
                    items |}).
Proof.
  revert result w. induction items as [|[request task] items IH];
    intros result w Hnone.
  - cbn. rewrite app_nil_r. by destruct w.
  - assert (Homap :
      omap (λ kv, task_error_record (states (task_id kv.2)))
        ((request, task) :: items)
      = match task_error_record (states (task_id task)) with
        | Some rec =>
            rec :: omap (λ kv, task_error_record (states (task_id kv.2)))
                     items
        | None =>
            omap (λ kv, task_error_record (states (task_id kv.2))) items
        end) by done.
    rewrite Homap. clear Homap.
    assert (Hrest : ∀ kv, kv ∈ items →
                          states (task_id kv.2) ≠ task_cancelled).
    { intros kv Hkv. apply Hnone, elem_of_cons. by right. }
    assert (Hhead : states (task_id task) ≠ task_cancelled).
    { apply (Hnone (request, task)), elem_of_cons. by left. }
    cbn [AuthzedGrpc.collect_results foldl fst snd].
    destruct (states (task_id task)) as [| |e|r];
      cbn [task_error_record task_outcome].
    + rewrite bind_logger_error, IH by done. cbn [service calls log].
      by rewrite <- app_assoc.
    + done.
    + rewrite bind_logger_error, IH by done. cbn [service calls log].
      by rewrite <- app_assoc.
    + by rewrite IH.
Qed.

(** A consulted task that ended cancelled ends the loop: the
    [CancelledError] that [task.exception()] raises leaves
    [resources_many]. *)
Lemma collect_results_cancelled states items result w :
  (∃ kv, kv ∈ items ∧ states (task_id kv.2) = task_cancelled) →
  ∃ w',
    AuthzedGrpc.collect_results states items result w
    = (Raise CancelledError, w')
    ∧ service w' = service w ∧ calls w' = calls w.
Proof.
  revert result w. induction items as [|[request task] items IH];
    intros result w (kv & Hin & Hkv).
  - by apply not_elem_of_nil in Hin.
  - cbn [AuthzedGrpc.collect_results].
    destruct (states (task_id task)) as [| |e|r] eqn:Hstate.
    + rewrite bind_logger_error.
      apply elem_of_cons in Hin as [->|Hin]; [cbn in Hkv; congruence |].
      edestruct IH as (w' & -> & Hs & Hc); [by eauto |]. by exists w'.
    + by exists w.
    + rewrite bind_logger_error.
      apply elem_of_cons in Hin as [->|Hin]; [cbn in Hkv; congruence |].
      edestruct IH as (w' & -> & Hs & Hc); [by eauto |]. by exists w'.
    + apply elem_of_cons in Hin as [->|Hin]; [cbn in Hkv; congruence |].
      apply IH. eauto.
Qed.

Lemma resources_many_run
    (asyncio_wait : list ResourcesCall → Service → (nat → TaskState) * Service)
    requests limit cursor w :
  let tasks := AuthzedGrpc.create_tasks requests limit cursor in
  let spawned := (λ request, sub_lookup request limit cursor) <$> requests in
  let states := (asyncio_wait spawned (service w)).1 in
  none_cancelled states requests →
  ∃ w',
    AuthzedGrpc.resources_many asyncio_wait requests limit cursor w
    = (Ok ((λ kv, (kv.1, task_outcome (states (task_id kv.2)))) <$> tasks),
       w')
    ∧ calls w' = calls w
    ∧ log w' = log w
               ++ omap (λ kv, task_error_record (states (task_id kv.2)))
                    tasks.
Proof.
  intros tasks spawned states Hnone. unfold AuthzedGrpc.resources_many.
  cbv zeta. fold tasks.
  change ((λ request, AuthzedGrpc.resources_call request limit cursor)
            <$> requests) with spawned.
  assert (Hfill : ∀ sts,
    foldl (λ d kv, PyDict.set d kv.1 (task_outcome (sts (task_id kv.2))))
      PyDict.empty (PyDict.items tasks)
    = (λ kv, (kv.1, task_outcome (sts (task_id kv.2)))) <$> tasks).
  { intros sts.
    rewrite (foldl_set_items_fresh (λ t, task_outcome (sts (task_id t)))).
    - done.
    - apply create_tasks_NoDup.
    - intros k _. apply not_elem_of_nil. }
  assert (Htasks : ∀ kv, kv ∈ tasks →
                         states (task_id kv.2) ≠ task_cancelled).
  { intros [request task] (i & Hlast & ->)%create_tasks_elem_of.
    by apply (Hnone i request). }
  subst states.
  unfold mbind, Coro_bind, bind, mret, Coro_ret, ret,
    AuthzedGrpc.await_wait.
  destruct tasks as [|kv tasks'] eqn:Heq.
  - rewrite collect_results_run by (by intros ? ?%not_elem_of_nil).
    eexists. split_and!; [reflexivity | done..].
  - cbv beta iota zeta.
    destruct (asyncio_wait spawned (service w)) as [sts s'].
    rewrite collect_results_run, Hfill by done.
    eexists. split_and!; [reflexivity | done..].
Qed.

Lemma resources_many_cancelled
    (asyncio_wait : list ResourcesCall → Service → (nat → TaskState) * Service)
    requests limit cursor w :
  let spawned := (λ request, sub_lookup request limit cursor) <$> requests in
  let states := (asyncio_wait spawned (service w)).1 in
  (∃ i request, last_occurrence requests i request
                ∧ states i = task_cancelled) →
  ∃ w',
    AuthzedGrpc.resources_many asyncio_wait requests limit cursor w
    = (Raise CancelledError, w')
    ∧ calls w' = calls w.
Proof.
  intros spawned states (i & request & Hlast & Hstate).
  unfold AuthzedGrpc.resources_many. cbv zeta.
  change ((λ request, AuthzedGrpc.resources_call request limit cursor)
            <$> requests) with spawned.
  pose proof (proj2 (create_tasks_elem_of requests limit cursor request _)
                (ex_intro _ i (conj Hlast eq_refl))) as Hin.
  subst states.
  unfold mbind, Coro_bind, bind, AuthzedGrpc.await_wait.
  destruct (AuthzedGrpc.create_tasks requests limit cursor)
    as [|kv tasks'] eqn:Heq; [by apply not_elem_of_nil in Hin |].
  cbv beta iota zeta.
  destruct (asyncio_wait spawned (service w)) as [sts s'].
  edestruct (collect_results_cancelled sts (kv :: tasks') PyDict.empty
               {| service := s'; calls := calls w; log := log w |})
    as (w' & Hrun & _ & Hcalls); [by eauto |].
  exists w'. split; [exact Hrun | exact Hcalls].
Qed.
End collect_lemmas.

(** C3, as the code has it.  The sub-lookup started for a request is
    [self.resources] on the four fields of that request with the limit
    and the cursor of the call.  As long as no consulted sub-lookup has
    ended cancelled, [resources_many] returns, whatever state the wait
    leaves each task in: the keys of the mapping are the requests of the
    list, each once, so there are as many keys as requests when these
    are pairwise distinct.  The task consulted for a key is the one
    started for the last occurrence of the request in the list: if it is
    still pending or has raised, the key is mapped to the empty list and
    an error record is logged for it; otherwise the key is mapped to the
    result of the task.  Nothing else is logged, and no call is sent by
    [resources_many] itself.  When a consulted sub-lookup has ended
    cancelled, [resources_many] raises [CancelledError]. *)
Theorem resources_many_degrades_per_request {Service}
    (asyncio_wait : list ResourcesCall → Service → (nat → TaskState) * Service)
    (requests : list ResourcesRequest.t) (limit : option Z)
    (cursor : option string) (w : World Service) :
  let spawned :=
    (λ request,
       {| call_resource_type := ResourcesRequest.resource_type request;
          call_permission := ResourcesRequest.permission request;
          call_subject_type := ResourcesRequest.subject_type request;
          call_subject_id := ResourcesRequest.subject_id request;
          call_limit := limit;
          call_cursor := cursor |}) <$> requests in
  let states := (asyncio_wait spawned (service w)).1 in
  (none_cancelled states requests →
   ∃ result w',
     AuthzedGrpc.resources_many asyncio_wait requests limit cursor w
     = (Ok result, w')
     ∧ (∀ request, request ∈ PyDict.keys result ↔ request ∈ requests)
     ∧ NoDup (PyDict.keys result)
     ∧ (NoDup requests → length (PyDict.keys result) = length requests)
     ∧ (∀ i request,
          last_occurrence requests i request →
          PyDict.get result request = Some (task_outcome (states i))
          ∧ ∀ rec, task_error_record (states i) = Some rec → rec ∈ log w')
     ∧ (∀ rec, rec ∈ log w' →
          rec ∈ log w
          ∨ ∃ i request, last_occurrence requests i request
                         ∧ task_error_record (states i) = Some rec)
     ∧ calls w' = calls w)
  ∧ ((∃ i request, last_occurrence requests i request
                   ∧ states i = task_cancelled) →
     ∃ w',
       AuthzedGrpc.resources_many asyncio_wait requests limit cursor w
       = (Raise CancelledError, w')
       ∧ calls w' = calls w).
Proof.
  intros spawned states.
  change spawned
    with ((λ request, sub_lookup request limit cursor) <$> requests)
    in states.
  split; [|apply resources_many_cancelled].
  intros Hnone.
  destruct (resources_many_run asyncio_wait requests limit cursor w Hnone)
    as (w' & Hrun & Hcalls & Hlog).
  fold states in Hrun, Hlog.
  set (tasks := AuthzedGrpc.create_tasks requests limit cursor) in *.
  eexists _, w'. split; [exact Hrun |].
  rewrite (keys_fmap_values (λ task, task_outcome (states (task_id task)))).
  split_and!.
  - intros request. apply create_tasks_keys.
  - apply create_tasks_NoDup.
  - apply create_tasks_length.
  - intros i request Hlast.
    pose proof (create_tasks_get requests limit cursor i request Hlast)
      as Hget. fold tasks in Hget.
    split.
    + by rewrite
        (get_fmap_values (λ task, task_outcome (states (task_id task)))), Hget.
    + intros rec Hrec. rewrite Hlog. apply elem_of_app. right.
      apply list_elem_of_omap. eexists. split.
      * by apply get_Some_elem_of.
      * done.
  - intros rec. rewrite Hlog.
    intros [Hin|Hin]%elem_of_app; [by left | right].
    apply list_elem_of_omap in Hin as ([request task] & Hin & Hrec).
    apply create_tasks_elem_of in Hin as (i & Hlast & ->).
    by exists i, request.
  - exact Hcalls.
Qed.

Lemma resources_many_degrades_per_request_witness :
  (∃ result w',
     AuthzedGrpc.resources_many Toy.wait
       [Toy.lookup "view"; Toy.lookup "edit"; Toy.lookup "share"] None None
       Toy.world0
     = (Ok result, w')
     ∧ length (PyDict.keys result) = 3
     ∧ PyDict.get result (Toy.lookup "view") = Some []
     ∧ PyDict.get result (Toy.lookup "edit") = Some []
     ∧ PyDict.get result (Toy.lookup "share") = Some ["1"; "3"]
     ∧ LogErrorMessage "Authzed resources request task not finished." ∈ log w'
     ∧ LogErrorException (AioRpcError 14 "unavailable") ∈ log w')
  ∧ ∃ w',
      AuthzedGrpc.resources_many Toy.wait_cancelled
        [Toy.lookup "view"; Toy.lookup "edit"; Toy.lookup "share"] None None
        Toy.world0
      = (Raise CancelledError, w').
Proof.
  assert (Hnd : NoDup [Toy.lookup "view"; Toy.lookup "edit";
                       Toy.lookup "share"]).
  { apply (bool_decide_unpack _). vm_compute. exact I. }
  split.
  - destruct (resources_many_degrades_per_request Toy.wait
                [Toy.lookup "view"; Toy.lookup "edit"; Toy.lookup "share"]
                None None Toy.world0) as [Hreturns _].
    destruct Hreturns as (result & w' & Hrun & _ & _ & Hlen & Hget & _).
    { intros [|[|i]] request _; discriminate. }
    exists result, w'. split_and!.
    + exact Hrun.
    + exact (Hlen Hnd).
    + apply (Hget 0). by apply last_occurrence_NoDup.
    + apply (Hget 1). by apply last_occurrence_NoDup.
    + apply (Hget 2). by apply last_occurrence_NoDup.
    + eapply (Hget 0); [by apply last_occurrence_NoDup | reflexivity].
    + eapply (Hget 1); [by apply last_occurrence_NoDup | reflexivity].
  - destruct (resources_many_degrades_per_request Toy.wait_cancelled
                [Toy.lookup "view"; Toy.lookup "edit"; Toy.lookup "share"]
                None None Toy.world0) as [_ Hcancelled].
    destruct Hcancelled as (w' & Hrun & _).
    { exists 1, (Toy.lookup "edit").
      split; [by apply last_occurrence_NoDup | reflexivity]. }
    by exists w'.
Defined.

Example resources_many_toy :
  (AuthzedGrpc.resources_many Toy.wait
     [Toy.lookup "view"; Toy.lookup "edit"; Toy.lookup "share";
      Toy.lookup "view"] None None Toy.world0).1
  = Ok [(Toy.lookup "view", ["1"; "3"]); (Toy.lookup "edit", []);
        (Toy.lookup "share", ["1"; "3"])].
Proof. reflexivity. Qed.

(** C3 as stated fails on a list that repeats a request: the sub-lookup
    started for the first occurrence does not finish, yet its key is
    mapped to the result of the later one, there are fewer keys than
    requests, and no error is logged for the stalled task. *)
Lemma resources_many_repeated_request :
  let requests := [Toy.lookup "view"; Toy.lookup "share"; Toy.lookup "view"] in
  requests !! 0 = Some (Toy.lookup "view")
  ∧ (Toy.wait
       ((λ request, AuthzedGrpc.resources_call request None None) <$> requests)
       (service Toy.world0)).1 0 = task_pending
  ∧ ∃ result w',
      AuthzedGrpc.resources_many Toy.wait requests None None Toy.world0
      = (Ok result, w')
      ∧ PyDict.get result (Toy.lookup "view") = Some ["1"; "3"]
      ∧ PyDict.get result (Toy.lookup "view") ≠ Some []
      ∧ length (PyDict.keys result) = 2
      ∧ LogErrorMessage "Authzed resources request task not finished."
        ∉ log w'.
Proof.
  cbv zeta. split_and!; [reflexivity.. |].
  eexists _, _. split_and!; [reflexivity | reflexivity | discriminate
                            | reflexivity |].
  intros Hin. vm_compute in Hin. apply list_elem_of_In in Hin.
  destruct Hin as [Heq|[]]. discriminate Heq.
Qed.

(** * Further properties of the facade *)

(** ** [update]: what is sent, and when *)
Section update_more.
Context {Service : Type}.
Variable client : AsyncClient Service.
Implicit Types (u : RelationUpdateRequest.t) (w : World Service).

Lemma relationship_update_operation u :
  AuthzedGrpc.relationship_update u
  = match update_operation u with
    | Some op => Ok (wire_update op u)
    | None =>
        Raise (match RelationUpdateRequest.update_type u with
               | None => ValueError "update_type cannot be None"
               | Some _ =>
                   NotImplementedError "Relation update type not defined."
               end)
    end.
Proof.
  unfold AuthzedGrpc.relationship_update, update_operation.
  by destruct (RelationUpdateRequest.update_type u) as [[| |]|].
Qed.

Lemma update_loop_translated updates rest acc rus :
  Forall2 (λ u ru, ∃ op, update_operation u = Some op ∧ ru = wire_update op u)
    updates rus →
  AuthzedGrpc.update_loop (updates ++ rest) acc
  = AuthzedGrpc.update_loop rest (acc ++ rus).
Proof.
  intros Hall. revert acc.
  induction Hall as [|u ru updates rus (op & Hop & ->) _ IH]; intros acc.
  - by rewrite app_nil_r.
  - cbn [app AuthzedGrpc.update_loop].
    rewrite relationship_update_operation, Hop, IH.
    by rewrite <- app_assoc.
Qed.

Lemma translation_exists updates :
  (∀ u, u ∈ updates → is_Some (update_operation u)) →
  ∃ rus,
    Forall2 (λ u ru, ∃ op, update_operation u = Some op ∧ ru = wire_update op u)
      updates rus.
Proof.
  induction updates as [|u updates IH]; intros Hall.
  - exists []. constructor.
  - destruct (Hall u) as [op Hop]; [apply elem_of_cons; by left |].
    destruct IH as [rus Hrus].
    { intros x Hx. apply Hall, elem_of_cons. by right. }
    exists (wire_update op u :: rus). constructor; eauto.
Qed.

Lemma first_untranslatable updates :
  (∃ u, u ∈ updates ∧ update_operation u = None) →
  ∃ pre u post,
    updates = pre ++ u :: post
    ∧ update_operation u = None
    ∧ ∀ x, x ∈ pre → is_Some (update_operation x).
Proof.
  induction updates as [|x updates IH]; intros (u & Hin & Hu).
  - by apply not_elem_of_nil in Hin.
  - destruct (update_operation x) as [op|] eqn:Hx.
    + apply elem_of_cons in Hin as [->|Hin]; [congruence |].
      destruct IH as (pre & u' & post & -> & Hu' & Hpre); [by eauto |].
      exists (x :: pre), u', post. split_and!; [done.. |].
      intros y [->|Hy]%elem_of_cons; [by rewrite Hx | by apply Hpre].
    + exists [], x, updates. split_and!; [done.. |].
      by intros y ?%not_elem_of_nil.
Qed.
End update_more.

(** X1: when every update is a grant or a revoke, [update] sends one
    write request whose updates are those of the list, in the same order
    and one for one: touch for a grant, delete for a revoke, each on the
    relationship of its update with the identifiers as strings. *)
Theorem update_sends_the_updates_in_order {Service}
    (client : AsyncClient Service) (updates : list RelationUpdateRequest.t)
    (w : World Service) :
  (∀ u, u ∈ updates → is_Some (update_operation u)) →
  ∃ rus,
    calls (AuthzedGrpc.update client updates w).2
    = calls w
      ++ [CallWriteRelationships {| WriteRelationshipsRequest.updates := rus |}]
    ∧ Forall2 (λ u ru, ∃ op, update_operation u = Some op
                             ∧ ru = wire_update op u) updates rus.
Proof.
  intros Hall. destruct (translation_exists updates Hall) as [rus Hrus].
  exists rus. split; [|done].
  rewrite update_unfold.
  pose proof (update_loop_translated updates [] [] rus Hrus) as Hloop.
  rewrite app_nil_r in Hloop. rewrite Hloop. cbn [AuthzedGrpc.update_loop app].
  cbv zeta.
  by destruct (WriteRelationships client _ (service w)) as [[response|e] s'].
Qed.

Lemma update_sends_the_updates_in_order_witness :
  ∃ rus,
    calls (AuthzedGrpc.update (Toy.client Toy.acked)
             [Toy.grant_update;
              RelationUpdateRevokeRequest.upcast
                (RelationUpdateRevokeRequest.init "user" (IdInt 2) "doc"
                   (IdInt 1) "owner" None None)] Toy.world0).2
    = calls Toy.world0
      ++ [CallWriteRelationships {| WriteRelationshipsRequest.updates := rus |}]
    ∧ Forall2 (λ u ru, ∃ op, update_operation u = Some op
                             ∧ ru = wire_update op u)
        [Toy.grant_update;
         RelationUpdateRevokeRequest.upcast
           (RelationUpdateRevokeRequest.init "user" (IdInt 2) "doc"
              (IdInt 1) "owner" None None)] rus.
Proof.
  apply update_sends_the_updates_in_order.
  intros u [->|[->|[]%not_elem_of_nil]%elem_of_cons]%elem_of_cons;
    by eexists.
Defined.

(** X2: [update] is all or nothing.  If some update is neither a grant
    nor a revoke (its type is null or create), [update] raises a
    [ValueError] or a [NotImplementedError] and leaves the world as it
    was: not even the updates before the offending one are sent. *)
Theorem update_all_or_nothing {Service} (client : AsyncClient Service)
    (updates : list RelationUpdateRequest.t) (w : World Service) :
  (∃ u, u ∈ updates ∧ update_operation u = None) →
  ∃ e,
    AuthzedGrpc.update client updates w = (Raise e, w)
    ∧ (e = ValueError "update_type cannot be None"
       ∨ e = NotImplementedError "Relation update type not defined.").
Proof.
  intros (pre & u & post & -> & Hu & Hpre)%first_untranslatable.
  destruct (translation_exists pre Hpre) as [rus Hrus].
  rewrite update_unfold, (update_loop_translated pre (u :: post) [] rus Hrus).
  cbn [AuthzedGrpc.update_loop].
  rewrite relationship_update_operation, Hu.
  eexists. split; [reflexivity |].
  destruct (RelationUpdateRequest.update_type u); auto.
Qed.

Lemma update_all_or_nothing_witness :
  ∃ e,
    AuthzedGrpc.update (Toy.client Toy.acked)
      [Toy.grant_update; Toy.create_update] Toy.world0
    = (Raise e, Toy.world0)
    ∧ (e = ValueError "update_type cannot be None"
       ∨ e = NotImplementedError "Relation update type not defined.").
Proof.
  apply update_all_or_nothing. exists Toy.create_update.
  split; [|reflexivity].
  apply elem_of_cons; right. apply elem_of_cons; by left.
Defined.

(** ** [check_many] and [is_allowed_many] *)
Section check_many_more.
Context {Service : Type}.
Variable client : AsyncClient Service.
Implicit Types (requests : list CheckRequest.t) (w : World Service).

Lemma apply_pairs_keys pairs (d : PyDict.t CheckRequest.t Access.t) key :
  key ∈ PyDict.keys (AuthzedGrpc.apply_pairs pairs d)
  ↔ key ∈ PyDict.keys d
    ∨ ∃ pair, pair ∈ pairs
              ∧ BulkCheckPermissionPair.item_permissionship pair
                = PERMISSIONSHIP_HAS_PERMISSION
              ∧ AuthzedGrpc.pair_check_request pair = key.
Proof.
  revert d. induction pairs as [|pair pairs IH]; intros d.
  - cbn. split; [by left |]. intros [?|(pair & Hin & _)]; [done |].
    by apply not_elem_of_nil in Hin.
  - rewrite apply_pairs_cons, IH. split.
    + intros [Hin|(p & Hin & Hp & Heq)].
      * case_decide as Hpair; [|by left].
        apply elem_of_keys_set in Hin as [->|Hin]; [|by left].
        right. exists pair. split_and!; [apply elem_of_cons; by left | done..].
      * right. exists p. split_and!; [apply elem_of_cons; by right | done..].
    + intros [Hin|(p & Hin & Hp & Heq)].
      * left. case_decide; [|done]. apply elem_of_keys_set. by right.
      * apply elem_of_cons in Hin as [->|Hin].
        -- left. rewrite decide_True by done. apply elem_of_keys_set.
           by left.
        -- right. by exists p.
Qed.

Lemma check_many_result_NoDup requests fc ml w result w' :
  AuthzedGrpc.check_many client requests fc ml w = (Ok result, w') →
  NoDup (PyDict.keys result).
Proof.
  destruct requests as [|r rest].
  - intros [= <- _]. apply NoDup_nil_2.
  - rewrite check_many_unfold. cbv zeta.
    destruct (BulkCheckPermission client _ (service w)) as [[response|e] s'];
      [|done].
    intros [= <- _]. apply apply_pairs_NoDup, comprehension_NoDup.
Qed.

Lemma comprehension_items_NoDup {K V W} `{EqDecision K} (g : W → V)
    (d : PyDict.t K W) :
  NoDup (PyDict.keys d) →
  PyDict.comprehension_items (λ _ x, g x) (PyDict.items d)
  = (λ kv, (kv.1, g kv.2)) <$> d.
Proof.
  intros Hnd. unfold PyDict.comprehension_items, PyDict.items.
  rewrite (foldl_set_items_fresh g); [done | done |].
  intros k _. apply not_elem_of_nil.
Qed.
End check_many_more.

(** X3: the keys of the mapping [check_many] returns are the input
    requests together with every tuple for which the response reports
    permission: a granted pair for a tuple that was not asked about adds
    a key, so the mapping can be larger than the input. *)
Theorem check_many_keys {Service} (client : AsyncClient Service)
    (requests : list CheckRequest.t) (fc ml : bool) (w : World Service)
    (response : BulkCheckPermissionResponse.t) (s' : Service) :
  requests ≠ [] →
  BulkCheckPermission client
    (AuthzedGrpc.bulk_check_permission_request requests fc ml) (service w)
  = (Ok response, s') →
  ∃ result w',
    AuthzedGrpc.check_many client requests fc ml w = (Ok result, w')
    ∧ NoDup (PyDict.keys result)
    ∧ ∀ key, key ∈ PyDict.keys result
             ↔ key ∈ requests ∨ reports_allow response key.
Proof.
  intros Hne Hrpc. destruct requests as [|r rest]; [done |].
  rewrite check_many_unfold. cbv zeta. rewrite Hrpc.
  eexists _, _. split; [reflexivity |]. split.
  - apply apply_pairs_NoDup, comprehension_NoDup.
  - intros key. rewrite apply_pairs_keys, comprehension_keys.
    unfold reports_allow. by setoid_rewrite pair_check_request_echoes.
Qed.

Lemma check_many_keys_witness :
  ∃ response result w',
    AuthzedGrpc.check_many (Toy.client Toy.acked)
      [Toy.view_doc1_user2; Toy.view_doc1_user1] true false Toy.world0
    = (Ok result, w')
    ∧ NoDup (PyDict.keys result)
    ∧ ∀ key, key ∈ PyDict.keys result
             ↔ key ∈ [Toy.view_doc1_user2; Toy.view_doc1_user1]
               ∨ reports_allow response key.
Proof.
  eexists.
  eapply (check_many_keys (Toy.client Toy.acked)
            [Toy.view_doc1_user2; Toy.view_doc1_user1] true false Toy.world0).
  - done.
  - reflexivity.
Defined.

(** X4: [is_allowed_many] is [check_many] with every access replaced by
    its boolean: it ends in the same world, raises what [check_many]
    raises, and otherwise returns the same keys in the same order, a key
    being true exactly where [check_many] has [allow].  The method of
    [BaseAuthzed], run over the same [check_many], gives the same as
    long as the two flags are not both set. *)
Theorem is_allowed_many_follows_check_many {Service}
    (client : AsyncClient Service) (requests : list CheckRequest.t)
    (fc ml : bool) (w : World Service) :
  AuthzedGrpc.is_allowed_many client requests fc ml w
  = match AuthzedGrpc.check_many client requests fc ml w with
    | (Ok result, w') =>
        (Ok ((λ kv, (kv.1, Access.is_allowed kv.2)) <$> result), w')
    | (Raise e, w') => (Raise e, w')
    end
  ∧ (∀ result w' request,
       AuthzedGrpc.check_many client requests fc ml w = (Ok result, w') →
       PyDict.get ((λ kv, (kv.1, Access.is_allowed kv.2)) <$> result) request
       = Some true
       ↔ PyDict.get result request = Some Access.allow)
  ∧ (fc && ml = false →
     BaseAuthzed.is_allowed_many (AuthzedGrpc.check_many client) requests
       fc ml w
     = AuthzedGrpc.is_allowed_many client requests fc ml w).
Proof.
  split_and!.
  - unfold AuthzedGrpc.is_allowed_many, mbind, Coro_bind, bind.
    destruct (AuthzedGrpc.check_many client requests fc ml w)
      as [[result|e] w'] eqn:Hrun; [|done].
    unfold mret, Coro_ret, ret. f_equal. f_equal.
    apply (comprehension_items_NoDup Access.is_allowed).
    by eapply check_many_result_NoDup.
  - intros result w' request _.
    rewrite (get_fmap_values Access.is_allowed).
    destruct (PyDict.get result request) as [a|]; cbn; [|done].
    split.
    + intros [= Ha]. by apply is_allowed_true_iff in Ha as ->.
    + by intros [= ->].
  - intros Hflags. unfold BaseAuthzed.is_allowed_many,
      AuthzedGrpc.is_allowed_many.
    by destruct fc, ml.
Qed.

Lemma is_allowed_many_follows_check_many_witness :
  (∀ request,
     PyDict.get
       ((λ kv, (kv.1, Access.is_allowed kv.2)) <$>
          [(Toy.view_doc1_user1, Access.allow);
           (Toy.view_doc1_user2, Access.forbid)]) request
     = Some true
     ↔ PyDict.get
         [(Toy.view_doc1_user1, Access.allow);
          (Toy.view_doc1_user2, Access.forbid)] request
       = Some Access.allow)
  ∧ BaseAuthzed.is_allowed_many
      (AuthzedGrpc.check_many (Toy.client Toy.acked))
      [Toy.view_doc1_user1; Toy.view_doc1_user2] false true Toy.world0
    = AuthzedGrpc.is_allowed_many (Toy.client Toy.acked)
        [Toy.view_doc1_user1; Toy.view_doc1_user2] false true Toy.world0.
Proof.
  destruct (is_allowed_many_follows_check_many (Toy.client Toy.acked)
              [Toy.view_doc1_user1; Toy.view_doc1_user2] false true
              Toy.world0) as (_ & Hget & Hbase).
  split.
  - intros request. eapply Hget. reflexivity.
  - apply Hbase. reflexivity.
Defined.

Example is_allowed_many_toy :
  (AuthzedGrpc.is_allowed_many (Toy.client Toy.acked)
     [Toy.view_doc1_user1; Toy.view_doc1_user2] false false Toy.world0).1
  = Ok [(Toy.view_doc1_user1, true); (Toy.view_doc1_user2, false)].
Proof. reflexivity. Qed.

(** ** Failures of the remote calls *)

(** X5: an exception raised by the remote call comes out of [check],
    [is_allowed], [check_many], [is_allowed_many], [update] and [subjects]
    as it is, after the one call has been recorded: nothing is caught,
    converted or retried, and an [AttributeError] raised by the call
    itself is not turned into the runtime error either. *)
Theorem remote_exceptions_propagate {Service} (client : AsyncClient Service)
    (w : World Service) (e : Exn) (s' : Service) :
  (∀ request fc ml,
     let req := AuthzedGrpc.check_permission_request request fc ml in
     CheckPermission client req (service w) = (Raise e, s') →
     AuthzedGrpc.check client request fc ml w
     = (Raise e, after_call w (CallCheckPermission req) s')
     ∧ AuthzedGrpc.is_allowed client request fc ml w
       = (Raise e, after_call w (CallCheckPermission req) s'))
  ∧ (∀ requests fc ml,
       let req := AuthzedGrpc.bulk_check_permission_request requests fc ml in
       requests ≠ [] →
       BulkCheckPermission client req (service w) = (Raise e, s') →
       AuthzedGrpc.check_many client requests fc ml w
       = (Raise e, after_call w (CallBulkCheckPermission req) s')
       ∧ AuthzedGrpc.is_allowed_many client requests fc ml w
         = (Raise e, after_call w (CallBulkCheckPermission req) s'))
  ∧ (∀ updates rus,
       let req := {| WriteRelationshipsRequest.updates := rus |} in
       AuthzedGrpc.update_loop updates [] = Ok rus →
       WriteRelationships client req (service w) = (Raise e, s') →
       AuthzedGrpc.update client updates w
       = (Raise e, after_call w (CallWriteRelationships req) s'))
  ∧ (∀ resource_type resource_id permission subject_type fc,
       let req := AuthzedGrpc.expand_permission_tree_request resource_type
                    resource_id permission fc in
       ExpandPermissionTree client req (service w) = (Raise e, s') →
       AuthzedGrpc.subjects client resource_type resource_id permission
         subject_type fc w
       = (Raise e, after_call w (CallExpandPermissionTree req) s')).
Proof.
  split_and!.
  - intros request fc ml req Hrpc.
    rewrite is_allowed_unfold, check_unfold. cbv zeta. fold req.
    by rewrite Hrpc.
  - intros requests fc ml req Hne Hrpc.
    destruct requests as [|r rest]; [done |].
    unfold AuthzedGrpc.is_allowed_many, mbind, Coro_bind, bind.
    rewrite check_many_unfold. cbv zeta. fold req. by rewrite Hrpc.
  - intros updates rus req Hloop Hrpc.
    rewrite update_unfold, Hloop. cbv zeta. fold req. by rewrite Hrpc.
  - intros resource_type resource_id permission subject_type fc req Hrpc.
    rewrite subjects_unfold. cbv zeta. fold req. by rewrite Hrpc.
Qed.

Lemma remote_exceptions_propagate_witness :
  (∃ w', AuthzedGrpc.is_allowed ToyFaulty.down Toy.view_doc1_user1 false false
           ToyFaulty.world0 = (Raise ToyFaulty.unavailable, w'))
  ∧ (∃ w', AuthzedGrpc.is_allowed_many ToyFaulty.down [Toy.view_doc1_user1]
             false false ToyFaulty.world0 = (Raise ToyFaulty.unavailable, w'))
  ∧ (∃ w', AuthzedGrpc.update ToyFaulty.down [Toy.grant_update]
             ToyFaulty.world0 = (Raise ToyFaulty.unavailable, w'))
  ∧ (∃ w', AuthzedGrpc.subjects ToyFaulty.down "doc" (IdInt 1) "view" "user"
             false ToyFaulty.world0 = (Raise ToyFaulty.unavailable, w')).
Proof.
  destruct (remote_exceptions_propagate ToyFaulty.down ToyFaulty.world0
              ToyFaulty.unavailable tt)
    as (Hcheck & Hmany & Hupdate & Hsubjects).
  split_and!; eexists.
  - eapply Hcheck. reflexivity.
  - eapply Hmany; [done | reflexivity].
  - eapply Hupdate; reflexivity.
  - eapply Hsubjects. reflexivity.
Defined.

(** X6: [subjects] sends one expansion request, fully consistent when
    the flag is set and with no consistency requirement otherwise.
    Whatever response answers it, [subjects] returns a list: the runtime
    error "Invalid permissions expand response." is never raised, and a
    response that carries no tree gives the empty list. *)
Theorem subjects_request_and_missing_tree {Service}
    (client : AsyncClient Service) (resource_type : string)
    (resource_id : PyId) (permission subject_type : string)
    (w : World Service) :
  sends (AuthzedGrpc.subjects client resource_type resource_id permission
           subject_type true) w (Some (Consistency.fully_consistent true))
  ∧ sends (AuthzedGrpc.subjects client resource_type resource_id permission
             subject_type false) w None
  ∧ (∀ fc response s',
       let req := AuthzedGrpc.expand_permission_tree_request resource_type
                    resource_id permission fc in
       ExpandPermissionTree client req (service w) = (Ok response, s') →
       ∃ ids,
         AuthzedGrpc.subjects client resource_type resource_id permission
           subject_type fc w
         = (Ok ids, after_call w (CallExpandPermissionTree req) s')
         ∧ (ExpandPermissionTreeResponse.tree_root response = None →
            ids = [])).
Proof.
  assert (Hsends : ∀ fc,
    sends (AuthzedGrpc.subjects client resource_type resource_id permission
             subject_type fc) w
      (if fc then Some (Consistency.fully_consistent true) else None)).
  { intros fc. unfold sends. rewrite subjects_unfold. cbv zeta.
    exists (CallExpandPermissionTree
              (AuthzedGrpc.expand_permission_tree_request resource_type
                 resource_id permission fc)).
    split; [|reflexivity].
    by destruct (ExpandPermissionTree client _ (service w))
      as [[response|e] s']. }
  split_and!; [apply (Hsends true) | apply (Hsends false) |].
  intros fc response s' req Hrpc. rewrite subjects_unfold. cbv zeta.
  fold req. rewrite Hrpc. eexists. split; [reflexivity |].
  by intros ->.
Qed.

Lemma subjects_request_and_missing_tree_witness :
  ∃ w', AuthzedGrpc.subjects ToyFaulty.hollow "doc" (IdInt 1) "view" "user"
          true ToyFaulty.world0
        = (Ok [], w').
Proof.
  destruct (subjects_request_and_missing_tree ToyFaulty.hollow "doc" (IdInt 1)
              "view" "user" ToyFaulty.world0) as (_ & _ & Hmissing).
  destruct (Hmissing true
              {| ExpandPermissionTreeResponse.tree_root := None |} tt eq_refl)
    as (ids & Hrun & Hids).
  eexists. rewrite Hrun. by rewrite (Hids eq_refl).
Defined.

(** ** Identifiers *)

(** X7: the coercion of identifiers to strings merges nothing it should
    not: two [CheckRequest]s built from integers are equal only when the
    integers are, field by field. *)
Theorem check_request_integers_injective
    (subject_type resource_type permission : string) (n n' m m' : Z) :
  CheckRequest.init subject_type (IdInt n) resource_type (IdInt m) permission
  = CheckRequest.init subject_type (IdInt n') resource_type (IdInt m')
      permission
  ↔ n = n' ∧ m = m'.
Proof.
  unfold CheckRequest.init, CheckRequest.subject_id_validator,
    CheckRequest.object_id_validator. cbn [str]. split.
  - intros [= Hn Hm]. split; by apply (inj pretty).
  - by intros [-> ->].
Qed.

(** ** Grouping with a [defaultdict(set)] *)
Section first_seen_lemmas.
Context {A : Type} `{EqDecision A}.
Implicit Types (l : list A) (x y : A).

Lemma elem_of_first_seen l x : x ∈ first_seen l ↔ x ∈ l.
Proof.
  induction l as [|y l IH]; [done |]. cbn [first_seen].
  rewrite !elem_of_cons, list_elem_of_filter, IH.
  destruct (decide (x = y)) as [->|Hne]; [by split; left |].
  split; [intros [?|[_ ?]]; auto | intros [?|?]; auto].
Qed.

Lemma NoDup_first_seen l : NoDup (first_seen l).
Proof.
  induction l as [|y l IH]; [apply NoDup_nil_2 |]. cbn [first_seen].
  apply NoDup_cons. split.
  - intros [Hne _]%list_elem_of_filter. done.
  - by apply NoDup_filter.
Qed.
End first_seen_lemmas.

Section group_lemmas.
Context {K A : Type} `{EqDecision K}.
Variables (key : A → K) (rel : A → string).
Implicit Types (d : PyDict.t K (gset string)) (items : list A) (k : K).

Lemma group_relations_cons d item items :
  group_relations key rel d (item :: items)
  = group_relations key rel (defaultdict_add d (key item) (rel item)) items.
Proof. done. Qed.

Lemma keys_defaultdict_add d k x :
  PyDict.keys (defaultdict_add d k x)
  = if decide (k ∈ PyDict.keys d) then PyDict.keys d
    else PyDict.keys d ++ [k].
Proof. apply keys_set. Qed.

Lemma get_defaultdict_add d k k' x :
  PyDict.get (defaultdict_add d k x) k'
  = if decide (k = k') then Some (default ∅ (PyDict.get d k) ∪ {[x]})
    else PyDict.get d k'.
Proof. apply get_set. Qed.

(** The keys stay where they are, and the new ones follow in the order
    in which they are first seen. *)
Lemma group_relations_keys d items :
  PyDict.keys (group_relations key rel d items)
  = PyDict.keys d
    ++ filter (λ k, k ∉ PyDict.keys d) (first_seen (key <$> items)).
Proof.
  revert d. induction items as [|item items IH]; intros d.
  - cbn. by rewrite app_nil_r.
  - rewrite group_relations_cons, IH, keys_defaultdict_add.
    cbn [fmap list_fmap first_seen].
    destruct (decide (key item ∈ PyDict.keys d)) as [Hin|Hnin].
    + rewrite filter_cons_False by (intros Hn; by apply Hn).
      f_equal. rewrite list_filter_filter. apply list_filter_iff.
      intros k. split; [|by intros [? _]].
      intros Hk. split; [done |]. by intros ->.
    + rewrite filter_cons_True by done. rewrite <- app_assoc. cbn [app].
      do 2 f_equal. rewrite list_filter_filter. apply list_filter_iff.
      intros k. rewrite not_elem_of_app, list_elem_of_singleton. done.
Qed.

Lemma group_relations_get d items k rels :
  PyDict.get (group_relations key rel d items) k = Some rels →
  rels = default ∅ (PyDict.get d k) ∪ relations_of key rel items k.
Proof.
  unfold relations_of. revert d.
  induction items as [|item items IH]; intros d.
  - cbn [group_relations foldl]. intros ->. cbn [default].
    rewrite filter_nil. cbn [fmap list_fmap list_to_set].
    by rewrite (right_id_L ∅ (∪)).
  - rewrite group_relations_cons. intros Hget. apply IH in Hget as ->.
    rewrite get_defaultdict_add.
    destruct (decide (key item = k)) as [Heq|Hne].
    + rewrite filter_cons_True by done. rewrite Heq.
      cbn [default fmap list_fmap list_to_set].
      by rewrite (assoc_L (∪)).
    + by rewrite filter_cons_False.
Qed.

Lemma group_relations_empty_keys items :
  PyDict.keys (group_relations key rel PyDict.empty items)
  = first_seen (key <$> items).
Proof.
  rewrite group_relations_keys. cbn.
  induction (first_seen (key <$> items)) as [|k l IH]; [done |].
  rewrite filter_cons_True by apply not_elem_of_nil. by rewrite IH.
Qed.

Lemma group_relations_empty_items items k rels :
  (k, rels) ∈ group_relations key rel PyDict.empty items →
  k ∈ key <$> items ∧ rels = relations_of key rel items k.
Proof.
  intros Hin. split.
  - apply elem_of_first_seen. rewrite <- group_relations_empty_keys.
    apply list_elem_of_fmap. by exists (k, rels).
  - apply elem_of_get in Hin.
    + apply group_relations_get in Hin as ->.
      unfold PyDict.empty. cbn [PyDict.get default].
      by rewrite (left_id_L ∅ (∪)).
    + rewrite group_relations_empty_keys. apply NoDup_first_seen.
Qed.

Lemma elem_of_relations_of items k r :
  r ∈ relations_of key rel items k
  ↔ ∃ item, item ∈ items ∧ key item = k ∧ rel item = r.
Proof.
  unfold relations_of.
  rewrite elem_of_list_to_set, list_elem_of_fmap.
  setoid_rewrite list_elem_of_filter. split.
  - intros (item & -> & Hk & Hin). by exists item.
  - intros (item & Hin & Hk & <-). by exists item.
Qed.
End group_lemmas.

(** ** The reading methods *)
Section reads_lemmas.
Context {Service : Type}.
Variable client : AsyncClientStreams Service.
Implicit Types (w : World Service).

Lemma bind_open_stream {A B} (rpc : Service → Stream A * Service)
    (k : Stream A → Coro Service B) w :
  (open_stream rpc ≫= k) w
  = k (rpc (service w)).1
      {| service := (rpc (service w)).2; calls := calls w; log := log w |}.
Proof.
  unfold mbind, Coro_bind, bind, open_stream.
  by destruct (rpc (service w)) as [stream s'].
Qed.

Lemma check_relation_loop_found relation items error :
  (∃ item, item ∈ items ∧ item_relation item = relation) →
  AuthzedGrpcReads.check_relation_loop relation items error = Ok true.
Proof.
  induction items as [|item items IH]; intros (x & Hin & Hx).
  - by apply not_elem_of_nil in Hin.
  - cbn [AuthzedGrpcReads.check_relation_loop]. case_decide as Hitem; [done |].
    apply IH. apply elem_of_cons in Hin as [->|Hin]; [done |]. eauto.
Qed.

Lemma check_relation_loop_not_found relation items error :
  (∀ item, item ∈ items → item_relation item ≠ relation) →
  AuthzedGrpcReads.check_relation_loop relation items error
  = match error with
    | None => Ok false
    | Some e => Raise e
    end.
Proof.
  induction items as [|item items IH]; intros Hnone; [done |].
  cbn [AuthzedGrpcReads.check_relation_loop]. rewrite decide_False.
  - apply IH. intros x Hx. apply Hnone, elem_of_cons. by right.
  - apply (Hnone item), elem_of_cons. by left.
Qed.
End reads_lemmas.

(** The limit of a request: a limit in the range of the field is
    taken, none and 0 leaving the field at 0; any other is refused. *)
Lemma limit_of_fits (limit : option Z) :
  fits_uint32 limit →
  AuthzedGrpcReads.limit_of limit = Ok (default 0%Z limit).
Proof.
  intros Hfits. unfold AuthzedGrpcReads.limit_of.
  destruct limit as [n|]; [|done]. cbn [truthy_int default].
  case_bool_decide as Hn.
  - unfold uint32. by rewrite decide_True by by apply Hfits.
  - f_equal. by destruct (decide (n = 0%Z)).
Qed.

Lemma limit_of_refused (n : Z) :
  ¬ (0 ≤ n ≤ 4294967295)%Z →
  ∃ msg, AuthzedGrpcReads.limit_of (Some n) = Raise (ValueError msg).
Proof.
  intros Hn. unfold AuthzedGrpcReads.limit_of. cbn [truthy_int default].
  rewrite bool_decide_true by lia.
  unfold uint32. rewrite decide_False by done. by eexists.
Qed.

Lemma constructor_limit_fits (limit : option Z) :
  fits_uint32 limit →
  match limit with
  | None => Ok 0%Z
  | Some n => uint32 n
  end = Ok (default 0%Z limit).
Proof.
  intros Hfits. destruct limit as [n|]; [|done].
  unfold uint32. by rewrite decide_True by by apply Hfits.
Qed.

(** X8: [relations] returns the relation names of the streamed
    relationships, one for each and in the order of the stream (nothing
    is merged or sorted), and [resources] the streamed resource ids in
    the same way; if the stream breaks off, the exception is raised and
    what had been received is not returned.  The request carries the
    limit in its [uint32] field; a limit outside the range of the field
    makes both raise a [ValueError] before any stream is opened. *)
Theorem relations_and_resources_list_the_stream {Service}
    (client : AsyncClientStreams Service) (w : World Service) :
  (∀ resource_type resource_id subject_type subject_id limit cursor,
     (fits_uint32 limit →
      ∃ request,
        AuthzedGrpcReads.relations_request resource_type resource_id
          subject_type subject_id limit cursor = Ok request
        ∧ ReadRelationshipsRequest.optional_limit request = default 0%Z limit
        ∧ ∀ stream s',
            ReadRelationships client request (service w) = (stream, s') →
            ∃ w',
              AuthzedGrpcReads.relations client resource_type resource_id
                subject_type subject_id limit cursor w
              = (match stream_error stream with
                 | None => Ok (item_relation <$> stream_items stream)
                 | Some e => Raise e
                 end, w')
              ∧ service w' = s' ∧ calls w' = calls w)
     ∧ (∀ n, limit = Some n → ¬ (0 ≤ n ≤ 4294967295)%Z →
          ∃ msg,
            AuthzedGrpcReads.relations client resource_type resource_id
              subject_type subject_id limit cursor w
            = (Raise (ValueError msg), w)))
  ∧ (∀ resource_type permission subject_type subject_id limit cursor,
       (fits_uint32 limit →
        ∃ request,
          AuthzedGrpcReads.resources_request resource_type permission
            subject_type subject_id limit cursor = Ok request
          ∧ LookupResourcesRequest.optional_limit request = default 0%Z limit
          ∧ ∀ stream s',
              LookupResources client request (service w) = (stream, s') →
              ∃ w',
                AuthzedGrpcReads.resources client resource_type permission
                  subject_type subject_id limit cursor w
                = (match stream_error stream with
                   | None =>
                       Ok (LookupResourcesResponse.resource_object_id
                             <$> stream_items stream)
                   | Some e => Raise e
                   end, w')
                ∧ service w' = s' ∧ calls w' = calls w)
       ∧ (∀ n, limit = Some n → ¬ (0 ≤ n ≤ 4294967295)%Z →
            ∃ msg,
              AuthzedGrpcReads.resources client resource_type permission
                subject_type subject_id limit cursor w
              = (Raise (ValueError msg), w))).
Proof.
  split.
  - intros resource_type resource_id subject_type subject_id limit cursor.
    unfold AuthzedGrpcReads.relations, BaseAuthzedReads.relations,
      AuthzedGrpcReads.relations_generator,
      AuthzedGrpcReads.relations_request.
    cbv zeta. split.
    + intros Hfits. rewrite (limit_of_fits limit Hfits). cbn [result_bind].
      eexists. split; [reflexivity |]. split; [reflexivity |].
      intros stream s' Hrpc.
      rewrite bind_lift_result, bind_open_stream, Hrpc. cbn [fst snd].
      rewrite bind_lift_result. unfold stream_all.
      destruct (stream_error stream); by eexists.
    + intros n -> Hn. destruct (limit_of_refused n Hn) as [msg ->].
      exists msg. by rewrite bind_lift_result.
  - intros resource_type permission subject_type subject_id limit cursor.
    unfold AuthzedGrpcReads.resources, BaseAuthzedReads.resources,
      AuthzedGrpcReads.resources_generator,
      AuthzedGrpcReads.resources_request.
    cbv zeta. split.
    + intros Hfits. rewrite (constructor_limit_fits limit Hfits).
      cbn [result_bind].
      eexists. split; [reflexivity |]. split; [reflexivity |].
      intros stream s' Hrpc.
      rewrite bind_lift_result, bind_open_stream, Hrpc. cbn [fst snd].
      rewrite bind_lift_result. unfold stream_all.
      destruct (stream_error stream); by eexists.
    + intros n -> Hn. unfold uint32. rewrite decide_False by done.
      eexists. by rewrite bind_lift_result.
Qed.

Lemma relations_and_resources_list_the_stream_witness :
  (∃ w', AuthzedGrpcReads.relations
           (ToyStreams.client ToyStreams.reads ToyStreams.lookups)
           "doc" (IdInt 2) "user" (IdInt 1) (Some 4%Z) None Toy.world0
         = (Ok ["viewer"; "owner"; "editor"; "viewer"], w'))
  ∧ (∃ w', AuthzedGrpcReads.relations
             (ToyStreams.client ToyStreams.broken_reads ToyStreams.lookups)
             "doc" (IdInt 2) "user" (IdInt 1) None None Toy.world0
           = (Raise (AioRpcError 14 "unavailable"), w'))
  ∧ (∃ w', AuthzedGrpcReads.resources
             (ToyStreams.client ToyStreams.reads ToyStreams.lookups)
             "doc" "view" "user" (IdInt 1) None None Toy.world0
           = (Ok ["2"; "1"], w'))
  ∧ (∃ msg, AuthzedGrpcReads.relations
              (ToyStreams.client ToyStreams.reads ToyStreams.lookups)
              "doc" (IdInt 2) "user" (IdInt 1) (Some (-1)%Z) None Toy.world0
            = (Raise (ValueError msg), Toy.world0))
  ∧ (∃ msg, AuthzedGrpcReads.resources
              (ToyStreams.client ToyStreams.reads ToyStreams.lookups)
              "doc" "view" "user" (IdInt 1) (Some 4294967296%Z) None
              Toy.world0
            = (Raise (ValueError msg), Toy.world0)).
Proof.
  split_and!.
  - destruct (relations_and_resources_list_the_stream
                (ToyStreams.client ToyStreams.reads ToyStreams.lookups)
                Toy.world0) as [Hrel _].
    destruct (Hrel "doc" (IdInt 2) "user" (IdInt 1) (Some 4%Z) None)
      as [Hfits _].
    destruct Hfits as (request & _ & _ & Hstream);
      [intros n [= <-]; lia |].
    edestruct Hstream as (w' & Hrun & _); [reflexivity |].
    exists w'. exact Hrun.
  - destruct (relations_and_resources_list_the_stream
                (ToyStreams.client ToyStreams.broken_reads ToyStreams.lookups)
                Toy.world0) as [Hrel _].
    destruct (Hrel "doc" (IdInt 2) "user" (IdInt 1) None None)
      as [Hfits _].
    destruct Hfits as (request & _ & _ & Hstream); [by intros n [=] |].
    edestruct Hstream as (w' & Hrun & _); [reflexivity |].
    exists w'. exact Hrun.
  - destruct (relations_and_resources_list_the_stream
                (ToyStreams.client ToyStreams.reads ToyStreams.lookups)
                Toy.world0) as [_ Hres].
    destruct (Hres "doc" "view" "user" (IdInt 1) None None) as [Hfits _].
    destruct Hfits as (request & _ & _ & Hstream); [by intros n [=] |].
    edestruct Hstream as (w' & Hrun & _); [reflexivity |].
    exists w'. exact Hrun.
  - destruct (relations_and_resources_list_the_stream
                (ToyStreams.client ToyStreams.reads ToyStreams.lookups)
                Toy.world0) as [Hrel _].
    destruct (Hrel "doc" (IdInt 2) "user" (IdInt 1) (Some (-1)%Z) None)
      as [_ Hrefused].
    apply (Hrefused (-1)%Z); [reflexivity | lia].
  - destruct (relations_and_resources_list_the_stream
                (ToyStreams.client ToyStreams.reads ToyStreams.lookups)
                Toy.world0) as [_ Hres].
    destruct (Hres "doc" "view" "user" (IdInt 1) (Some 4294967296%Z) None)
      as [_ Hrefused].
    apply (Hrefused 4294967296%Z); [reflexivity | lia].
Defined.

(** X9: [check_relation] answers from the stream as far as it has to
    read it: true as soon as a streamed relationship has the relation,
    even if the stream would break off later; false when the stream ends
    without one; and the stream's exception when it breaks off before
    one is seen. *)
Theorem check_relation_reads_until_found {Service}
    (client : AsyncClientStreams Service) (resource_type : string)
    (resource_id : PyId) (relation subject_type : string) (subject_id : PyId)
    (w : World Service) (stream : Stream ReadRelationshipsResponse.t)
    (s' : Service) :
  ReadRelationships client
    (AuthzedGrpcReads.check_relation_request resource_type resource_id
       relation subject_type subject_id) (service w)
  = (stream, s') →
  ∃ r w',
    AuthzedGrpcReads.check_relation client resource_type resource_id relation
      subject_type subject_id w = (r, w')
    ∧ ((∃ item, item ∈ stream_items stream ∧ item_relation item = relation) →
       r = Ok true)
    ∧ ((∀ item, item ∈ stream_items stream → item_relation item ≠ relation) →
       r = match stream_error stream with
           | None => Ok false
           | Some e => Raise e
           end).
Proof.
  intros Hrpc. unfold AuthzedGrpcReads.check_relation. cbv zeta.
  rewrite bind_open_stream, Hrpc. cbn [fst snd]. unfold lift_result.
  eexists _, _. split; [reflexivity |]. split.
  - apply check_relation_loop_found.
  - apply check_relation_loop_not_found.
Qed.

Lemma check_relation_reads_until_found_witness :
  (∃ w', AuthzedGrpcReads.check_relation
           (ToyStreams.client ToyStreams.broken_reads ToyStreams.lookups)
           "doc" (IdInt 1) "owner" "user" (IdInt 1) Toy.world0
         = (Ok true, w'))
  ∧ (∃ w', AuthzedGrpcReads.check_relation
             (ToyStreams.client ToyStreams.broken_reads ToyStreams.lookups)
             "doc" (IdInt 1) "editor" "user" (IdInt 1) Toy.world0
           = (Raise (AioRpcError 14 "unavailable"), w'))
  ∧ (∃ w', AuthzedGrpcReads.check_relation
             (ToyStreams.client ToyStreams.reads ToyStreams.lookups)
             "doc" (IdInt 1) "admin" "user" (IdInt 1) Toy.world0
           = (Ok false, w')).
Proof.
  split_and!.
  - edestruct (check_relation_reads_until_found
                 (ToyStreams.client ToyStreams.broken_reads ToyStreams.lookups)
                 "doc" (IdInt 1) "owner" "user" (IdInt 1) Toy.world0)
      as (r & w' & Hrun & Hfound & _); [reflexivity |].
    exists w'. rewrite Hrun. f_equal. apply Hfound.
    exists (ToyStreams.tuple "1" "owner" "1"). split; [|reflexivity].
    apply elem_of_cons; right. apply elem_of_cons; by left.
  - edestruct (check_relation_reads_until_found
                 (ToyStreams.client ToyStreams.broken_reads ToyStreams.lookups)
                 "doc" (IdInt 1) "editor" "user" (IdInt 1) Toy.world0)
      as (r & w' & Hrun & _ & Hnone); [reflexivity |].
    exists w'. rewrite Hrun. f_equal. apply Hnone.
    intros item Hin. apply list_elem_of_In in Hin.
    destruct Hin as [<-|[<-|[]]]; discriminate.
  - edestruct (check_relation_reads_until_found
                 (ToyStreams.client ToyStreams.reads ToyStreams.lookups)
                 "doc" (IdInt 1) "admin" "user" (IdInt 1) Toy.world0)
      as (r & w' & Hrun & _ & Hnone); [reflexivity |].
    exists w'. rewrite Hrun. f_equal. apply Hnone.
    intros item Hin. apply list_elem_of_In in Hin.
    destruct Hin as [<-|[<-|[<-|[<-|[]]]]]; discriminate.
Defined.

(** ** The grouped listings *)
Section grouped_lemmas.
Context {K A B : Type} `{EqDecision K}.
Variables (key : A → K) (rel : A → string).
Variable entry : K → list string → B.

(** What both generators yield from the dictionary they have filled. *)
Lemma grouped_entries (items : list A) (out : list B) :
  out = (λ kv, entry kv.1 (elements kv.2))
          <$> PyDict.items (group_relations key rel PyDict.empty items) →
  ∃ groups : list (K * gset string),
    out = (λ kv, entry kv.1 (elements kv.2)) <$> groups
    ∧ groups.*1 = first_seen (key <$> items)
    ∧ ∀ k rels, (k, rels) ∈ groups →
        NoDup (elements rels)
        ∧ ∀ r, r ∈ elements rels
               ↔ ∃ item, item ∈ items ∧ key item = k ∧ rel item = r.
Proof.
  intros ->. eexists. split; [reflexivity |]. split.
  - apply group_relations_empty_keys.
  - intros k rels [_ ->]%group_relations_empty_items.
    split; [apply NoDup_elements |].
    intros r. rewrite elem_of_elements. apply elem_of_relations_of.
Qed.
End grouped_lemmas.

(** X10: when the stream ends, [resources_with_relations] returns one
    entry for each resource id that occurs in the stream, in the order
    in which the ids are first seen; the relations of an entry are the
    relations streamed with that id, each listed once.  When the stream
    breaks off, the exception is raised and no entry is returned.  A
    limit outside the range of the [uint32] field of the request raises
    a [ValueError] before the stream is opened. *)
Theorem resources_with_relations_groups_by_resource {Service}
    (client : AsyncClientStreams Service) (resource_type subject_type : string)
    (subject_id : PyId) (relation : option string) (limit : option Z)
    (cursor : option string) (w : World Service) :
  (fits_uint32 limit →
   ∃ request,
     AuthzedGrpcReads.resources_with_relations_request resource_type
       subject_type subject_id relation limit cursor = Ok request
     ∧ ReadRelationshipsRequest.optional_limit request = default 0%Z limit
     ∧ ∀ stream s',
         ReadRelationships client request (service w) = (stream, s') →
         (∀ e, stream_error stream = Some e →
               ∃ w', AuthzedGrpcReads.resources_with_relations client
                       resource_type subject_type subject_id relation limit
                       cursor w
                     = (Raise e, w'))
         ∧ (stream_error stream = None →
            ∃ out w',
              AuthzedGrpcReads.resources_with_relations client resource_type
                subject_type subject_id relation limit cursor w = (Ok out, w')
              ∧ ResourcesWithRelations.resource_id <$> out
                = first_seen (item_resource_id <$> stream_items stream)
              ∧ NoDup (ResourcesWithRelations.resource_id <$> out)
              ∧ ∀ entry, entry ∈ out →
                  NoDup (ResourcesWithRelations.relations entry)
                  ∧ ∀ r, r ∈ ResourcesWithRelations.relations entry
                         ↔ ∃ item, item ∈ stream_items stream
                                   ∧ item_resource_id item
                                     = ResourcesWithRelations.resource_id entry
                                   ∧ item_relation item = r))
  ∧ (∀ n, limit = Some n → ¬ (0 ≤ n ≤ 4294967295)%Z →
       ∃ msg,
         AuthzedGrpcReads.resources_with_relations client resource_type
           subject_type subject_id relation limit cursor w
         = (Raise (ValueError msg), w)).
Proof.
  unfold AuthzedGrpcReads.resources_with_relations,
    BaseAuthzedReads.resources_with_relations,
    AuthzedGrpcReads.resources_with_relations_generator,
    AuthzedGrpcReads.resources_with_relations_request.
  cbv zeta. split.
  2: { intros n -> Hn. destruct (limit_of_refused n Hn) as [msg ->].
       exists msg. by rewrite bind_lift_result. }
  intros Hfits. rewrite (limit_of_fits limit Hfits). cbn [result_bind].
  eexists. split; [reflexivity |]. split; [reflexivity |].
  intros stream s' Hrpc.
  rewrite bind_lift_result, bind_open_stream, Hrpc. cbn [fst snd].
  rewrite bind_lift_result. unfold stream_all. split.
  - intros e ->. by eexists.
  - intros ->. eexists _, _. split; [reflexivity |].
    destruct (grouped_entries item_resource_id item_relation
                ResourcesWithRelations.make (stream_items stream) _ eq_refl)
      as (groups & Hout & Hkeys & Hgroups).
    assert (Hids :
      ResourcesWithRelations.resource_id <$>
        ((λ kv : string * gset string,
            ResourcesWithRelations.make kv.1 (elements kv.2)) <$> groups)
      = groups.*1).
    { rewrite <- list_fmap_compose. by apply list_fmap_ext. }
    unfold AuthzedGrpcReads.group_by_resource.
    change (foldl _ PyDict.empty (stream_items stream))
      with (group_relations item_resource_id item_relation PyDict.empty
              (stream_items stream)).
    unfold PyDict.items in *. rewrite Hout, Hids, Hkeys.
    split_and!; [done | apply NoDup_first_seen |].
    intros entry ([k rels] & -> & Hin)%list_elem_of_fmap.
    by apply Hgroups.
Qed.

Lemma resources_with_relations_groups_by_resource_witness :
  (∃ w', AuthzedGrpcReads.resources_with_relations
           (ToyStreams.client ToyStreams.broken_reads ToyStreams.lookups)
           "doc" "user" (IdInt 1) None None None Toy.world0
         = (Raise (AioRpcError 14 "unavailable"), w'))
  ∧ (∃ out w',
       AuthzedGrpcReads.resources_with_relations
         (ToyStreams.client ToyStreams.reads ToyStreams.lookups)
         "doc" "user" (IdInt 1) None (Some 10%Z) None Toy.world0 = (Ok out, w')
       ∧ ResourcesWithRelations.resource_id <$> out = ["2"; "1"]
       ∧ ∀ entry, entry ∈ out →
           NoDup (ResourcesWithRelations.relations entry)
           ∧ ∀ r, r ∈ ResourcesWithRelations.relations entry
                  ↔ ∃ item, item ∈ stream_items ToyStreams.reads
                            ∧ item_resource_id item
                              = ResourcesWithRelations.resource_id entry
                            ∧ item_relation item = r)
  ∧ ∃ msg,
      AuthzedGrpcReads.resources_with_relations
        (ToyStreams.client ToyStreams.reads ToyStreams.lookups)
        "doc" "user" (IdInt 1) None (Some (-1)%Z) None Toy.world0
      = (Raise (ValueError msg), Toy.world0).
Proof.
  split_and!.
  - destruct (resources_with_relations_groups_by_resource
                (ToyStreams.client ToyStreams.broken_reads ToyStreams.lookups)
                "doc" "user" (IdInt 1) None None None Toy.world0)
      as [Hfits _].
    destruct Hfits as (request & _ & _ & Hstream); [by intros n [=] |].
    edestruct Hstream as [Hbroken _]; [reflexivity |].
    by apply Hbroken.
  - destruct (resources_with_relations_groups_by_resource
                (ToyStreams.client ToyStreams.reads ToyStreams.lookups)
                "doc" "user" (IdInt 1) None (Some 10%Z) None Toy.world0)
      as [Hfits _].
    destruct Hfits as (request & _ & _ & Hstream);
      [intros n [= <-]; lia |].
    edestruct Hstream as [_ Hended]; [reflexivity |].
    destruct (Hended eq_refl) as (out & w' & Hrun & Hids & _ & Hrels).
    exists out, w'. split_and!; [exact Hrun | exact Hids | exact Hrels].
  - destruct (resources_with_relations_groups_by_resource
                (ToyStreams.client ToyStreams.reads ToyStreams.lookups)
                "doc" "user" (IdInt 1) None (Some (-1)%Z) None Toy.world0)
      as [_ Hrefused].
    apply (Hrefused (-1)%Z); [reflexivity | lia].
Defined.

(** X11: when the stream ends, [subjects_with_relations] returns one
    entry for each subject, a pair of object type and object id, that
    occurs in the stream, in the order in which the subjects are first
    seen; the relations of an entry are the relations streamed with that
    subject, each listed once.  When the stream breaks off, the
    exception is raised and no entry is returned.  A limit outside the
    range of the [uint32] field of the request raises a [ValueError]
    before the stream is opened. *)
Theorem subjects_with_relations_groups_by_subject {Service}
    (client : AsyncClientStreams Service) (resource_type : string)
    (resource_id : option PyId) (subject_type : option string)
    (limit : option Z) (cursor : option string) (w : World Service) :
  (fits_uint32 limit →
   ∃ request,
     AuthzedGrpcReads.subjects_with_relations_request resource_type
       resource_id subject_type limit cursor = Ok request
     ∧ ReadRelationshipsRequest.optional_limit request = default 0%Z limit
     ∧ ∀ stream s',
         ReadRelationships client request (service w) = (stream, s') →
         (∀ e, stream_error stream = Some e →
               ∃ w', AuthzedGrpcReads.subjects_with_relations client
                       resource_type resource_id subject_type limit cursor w
                     = (Raise e, w'))
         ∧ (stream_error stream = None →
            ∃ out w',
              AuthzedGrpcReads.subjects_with_relations client resource_type
                resource_id subject_type limit cursor w = (Ok out, w')
              ∧ (λ entry, (SubjectsWithRelations.subject_type entry,
                           SubjectsWithRelations.subject_id entry)) <$> out
                = (λ subject, (Some subject.1, subject.2))
                    <$> first_seen (item_subject <$> stream_items stream)
              ∧ ∀ entry, entry ∈ out →
                  NoDup (SubjectsWithRelations.relations entry)
                  ∧ ∀ r, r ∈ SubjectsWithRelations.relations entry
                         ↔ ∃ item, item ∈ stream_items stream
                                   ∧ Some (item_subject item).1
                                     = SubjectsWithRelations.subject_type entry
                                   ∧ (item_subject item).2
                                     = SubjectsWithRelations.subject_id entry
                                   ∧ item_relation item = r))
  ∧ (∀ n, limit = Some n → ¬ (0 ≤ n ≤ 4294967295)%Z →
       ∃ msg,
         AuthzedGrpcReads.subjects_with_relations client resource_type
           resource_id subject_type limit cursor w
         = (Raise (ValueError msg), w)).
Proof.
  unfold AuthzedGrpcReads.subjects_with_relations,
    BaseAuthzedReads.subjects_with_relations,
    AuthzedGrpcReads.subjects_with_relations_generator,
    AuthzedGrpcReads.subjects_with_relations_request.
  cbv zeta. split.
  2: { intros n -> Hn. destruct (limit_of_refused n Hn) as [msg ->].
       exists msg. by rewrite bind_lift_result. }
  intros Hfits. rewrite (limit_of_fits limit Hfits). cbn [result_bind].
  eexists. split; [reflexivity |]. split; [reflexivity |].
  intros stream s' Hrpc.
  rewrite bind_lift_result, bind_open_stream, Hrpc. cbn [fst snd].
  rewrite bind_lift_result. unfold stream_all. split.
  - intros e ->. by eexists.
  - intros ->. eexists _, _. split; [reflexivity |].
    destruct (grouped_entries item_subject item_relation
                (λ k rels, SubjectsWithRelations.make (Some k.1) k.2 rels)
                (stream_items stream) _ eq_refl)
      as (groups & Hout & Hkeys & Hgroups).
    unfold AuthzedGrpcReads.group_by_subject.
    change (foldl _ PyDict.empty (stream_items stream))
      with (group_relations item_subject item_relation PyDict.empty
              (stream_items stream)).
    unfold PyDict.items in *. rewrite Hout, <- Hkeys. split.
    + rewrite <- !list_fmap_compose. by apply list_fmap_ext.
    + intros entry ([[ty id] rels] & -> & Hin)%list_elem_of_fmap.
      destruct (Hgroups _ _ Hin) as [Hnd Hrels]. split; [exact Hnd |].
      intros r.
      cbn [SubjectsWithRelations.subject_type SubjectsWithRelations.subject_id
           SubjectsWithRelations.relations fst snd].
      rewrite Hrels. split.
      * intros (item & Hitem & Hkey & Hr). exists item.
        rewrite Hkey. by split_and!.
      * intros (item & Hitem & Hty & Hid & Hr). exists item.
        split_and!; [done | | done].
        destruct (item_subject item) as [ty' id'].
        cbn [fst snd] in *. injection Hty as ->. by rewrite Hid.
Qed.

Lemma subjects_with_relations_groups_by_subject_witness :
  (∃ out w',
     AuthzedGrpcReads.subjects_with_relations
       (ToyStreams.client ToyStreams.reads ToyStreams.lookups)
       "doc" None (Some "user") None None Toy.world0 = (Ok out, w')
     ∧ (λ entry, (SubjectsWithRelations.subject_type entry,
                  SubjectsWithRelations.subject_id entry)) <$> out
       = [(Some "user", "1")]
     ∧ ∀ entry, entry ∈ out →
         NoDup (SubjectsWithRelations.relations entry)
         ∧ ∀ r, r ∈ SubjectsWithRelations.relations entry
                ↔ ∃ item, item ∈ stream_items ToyStreams.reads
                          ∧ Some (item_subject item).1
                            = SubjectsWithRelations.subject_type entry
                          ∧ (item_subject item).2
                            = SubjectsWithRelations.subject_id entry
                          ∧ item_relation item = r)
  ∧ ∃ msg,
      AuthzedGrpcReads.subjects_with_relations
        (ToyStreams.client ToyStreams.reads ToyStreams.lookups)
        "doc" None (Some "user") (Some 4294967296%Z) None Toy.world0
      = (Raise (ValueError msg), Toy.world0).
Proof.
  split.
  - destruct (subjects_with_relations_groups_by_subject
                (ToyStreams.client ToyStreams.reads ToyStreams.lookups)
                "doc" None (Some "user") None None Toy.world0)
      as [Hfits _].
    destruct Hfits as (request & _ & _ & Hstream); [by intros n [=] |].
    edestruct Hstream as [_ Hended]; [reflexivity |].
    destruct (Hended eq_refl) as (out & w' & Hrun & Hsubjects & Hrels).
    exists out, w'. split_and!; [exact Hrun | exact Hsubjects | exact Hrels].
  - destruct (subjects_with_relations_groups_by_subject
                (ToyStreams.client ToyStreams.reads ToyStreams.lookups)
                "doc" None (Some "user") (Some 4294967296%Z) None Toy.world0)
      as [_ Hrefused].
    apply (Hrefused 4294967296%Z); [reflexivity | lia].
Defined.

(** ** Arguments that count as absent *)

(** X12: an optional argument whose truth value is false is treated as
    if it had been left out.  A limit of 0 and an empty cursor give the
    request of no limit and no cursor in [relations], [resources],
    [resources_with_relations] and [subjects_with_relations]; so does an
    empty relation in [resources_with_relations], and an empty subject
    type and a resource id that is empty or the integer 0 in
    [subjects_with_relations], which then does not filter by resource id
    at all, whereas [relations] sends the id 0 as the string "0". *)
Theorem falsy_arguments_are_absent
    (resource_type subject_type permission : string)
    (resource_id subject_id : PyId) (limit : option Z)
    (cursor relation subject_type' : option string)
    (resource_id' : option PyId) :
  truthy_int limit = false →
  truthy_str cursor = false →
  truthy_str relation = false →
  truthy_str subject_type' = false →
  truthy_id resource_id' = false →
  (∃ request,
     AuthzedGrpcReads.relations_request resource_type resource_id
       subject_type subject_id limit cursor = Ok request
     ∧ AuthzedGrpcReads.relations_request resource_type resource_id
         subject_type subject_id None None = Ok request)
  ∧ (∃ request,
       AuthzedGrpcReads.resources_request resource_type permission
         subject_type subject_id limit cursor = Ok request
       ∧ AuthzedGrpcReads.resources_request resource_type permission
           subject_type subject_id None None = Ok request)
  ∧ (∃ request,
       AuthzedGrpcReads.resources_with_relations_request resource_type
         subject_type subject_id relation limit cursor = Ok request
       ∧ AuthzedGrpcReads.resources_with_relations_request resource_type
           subject_type subject_id None None None = Ok request)
  ∧ (∃ request,
       AuthzedGrpcReads.subjects_with_relations_request resource_type
         resource_id' subject_type' limit cursor = Ok request
       ∧ AuthzedGrpcReads.subjects_with_relations_request resource_type
           None None None None = Ok request
       ∧ RelationshipFilter.optional_resource_id
           (ReadRelationshipsRequest.relationship_filter request) = "")
  ∧ (∃ request,
       AuthzedGrpcReads.relations_request resource_type (IdInt 0)
         subject_type subject_id limit cursor = Ok request
       ∧ RelationshipFilter.optional_resource_id
           (ReadRelationshipsRequest.relationship_filter request) = "0").
Proof.
  intros Hlimit Hcursor Hrelation Hsubject Hid.
  assert (Hl : match limit with
               | None => Ok 0%Z
               | Some n => uint32 n
               end = Ok 0%Z).
  { destruct limit as [n|]; [|done]. cbn in Hlimit.
    apply bool_decide_eq_false in Hlimit.
    by destruct (decide (n = 0%Z)) as [->|]. }
  unfold AuthzedGrpcReads.relations_request,
    AuthzedGrpcReads.resources_request,
    AuthzedGrpcReads.resources_with_relations_request,
    AuthzedGrpcReads.subjects_with_relations_request,
    AuthzedGrpcReads.cursor_of, AuthzedGrpcReads.limit_of.
  rewrite Hlimit, Hcursor, Hrelation, Hsubject, Hid, Hl.
  cbn [result_bind truthy_int truthy_str truthy_id].
  split_and!; by eexists.
Qed.

Lemma falsy_arguments_are_absent_witness :
  AuthzedGrpcReads.relations_request "doc" (IdInt 1) "user" (IdInt 1)
    (Some 0%Z) (Some "")
  = AuthzedGrpcReads.relations_request "doc" (IdInt 1) "user" (IdInt 1)
      None None
  ∧ AuthzedGrpcReads.subjects_with_relations_request "doc" (Some (IdInt 0))
      (Some "") (Some 0%Z) (Some "")
    = AuthzedGrpcReads.subjects_with_relations_request "doc" None None None
        None.
Proof.
  destruct (falsy_arguments_are_absent "doc" "user" "view" (IdInt 1) (IdInt 1)
              (Some 0%Z) (Some "") (Some "") (Some "") (Some (IdInt 0)))
    as ((r1 & Hrelations & Hrelations') & _ & _
        & (r2 & Hsubjects & Hsubjects' & _) & _);
    [reflexivity.. |].
  split; [by rewrite Hrelations, Hrelations'
         | by rewrite Hsubjects, Hsubjects'].
Defined.

(** ** The order of the keys *)
Section key_order_lemmas.
Context {K : Type} `{EqDecision K}.

(** A loop that enters one key per element, leaving the keys already
    there in place, lists the new keys in the order in which they are
    first seen. *)
Lemma foldl_keys_first_seen {V A} (step : PyDict.t K V → A → PyDict.t K V)
    (key : A → K) (l : list A) (d : PyDict.t K V) :
  (∀ d x, PyDict.keys (step d x)
          = if decide (key x ∈ PyDict.keys d) then PyDict.keys d
            else PyDict.keys d ++ [key x]) →
  PyDict.keys (foldl step d l)
  = PyDict.keys d ++ filter (λ k, k ∉ PyDict.keys d) (first_seen (key <$> l)).
Proof.
  intros Hstep. revert d. induction l as [|x l IH]; intros d.
  - cbn. by rewrite app_nil_r.
  - cbn [foldl]. rewrite IH, Hstep. cbn [fmap list_fmap first_seen].
    destruct (decide (key x ∈ PyDict.keys d)) as [Hin|Hnin].
    + rewrite filter_cons_False by (intros Hn; by apply Hn).
      f_equal. rewrite list_filter_filter. apply list_filter_iff.
      intros k. split; [|by intros [? _]].
      intros Hk. split; [done |]. by intros ->.
    + rewrite filter_cons_True by done. rewrite <- app_assoc. cbn [app].
      do 2 f_equal. rewrite list_filter_filter. apply list_filter_iff.
      intros k. rewrite not_elem_of_app, list_elem_of_singleton. done.
Qed.

Lemma filter_not_in_nil (l : list K) :
  filter (λ k, k ∉ @nil K) l = l.
Proof.
  induction l as [|k l IH]; [done |].
  rewrite filter_cons_True by apply not_elem_of_nil. by rewrite IH.
Qed.

Lemma comprehension_keys_order {V} (f : K → V) (l : list K) :
  PyDict.keys (PyDict.comprehension f l) = first_seen l.
Proof.
  unfold PyDict.comprehension.
  rewrite (foldl_keys_first_seen _ id) by (intros; apply keys_set).
  unfold PyDict.empty, PyDict.keys. cbn [fmap list_fmap app].
  by rewrite filter_not_in_nil, list_fmap_id.
Qed.

Lemma comprehension_items_keys_order {V W} (f : K → W → V)
    (its : list (K * W)) :
  PyDict.keys (PyDict.comprehension_items f its) = first_seen its.*1.
Proof.
  unfold PyDict.comprehension_items.
  rewrite (foldl_keys_first_seen _ fst) by (intros; apply keys_set).
  unfold PyDict.empty, PyDict.keys. cbn [fmap list_fmap app].
  by rewrite filter_not_in_nil.
Qed.
End key_order_lemmas.

Lemma apply_pairs_granted pairs (d : PyDict.t CheckRequest.t Access.t) :
  AuthzedGrpc.apply_pairs pairs d
  = foldl (λ d pair,
             PyDict.set d (AuthzedGrpc.pair_check_request pair) Access.allow)
      d (filter (λ pair, BulkCheckPermissionPair.item_permissionship pair
                         = PERMISSIONSHIP_HAS_PERMISSION) pairs).
Proof.
  revert d. induction pairs as [|pair pairs IH]; intros d; [done |].
  rewrite apply_pairs_cons, IH. case_decide as Hpair.
  - by rewrite filter_cons_True.
  - by rewrite filter_cons_False.
Qed.

Lemma fst_imap_pair {A B} (g : nat → A → B) (l : list A) :
  (imap (λ i x, (x, g i x)) l).*1 = l.
Proof.
  revert g. induction l as [|x l IH]; intros g; [done |].
  cbn [imap fmap list_fmap fst]. f_equal. apply (IH (g ∘ S)).
Qed.

(** X13: the mappings keep the order of the input.  [check_many] lists
    the requests in the order in which they are first seen in the input,
    and after them the granted tuples that were not asked about, in the
    order of the response; [resources_many], which returns as long as no
    consulted sub-lookup has ended cancelled, lists the requests in the
    order in which they are first seen. *)
Theorem mappings_keep_the_input_order {Service} (client : AsyncClient Service)
    (asyncio_wait : list ResourcesCall → Service → (nat → TaskState) * Service)
    (w : World Service) :
  (∀ requests fc ml response s',
     requests ≠ [] →
     BulkCheckPermission client
       (AuthzedGrpc.bulk_check_permission_request requests fc ml) (service w)
     = (Ok response, s') →
     ∃ result w',
       AuthzedGrpc.check_many client requests fc ml w = (Ok result, w')
       ∧ PyDict.keys result
         = first_seen requests
           ++ filter (λ key, key ∉ requests)
                (first_seen
                   (AuthzedGrpc.pair_check_request <$>
                      filter (λ pair,
                                BulkCheckPermissionPair.item_permissionship pair
                                = PERMISSIONSHIP_HAS_PERMISSION)
                        (BulkCheckPermissionResponse.pairs response))))
  ∧ (∀ requests limit cursor,
       none_cancelled
         (asyncio_wait ((λ request, sub_lookup request limit cursor)
                          <$> requests) (service w)).1 requests →
       ∃ result w',
         AuthzedGrpc.resources_many asyncio_wait requests limit cursor w
         = (Ok result, w')
         ∧ PyDict.keys result = first_seen requests).
Proof.
  split.
  - intros requests fc ml response s' Hne Hrpc.
    destruct requests as [|r rest]; [done |].
    rewrite check_many_unfold. cbv zeta. rewrite Hrpc.
    eexists _, _. split; [reflexivity |].
    rewrite apply_pairs_granted.
    rewrite (foldl_keys_first_seen _ AuthzedGrpc.pair_check_request)
      by (intros; apply keys_set).
    rewrite comprehension_keys_order. f_equal.
    apply list_filter_iff. intros key. by rewrite elem_of_first_seen.
  - intros requests limit cursor Hnone.
    destruct (resources_many_run asyncio_wait requests limit cursor w Hnone)
      as (w' & Hrun & _).
    eexists _, w'. split; [exact Hrun |].
    rewrite (keys_fmap_values (λ task, task_outcome (_ (task_id task)))).
    unfold AuthzedGrpc.create_tasks.
    by rewrite comprehension_items_keys_order, fst_imap_pair.
Qed.

Lemma mappings_keep_the_input_order_witness :
  (∃ result w',
     AuthzedGrpc.check_many (Toy.client Toy.acked)
       [Toy.view_doc1_user2; Toy.view_doc1_user1; Toy.view_doc1_user2]
       false false Toy.world0 = (Ok result, w')
     ∧ PyDict.keys result = [Toy.view_doc1_user2; Toy.view_doc1_user1])
  ∧ ∃ result w',
      AuthzedGrpc.resources_many Toy.wait
        [Toy.lookup "share"; Toy.lookup "view"; Toy.lookup "share"] None None
        Toy.world0 = (Ok result, w')
      ∧ PyDict.keys result = [Toy.lookup "share"; Toy.lookup "view"].
Proof.
  destruct (mappings_keep_the_input_order (Toy.client Toy.acked) Toy.wait
              Toy.world0) as [Hcheck Hresources].
  split.
  - edestruct (Hcheck [Toy.view_doc1_user2; Toy.view_doc1_user1;
                       Toy.view_doc1_user2] false false)
      as (result & w' & Hrun & Hkeys); [done | reflexivity |].
    exists result, w'. split; [exact Hrun |]. rewrite Hkeys. reflexivity.
  - destruct (Hresources [Toy.lookup "share"; Toy.lookup "view";
                          Toy.lookup "share"] None None)
      as (result & w' & Hrun & Hkeys).
    { intros [|[|i]] request _; discriminate. }
    exists result, w'. split; [exact Hrun |]. rewrite Hkeys. reflexivity.
Defined.

(** On the empty list [resources_many] returns the empty mapping
    without waiting: the world, the service included, is left as it
    was, whatever the event loop would do. *)
Lemma resources_many_empty {Service}
    (asyncio_wait : list ResourcesCall → Service → (nat → TaskState) * Service)
    (limit : option Z) (cursor : option string) (w : World Service) :
  AuthzedGrpc.resources_many asyncio_wait [] limit cursor w
  = (Ok PyDict.empty, w).
Proof. done. Qed.

(** ** Requests and what goes on the wire *)



(** X15: [check] and [check_many] ask the same question.  For the same
    flags both attach the same consistency requirement, and the bulk
    request has one item per input request, repeats included and in the
    input order, each with the resource, the permission and the subject
    that [check] sends for that request. *)
Theorem check_and_check_many_ask_alike (requests : list CheckRequest.t)
    (fc ml : bool) :
  let bulk := AuthzedGrpc.bulk_check_permission_request requests fc ml in
  length (BulkCheckPermissionRequest.items bulk) = length requests
  ∧ ∀ i request,
      requests !! i = Some request →
      let single := AuthzedGrpc.check_permission_request request fc ml in
      CheckPermissionRequest.consistency single
      = BulkCheckPermissionRequest.consistency bulk
      ∧ ∃ item,
          BulkCheckPermissionRequest.items bulk !! i = Some item
          ∧ BulkCheckPermissionRequestItem.resource item
            = CheckPermissionRequest.resource single
          ∧ BulkCheckPermissionRequestItem.permission item
            = CheckPermissionRequest.permission single
          ∧ BulkCheckPermissionRequestItem.subject item
            = CheckPermissionRequest.subject single.
Proof.
  cbv zeta. unfold AuthzedGrpc.bulk_check_permission_request.
  cbn [BulkCheckPermissionRequest.items BulkCheckPermissionRequest.consistency].
  split; [apply length_fmap |].
  intros i request Hi. split; [done |].
  exists (AuthzedGrpc.bulk_check_permission_request_item request).
  split; [|done]. by rewrite list_lookup_fmap, Hi.
Qed.

Lemma check_and_check_many_ask_alike_witness :
  ∃ item,
    BulkCheckPermissionRequest.items
      (AuthzedGrpc.bulk_check_permission_request
         [Toy.view_doc1_user1; Toy.view_doc1_user2; Toy.view_doc1_user1]
         false true) !! 2 = Some item
    ∧ BulkCheckPermissionRequestItem.subject item
      = CheckPermissionRequest.subject
          (AuthzedGrpc.check_permission_request Toy.view_doc1_user1 false true).
Proof.
  destruct (check_and_check_many_ask_alike
              [Toy.view_doc1_user1; Toy.view_doc1_user2; Toy.view_doc1_user1]
              false true) as [_ Hitems].
  destruct (Hitems 2 Toy.view_doc1_user1 eq_refl)
    as (_ & item & Hitem & _ & _ & Hsubject).
  by exists item.
Defined.

(** X16: only [CheckRequest] normalises its identifiers.  A
    [ResourcesRequest] with an integer subject id and one with its
    decimal string are different keys, so [resources_many] gives each an
    entry of its own (whenever neither sub-lookup has ended cancelled),
    although both make [resources] build the same lookup request;
    likewise two relation updates that differ only in this way are
    different values that go on the wire as the same update. *)
Theorem only_check_request_normalises {Service}
    (asyncio_wait : list ResourcesCall → Service → (nat → TaskState) * Service)
    (subject_type resource_type permission relation : string) (n m : Z)
    (limit : option Z) (cursor : option string) (w : World Service) :
  let a := {| ResourcesRequest.subject_type := subject_type;
              ResourcesRequest.subject_id := IdInt n;
              ResourcesRequest.resource_type := resource_type;
              ResourcesRequest.permission := permission |} in
  let b := {| ResourcesRequest.subject_type := subject_type;
              ResourcesRequest.subject_id := IdStr (pretty n);
              ResourcesRequest.resource_type := resource_type;
              ResourcesRequest.permission := permission |} in
  a ≠ b
  ∧ (none_cancelled
       (asyncio_wait ((λ request, sub_lookup request limit cursor)
                        <$> [a; b]) (service w)).1 [a; b] →
     ∃ result w',
       AuthzedGrpc.resources_many asyncio_wait [a; b] limit cursor w
       = (Ok result, w')
       ∧ PyDict.keys result = [a; b])
  ∧ AuthzedGrpcReads.resources_request resource_type permission subject_type
      (ResourcesRequest.subject_id a) limit cursor
    = AuthzedGrpcReads.resources_request resource_type permission
        subject_type (ResourcesRequest.subject_id b) limit cursor
  ∧ (fits_uint32 limit →
     ∃ request,
       AuthzedGrpcReads.resources_request resource_type permission
         subject_type (ResourcesRequest.subject_id a) limit cursor
       = Ok request
       ∧ object_id (object (LookupResourcesRequest.subject request))
         = pretty n)
  ∧ (∀ update_type,
       let u := RelationUpdateRequest.init subject_type (IdInt n)
                  resource_type (IdInt m) relation None update_type in
       let v := RelationUpdateRequest.init subject_type (IdStr (pretty n))
                  resource_type (IdStr (pretty m)) relation None
                  update_type in
       u ≠ v
       ∧ AuthzedGrpc.relationship_update u
         = AuthzedGrpc.relationship_update v).
Proof.
  cbv zeta. split_and!.
  - discriminate.
  - intros Hnone.
    destruct (resources_many_run asyncio_wait
                [ {| ResourcesRequest.subject_type := subject_type;
                     ResourcesRequest.subject_id := IdInt n;
                     ResourcesRequest.resource_type := resource_type;
                     ResourcesRequest.permission := permission |};
                  {| ResourcesRequest.subject_type := subject_type;
                     ResourcesRequest.subject_id := IdStr (pretty n);
                     ResourcesRequest.resource_type := resource_type;
                     ResourcesRequest.permission := permission |} ]
                limit cursor w Hnone) as (w' & Hrun & _).
    eexists _, w'. split; [exact Hrun |].
    rewrite (keys_fmap_values (λ task, task_outcome (_ (task_id task)))).
    unfold AuthzedGrpc.create_tasks.
    rewrite comprehension_items_keys_order, fst_imap_pair.
    cbn [first_seen]. rewrite filter_nil.
    by rewrite filter_cons_True, filter_nil.
  - reflexivity.
  - intros Hfits. unfold AuthzedGrpcReads.resources_request. cbv zeta.
    rewrite (constructor_limit_fits limit Hfits). cbn [result_bind].
    by eexists.
  - intros update_type. split; [discriminate | reflexivity].
Qed.

Lemma only_check_request_normalises_witness :
  ∃ result w',
    AuthzedGrpc.resources_many Toy.wait
      [ {| ResourcesRequest.subject_type := "user";
           ResourcesRequest.subject_id := IdInt 1;
           ResourcesRequest.resource_type := "doc";
           ResourcesRequest.permission := "view" |};
        {| ResourcesRequest.subject_type := "user";
           ResourcesRequest.subject_id := IdStr "1";
           ResourcesRequest.resource_type := "doc";
           ResourcesRequest.permission := "view" |} ] None None Toy.world0
    = (Ok result, w')
    ∧ length (PyDict.keys result) = 2.
Proof.
  destruct (only_check_request_normalises Toy.wait "user" "doc" "view" "owner"
              1 1 None None Toy.world0) as (_ & Hmany & _).
  destruct Hmany as (result & w' & Hrun & Hkeys).
  { intros [|[|i]] request _; discriminate. }
  exists result, w'. split; [exact Hrun |]. by rewrite Hkeys.
Defined.
